(** * pdf2xls: the conversion routine of [src/pdf2xls/pdf2xls.py]

    A shallow embedding of [mm_to_points], [write_text_to_sheet],
    [write_table_to_sheet], [pdf_to_excel] and [main].

    The PDF reader (pdfplumber) and the spreadsheet writer (openpyxl) are
    external collaborators.  The reader and the file system are a [world]
    the routine consults; the spreadsheet is a value the routine builds.
    What the routine does to the outside (opening and closing the document,
    cropping a page, saving, printing) is recorded as a trace of events, and
    Python exceptions are an explicit [Raise] outcome. *)

From Stdlib Require Import ZArith String Ascii List Bool Lia.
From Stdlib Require Import Floats.PrimFloat.
From Stdlib Require Floats.FloatOps Floats.FloatAxioms.
From stdpp Require Import base option list gmap strings pretty.

Set Warnings "-inexact-float".
Local Open Scope Z_scope.

(** ** Python strings *)

(** The line feed of the f-string ["Page {i + 1}:\n{page_text}"]. *)
Definition nl : string := String (ascii_of_nat 10) EmptyString.

(** [str.lower()] on one character.  A character stands for a code point
    below 256: the ASCII capitals and the capitals of the Latin-1 block are
    moved 32 places up, everything else is kept. *)
Definition lower_char (c : ascii) : ascii :=
  let n := nat_of_ascii c in
  if ((65 <=? n) && (n <=? 90) || (192 <=? n) && (n <=? 214)
      || (216 <=? n) && (n <=? 222))%nat
  then ascii_of_nat (n + 32) else c.

Fixpoint lower (s : string) : string :=
  match s with
  | EmptyString => EmptyString
  | String c s' => String (lower_char c) (lower s')
  end.

(** [s.endswith(suffix)] *)
Definition endswith (s suffix : string) : bool :=
  (String.length suffix <=? String.length s)%nat
  && String.eqb
       (substring (String.length s - String.length suffix)
                  (String.length suffix) s)
       suffix.

(** [enumerate(l, start=k)] *)
Fixpoint enumerate {A} (start : nat) (l : list A) : list (nat * A) :=
  match l with
  | [] => []
  | x :: l' => (start, x) :: enumerate (S start) l'
  end.

(** [range(lo, hi)]: empty when [hi <= lo]. *)
Definition range (lo hi : Z) : list Z := seqZ lo (hi - lo).

(** ** Exceptions *)

(** The exception classes the routine raises or names in a handler, a class
    for any other [Exception] a collaborator may raise (named by its Python
    name), and [KeyboardInterrupt], which is a [BaseException] only. *)
Inductive exn_class :=
| FileNotFoundError
| OSError            (* [IOError] is an alias of [OSError] *)
| ValueError
| IndexError
| RuntimeError
| TypeError
| AttributeError
| OtherException (name : string)
| KeyboardInterrupt.

(** An exception: its class and [str(e)]. *)
Record exn := Exn { exn_cls : exn_class; exn_str : string }.

(** [issubclass c d] on the classes above: [FileNotFoundError] derives from
    [OSError]; the other classes are unrelated to each other. *)
Definition issubclass (c d : exn_class) : bool :=
  match c, d with
  | FileNotFoundError, FileNotFoundError => true
  | FileNotFoundError, OSError => true
  | OSError, OSError => true
  | ValueError, ValueError => true
  | IndexError, IndexError => true
  | RuntimeError, RuntimeError => true
  | TypeError, TypeError => true
  | AttributeError, AttributeError => true
  | OtherException n, OtherException m => String.eqb n m
  | KeyboardInterrupt, KeyboardInterrupt => true
  | _, _ => false
  end.

Definition isinstance (e : exn) (c : exn_class) : bool :=
  issubclass (exn_cls e) c.

(** [isinstance(e, Exception)] *)
Definition is_Exception (e : exn) : bool :=
  match exn_cls e with
  | KeyboardInterrupt => false
  | _ => true
  end.

Inductive outcome (A : Type) :=
| Return (a : A)
| Raise (e : exn).
Arguments Return {A} a.
Arguments Raise {A} e.

(** ** Numbers and the crop region *)

(** The tuple [(0, header_height, page.width, page_height - footer_height)]:
    its first component is the integer literal [0], the others are floats. *)
Record bbox := BBox { x0 : Z; top : float; x1 : float; bottom : float }.

(** ** The spreadsheet collaborator (openpyxl) *)

(** A cell value: a string, or [None] for an empty cell. *)
Abbreviation cell_value := (option string).

(** A table as [extract_tables] returns it: rows of cells, rows of any length. *)
Abbreviation table := (list (list cell_value)).

(** A worksheet: its title and its cells, keyed by (row, column), 1-based. *)
Record sheet := Sheet { title : string; cells : gmap (nat * nat) cell_value }.

(** A workbook: its worksheets in order.  A worksheet object held by the
    routine ([text_sheet], [table_sheet]) is its position in this list. *)
Abbreviation workbook := (list sheet).

(** What [Workbook()] returns: one empty worksheet, the active one. *)
Definition new_workbook : workbook := [Sheet "Sheet" ∅].
Definition active : nat := 0%nat.

(** [sheet.title = t] *)
Definition set_title (t : string) (s : sheet) : sheet := Sheet t (cells s).

(** The longest string a cell holds. *)
Definition max_cell_length : nat := Z.to_nat 32767.
Arguments max_cell_length : simpl never.

(** [value[:32767]] *)
Definition stored (value : string) : string :=
  substring 0 max_cell_length value.

(** The characters of [ILLEGAL_CHARACTERS_RE]: the control characters
    0-8, 11-12 and 14-31 (all below 32 but tab, line feed and carriage
    return). *)
Definition illegal_char (c : ascii) : bool :=
  let n := nat_of_ascii c in
  ((n <=? 8) || (11 <=? n) && (n <=? 12) || (14 <=? n) && (n <=? 31))%nat.

Fixpoint has_illegal (s : string) : bool :=
  match s with
  | EmptyString => false
  | String c s' => illegal_char c || has_illegal s'
  end.

(** [Cell.check_string(value)], which the setter of a cell's value applies
    to a string: the string is cut to its first 32767 characters, and refused
    with an [IllegalCharacterError] (an [Exception]) when what is left has an
    illegal character. *)
Definition check_string (value : string) : outcome string :=
  let value := stored value in
  if has_illegal value
  then Raise (Exn (OtherException "IllegalCharacterError")
                  (value +:+ " cannot be used in worksheets."))
  else Return value.

(** What [sheet.cell(row=r, column=c, value=v)] does to the worksheet once
    the value is accepted: the cell is created when absent; its value is
    assigned only when [v] is not [None]. *)
Definition put_cell (row column : nat) (value : cell_value) (s : sheet) : sheet :=
  match value, cells s !! (row, column) with
  | None, Some _ => s
  | _, _ => Sheet (title s) (<[(row, column) := value]> (cells s))
  end.

(** [sheet.cell(row=r, column=c, value=v)]: a string goes through
    [check_string] before it is assigned. *)
Definition cell (row column : nat) (value : cell_value) (s : sheet)
  : outcome sheet :=
  match value with
  | None => Return (put_cell row column None s)
  | Some x =>
      match check_string x with
      | Return x' => Return (put_cell row column (Some x') s)
      | Raise e => Raise e
      end
  end.

(** [workbook.create_sheet(title=t)]: a new empty worksheet at the end; the
    result is the workbook and the position of the new worksheet.  (openpyxl
    renames a worksheet whose title is taken; the titles the routine asks for
    are pairwise different, see [table_title].) *)
Definition create_sheet (t : string) (wb : workbook) : workbook * nat :=
  (wb ++ [Sheet t ∅], length wb).

(** Apply a worksheet operation to the worksheet at position [idx]. *)
Definition on_sheet (idx : nat) (f : sheet → sheet) (wb : workbook) : workbook :=
  alter f idx wb.

(** What a successful [write_text_to_sheet], [write_table_to_sheet] and
    lines 148-150 leave, given the values as they are stored. *)
Definition put_text (text_data : list string) (s : sheet) : sheet :=
  fold_left (fun s '(i, line) => put_cell i 1 (Some line) s)
            (enumerate 1 text_data) s.

Definition put_row (row_idx : nat) (row : list cell_value) (s : sheet) : sheet :=
  fold_left (fun s '(col_idx, value) => put_cell row_idx col_idx value s)
            (enumerate 1 row) s.

Definition put_table (t : table) (s : sheet) : sheet :=
  fold_left (fun s '(row_idx, row) => put_row row_idx row s)
            (enumerate 1 t) s.

(** ** The PDF collaborator (pdfplumber) and the file system *)

(** The view [page.within_bbox(box)] gives: what its two extraction methods
    answer. *)
Record cropped_page := CroppedPage {
  extract_text : outcome (option string);
  extract_tables : outcome (list table)
}.

Record page := Page {
  width : float;
  height : float;
  within_bbox : bbox → outcome cropped_page
}.

Record world := World {
  (** [os.path.exists(path)] *)
  path_exists : string → bool;
  (** [pdfplumber.open(path)]: the pages of the document, or an exception *)
  pdfplumber_open : string → outcome (list page);
  (** [Workbook()]: the exception it raises, if it raises one *)
  Workbook_raises : option exn;
  (** [workbook.save(path)] *)
  workbook_save : workbook → string → outcome unit
}.

(** ** Effects *)

Inductive event :=
| EvOpen (path : string)             (* [pdfplumber.open] returned a handle *)
| EvClose                            (* [pdf.close()] *)
| EvWithinBBox (i : Z) (box : bbox)  (* [pdf.pages[i].within_bbox(box)] *)
| EvSave (path : string) (wb : workbook)  (* [workbook.save(path)] is called *)
| EvPrint (line : string)            (* [print(line)] *)
| EvLog (line : string).             (* [LOG.info(line)] *)

(** A computation: the events it emits, in order, and how it ends. *)
Definition M (A : Type) : Type := list event * outcome A.

Definition ret {A} (a : A) : M A := ([], Return a).
Definition raise {A} (e : exn) : M A := ([], Raise e).
Definition emit (ev : event) : M unit := ([ev], Return tt).
Definition of_outcome {A} (o : outcome A) : M A := ([], o).

Definition bind {A B} (m : M A) (k : A → M B) : M B :=
  match m with
  | (t, Return a) => let '(t', r) := k a in (t ++ t', r)
  | (t, Raise e) => (t, Raise e)
  end.

#[global] Instance M_ret : MRet M := @ret.
#[global] Instance M_bind : MBind M := fun A B k m => bind m k.

(** [try: m  except ...: h]: [h e] is the handler of the first clause that
    matches [e], or [None] when no clause matches. *)
Definition try_except {A} (m : M A) (h : exn → option (M A)) : M A :=
  match m with
  | (t, Return a) => (t, Return a)
  | (t, Raise e) =>
      match h e with
      | Some k => let '(t', r) := k in (t ++ t', r)
      | None => (t, Raise e)
      end
  end.

(** [try: m  finally: f] *)
Definition try_finally {A} (m : M A) (f : M unit) : M A :=
  match m, f with
  | (t, r), (t', Return _) => (t ++ t', r)
  | (t, _), (t', Raise e) => (t ++ t', Raise e)
  end.

(** [for x in l: body], threading the loop's variables. *)
Fixpoint for_each {A S} (body : A → S → M S) (l : list A) (s : S) : M S :=
  match l with
  | [] => ret s
  | x :: l' => s' ← body x s; for_each body l' s'
  end.

(** ** The source functions *)

(** [mm_to_points] *)
Definition mm_to_points (mm : float) : float := (mm * 2.83465)%float.

(** [mm_to_points] called with an argument that may be [None]. *)
Definition call_mm_to_points (mm : option float) : M float :=
  match mm with
  | Some x => ret (mm_to_points x)
  | None =>
      raise (Exn TypeError
               "unsupported operand type(s) for *: 'NoneType' and 'float'")
  end.

(** [write_text_to_sheet] *)
Definition write_text_to_sheet (text_data : list string) (s : sheet) : M sheet :=
  for_each (fun '(i, line) s => of_outcome (cell i 1 (Some line) s))
           (enumerate 1 text_data) s.

(** [write_table_to_sheet]: the inner loop, then the outer loop. *)
Definition write_row (row_idx : nat) (row : list cell_value) (s : sheet)
  : M sheet :=
  for_each (fun '(col_idx, value) s => of_outcome (cell row_idx col_idx value s))
           (enumerate 1 row) s.

Definition write_table_to_sheet (t : table) (s : sheet) : M sheet :=
  for_each (fun '(row_idx, row) s => write_row row_idx row s)
           (enumerate 1 t) s.

(** A call [f(sheet, ...)] on the worksheet at position [idx], which [f]
    changes in place. *)
Definition update_sheet (idx : nat) (f : sheet → M sheet) (wb : workbook)
  : M workbook :=
  match wb !! idx with
  | Some s => s' ← f s; ret (<[idx := s']> wb)
  | None => ret wb
  end.

(** [range(start_page - 1, end_page)], where either bound may be [None]. *)
Definition call_range (start_page end_page : option Z) : M (list Z) :=
  match start_page, end_page with
  | None, _ =>
      raise (Exn TypeError
               "unsupported operand type(s) for -: 'NoneType' and 'int'")
  | Some _, None =>
      raise (Exn TypeError
               "'NoneType' object cannot be interpreted as an integer")
  | Some s, Some e => ret (range (s - 1) e)
  end.

(** [pages[i]] on a Python list: a negative index counts from the end. *)
Definition index_page (pages : list page) (i : Z) : option page :=
  let n := Z.of_nat (length pages) in
  if 0 <=? i then pages !! Z.to_nat i
  else if - n <=? i then pages !! Z.to_nat (n + i)
  else None.

(** Lines 129-132: [pdf.pages[i]], its [IndexError] replaced by one that
    names the page and the page count. *)
Definition get_page (pages : list page) (i : Z) : M page :=
  match index_page pages i with
  | Some p => ret p
  | None =>
      raise (Exn IndexError
               ("Page " +:+ pretty (i + 1) +:+ " is out of range. The PDF has "
                +:+ pretty (length pages) +:+ " pages."))
  end.

(** Lines 135-138 *)
Definition cropping_box (header_height footer_height : float) (p : page) : bbox :=
  let page_height := height p in
  BBox 0 header_height (width p) (page_height - footer_height)%float.

(** ["Page {i + 1}:\n{page_text}"] *)
Definition text_block (i : Z) (page_text : string) : string :=
  "Page " +:+ pretty (i + 1) +:+ ":" +:+ nl +:+ page_text.

(** Lines 143-144: [page_text] is falsy when it is [None] or empty. *)
Definition append_text (i : Z) (page_text : option string)
    (all_text : list string) : list string :=
  match page_text with
  | Some (String _ _ as t) => all_text ++ [text_block i t]
  | Some EmptyString | None => all_text
  end.

(** ["Table_Page_{i + 1}_{table_idx}"] *)
Definition table_title (i : Z) (table_idx : nat) : string :=
  "Table_Page_" +:+ pretty (i + 1) +:+ "_" +:+ pretty table_idx.

(** Lines 148-150 *)
Definition add_table_sheets (i : Z) (tables : list table) (wb : workbook)
  : M workbook :=
  for_each
    (fun '(table_idx, t) wb =>
       let '(wb, table_sheet) := create_sheet (table_title i table_idx) wb in
       update_sheet table_sheet (write_table_to_sheet t) wb)
    (enumerate 1 tables) wb.

(** Lines 141-150: what the loop does with the cropped view of page
    [i + 1]. *)
Definition extract_page (i : Z) (cropped_page : cropped_page)
    (st : list string * workbook) : M (list string * workbook) :=
  let '(all_text, wb) := st in
  page_text ← of_outcome (extract_text cropped_page);
  let all_text := append_text i page_text all_text in
  tables ← of_outcome (extract_tables cropped_page);
  wb ← add_table_sheets i tables wb;
  ret (all_text, wb).

(** The body of the [for] loop, lines 129-150; the loop's variables are
    [all_text] and [workbook]. *)
Definition process_page (pages : list page) (header_height footer_height : float)
    (i : Z) (st : list string * workbook) : M (list string * workbook) :=
  p ← get_page pages i;
  let box := cropping_box header_height footer_height p in
  emit (EvWithinBBox i box);;
  cropped_page ← of_outcome (within_bbox p box);
  extract_page i cropped_page st.

(** Lines 128-150: the [for] loop over [range(start_page - 1, end_page)]. *)
Definition page_loop (pages : list page) (header_height footer_height : float)
    (start_page end_page : option Z) (st : list string * workbook)
  : M (list string * workbook) :=
  indices ← call_range start_page end_page;
  for_each (process_page pages header_height footer_height) indices st.

(** [except Exception as e: raise C(f"{prefix}{e}")] *)
Definition reraise {A} (c : exn_class) (prefix : string) (e : exn)
  : option (M A) :=
  if is_Exception e then Some (raise (Exn c (prefix +:+ exn_str e))) else None.

Section Conversion.
Context (w : world).

(** [Workbook()] *)
Definition Workbook : M workbook :=
  match Workbook_raises w with
  | Some e => raise e
  | None => ret new_workbook
  end.

(** Lines 98-167: the body of the outer [try]. *)
Definition pdf_to_excel_body (input_file : string) (output_file : option string)
    (start_page end_page : option Z)
    (header_height_mm footer_height_mm : option float) : M unit :=
  if negb (path_exists w input_file) then
    raise (Exn FileNotFoundError
             ("The input file '" +:+ input_file +:+ "' does not exist."))
  else if negb (endswith (lower input_file) ".pdf") then
    raise (Exn ValueError "The input file must be a PDF.")
  else
    match output_file with
    | None =>
        (* [output_file.lower()] on [None] *)
        raise (Exn AttributeError "'NoneType' object has no attribute 'lower'")
    | Some output_file =>
    if negb (endswith (lower output_file) ".xlsx") then
      raise (Exn ValueError "The output file must have an .xlsx extension.")
    else
      header_height ← call_mm_to_points header_height_mm;
      footer_height ← call_mm_to_points footer_height_mm;
      pages ← try_except
                 (pages ← of_outcome (pdfplumber_open w input_file);
                  emit (EvOpen input_file);;
                  ret pages)
                 (reraise OSError "Failed to open the PDF file: ");
      wb ← Workbook;
      let text_sheet := active in
      let wb := on_sheet text_sheet (set_title "Text_Body") wb in
      let all_text := [] in
      '(all_text, wb) ←
        try_finally
          (try_except
             (page_loop pages header_height footer_height
                        start_page end_page (all_text, wb))
             (reraise RuntimeError "Error processing PDF pages: "))
          (emit EvClose);
      wb ← update_sheet text_sheet (write_text_to_sheet all_text) wb;
      try_except
        (emit (EvSave output_file wb);;
         of_outcome (workbook_save w wb output_file))
        (reraise OSError "Failed to save the Excel file: ");;
      emit (EvPrint ("PDF data successfully converted to " +:+ output_file))
    end.

(** Lines 169-178: the [except] clauses of the outer [try], in order. *)
Definition handlers (e : exn) : option (M unit) :=
  if isinstance e FileNotFoundError then
    Some (emit (EvPrint ("File error: " +:+ exn_str e)))
  else if isinstance e ValueError then
    Some (emit (EvPrint ("Value error: " +:+ exn_str e)))
  else if isinstance e IndexError then
    Some (emit (EvPrint ("Index error: " +:+ exn_str e)))
  else if isinstance e OSError then
    Some (emit (EvPrint ("I/O error: " +:+ exn_str e)))
  else if isinstance e RuntimeError then
    Some (emit (EvPrint ("Runtime error: " +:+ exn_str e)))
  else None.

(** [pdf_to_excel] *)
Definition pdf_to_excel (input_file : string) (output_file : option string)
    (start_page end_page : option Z)
    (header_height_mm footer_height_mm : option float) : M unit :=
  try_except
    (pdf_to_excel_body input_file output_file start_page end_page
                       header_height_mm footer_height_mm)
    handlers.

(** The parsed command line: [input_file] is required, the others are
    [None] when left out. *)
Record args := Args {
  arg_input_file : string;
  arg_output_file : option string;
  arg_start_page : option Z;
  arg_end_page : option Z;
  arg_header_height_mm : option float;
  arg_footer_height_mm : option float;
  arg_verbose : bool
}.

(** [main], from line 207 on. *)
Definition main (a : args) : M Z :=
  (if arg_verbose a then emit (EvPrint "Verbose mode is enabled.") else ret tt);;
  pdf_to_excel (arg_input_file a) (arg_output_file a) (arg_start_page a)
               (arg_end_page a) (arg_header_height_mm a)
               (arg_footer_height_mm a);;
  emit (EvLog "Hello World!");;
  ret 0.

End Conversion.

(** ** Vocabulary of the statements *)

(** The error of the first element of a list that has one. *)
Fixpoint first_error {A} (f : A → option exn) (l : list A) : option exn :=
  match l with
  | [] => None
  | x :: l' => match f x with Some e => Some e | None => first_error f l' end
  end.

(** The error [check_string] raises on a string, if it raises one. *)
Definition string_error (value : string) : option exn :=
  match check_string value with
  | Raise e => Some e
  | Return _ => None
  end.

(** The error of the first string that the spreadsheet refuses: in a list of
    text blocks, in a row, in a table (rows in order, cells in order within a
    row), in a list of tables. *)
Definition text_error (text_data : list string) : option exn :=
  first_error string_error text_data.
Definition row_error (row : list cell_value) : option exn :=
  first_error (fun value : cell_value => value ≫= string_error) row.
Definition table_error (t : table) : option exn :=
  first_error row_error t.
Definition tables_error (tables : list table) : option exn :=
  first_error table_error tables.

(** A table as the spreadsheet stores it: every string cut to its first
    32767 characters. *)
Definition stored_cell (value : cell_value) : cell_value := stored <$> value.
Definition stored_row (row : list cell_value) : list cell_value :=
  stored_cell <$> row.
Definition stored_table (t : table) : table := stored_row <$> t.

(** The table worksheets of page [i + 1] once they were written: one new
    worksheet per table, in order, after those of [wb]. *)
Definition put_table_sheets (i : Z) (tables : list table) (wb : workbook)
  : workbook :=
  fold_left
    (fun wb '(table_idx, t) =>
       let '(wb, table_sheet) := create_sheet (table_title i table_idx) wb in
       on_sheet table_sheet (put_table t) wb)
    (enumerate 1 tables) wb.

(** The worksheets a run has built when it calls [save]: the text worksheet
    holding the text blocks, and the table worksheets of a page. *)
Definition saved_text_sheet (text_data : list string) : sheet :=
  put_text (stored <$> text_data) (Sheet "Text_Body" ∅).
Definition saved_table_sheets (i : Z) (tables : list table) : list sheet :=
  put_table_sheets i (stored_table <$> tables) [].

(** What page [i] gives when its iteration of the loop goes through (the
    lookup, the crop, the two extractions and the writing of the tables all
    succeed): the text and the tables of the cropped view. *)
Definition page_content (pages : list page) (header_height footer_height : float)
    (i : Z) : option (option string * list table) :=
  p ← index_page pages i;
  match within_bbox p (cropping_box header_height footer_height p) with
  | Return c =>
      match extract_text c, extract_tables c with
      | Return page_text, Return tables =>
          match tables_error tables with
          | None => Some (page_text, tables)
          | Some _ => None
          end
      | _, _ => None
      end
  | Raise _ => None
  end.

(** The exception that ends the iteration of the loop on page [p], if its
    crop, one of its two extractions or the writing of its tables raises. *)
Definition page_error (header_height footer_height : float) (p : page)
  : option exn :=
  match within_bbox p (cropping_box header_height footer_height p) with
  | Raise e => Some e
  | Return c =>
      match extract_text c, extract_tables c with
      | Raise e, _ => Some e
      | Return _, Raise e => Some e
      | Return _, Return tables => tables_error tables
      end
  end.

(** The crop calls of the iterations over [indices] whose page exists. *)
Definition crop_events (pages : list page) (header_height footer_height : float)
    (indices : list Z) : list event :=
  omap (fun i => p ← index_page pages i;
                 Some (EvWithinBBox i (cropping_box header_height footer_height p)))
       indices.

(** The worksheet is a verbatim copy of the table: cell (r+1, c+1) holds
    [t[r][c]], and there is no other cell. *)
Definition holds_table (s : sheet) (t : table) : Prop :=
  ∀ r c, cells s !! (r, c)
         = match r, c with
           | S r', S c' => row ← t !! r'; row !! c'
           | _, _ => None
           end.

(** The worksheet holds the list in column 1, entry [j] at row [j+1], and
    there is no other cell. *)
Definition holds_text (s : sheet) (text_data : list string) : Prop :=
  ∀ r c, cells s !! (r, c)
         = match r, c with
           | S j, 1%nat => Some <$> text_data !! j
           | _, _ => None
           end.

(** The indices of the crop calls of a trace, in order. *)
Definition crop_indices (t : list event) : list Z :=
  omap (fun ev => match ev with EvWithinBBox i _ => Some i | _ => None end) t.

(** The cell of table [t] that [write_table_to_sheet] writes at row [r],
    column [c] of the worksheet (both from 1), if there is one. *)
Definition table_cell (t : table) (r c : nat) : option cell_value :=
  match r, c with
  | S r', S c' => row ← t !! r'; row !! c'
  | _, _ => None
  end.

(** The string has only decimal digits and minus signs. *)
Fixpoint numeric (s : string) : bool :=
  match s with
  | EmptyString => true
  | String c s' =>
      let n := nat_of_ascii c in
      ((n =? 45)%nat || (48 <=? n)%nat && (n <=? 57)%nat) && numeric s'
  end.

(** The lines printed, in order. *)
Definition printed (t : list event) : list string :=
  omap (fun ev => match ev with EvPrint line => Some line | _ => None end) t.

(** The error kinds of the specification, as the [except] clauses of
    [pdf_to_excel] tell them apart. *)
Inductive error_kind :=
| NotFound | InvalidInput | OutOfRange | IoError | UnexpectedFailure.

Definition classify (e : exn) : option error_kind :=
  if isinstance e FileNotFoundError then Some NotFound
  else if isinstance e ValueError then Some InvalidInput
  else if isinstance e IndexError then Some OutOfRange
  else if isinstance e OSError then Some IoError
  else if isinstance e RuntimeError then Some UnexpectedFailure
  else None.

Definition kind_label (k : error_kind) : string :=
  match k with
  | NotFound => "File error: "
  | InvalidInput => "Value error: "
  | OutOfRange => "Index error: "
  | IoError => "I/O error: "
  | UnexpectedFailure => "Runtime error: "
  end.

(** ** Example documents *)

(** An A4 page whose cropped view is [c], whatever the crop region. *)
Definition a4 (c : outcome cropped_page) : page :=
  Page 595 842 (fun _ => c).

(** A page with the text ["hello"] and no table. *)
Definition hello_page : page :=
  a4 (Return (CroppedPage (Return (Some "hello")) (Return []))).

(** A page with the text ["last"] and no table. *)
Definition last_page : page :=
  a4 (Return (CroppedPage (Return (Some "last")) (Return []))).

(** A page with no text and one 2x2 table. *)
Definition table_page : page :=
  a4 (Return (CroppedPage (Return None)
                (Return [[[Some "a"; Some "b"]; [Some "c"; Some "d"]]]))).

(** A page whose text extraction fails. *)
Definition broken_page : page :=
  a4 (Return (CroppedPage
                (Raise (Exn (OtherException "PDFSyntaxError") "boom"))
                (Return []))).

(** A page with no text and one table of one cell, which holds the letter
    [a] after the control character of code 1. *)
Definition control_table_page : page :=
  a4 (Return (CroppedPage (Return None) (Return [[[Some (String "001" "a")]]]))).

(** A page with no table and a text that has the control character of code 1
    between the letters [a] and [b]. *)
Definition control_text_page : page :=
  a4 (Return (CroppedPage (Return (Some (String "a" (String "001" "b"))))
                          (Return []))).

(** A string of 32768 letters [a], one more than a cell takes. *)
Definition long_string : string :=
  string_of_list_ascii (repeat "a"%char (S max_cell_length)).

(** A page with no text and one table of one cell, which holds
    [long_string]. *)
Definition long_table_page : page :=
  a4 (Return (CroppedPage (Return None) (Return [[[Some long_string]]]))).

(** The arguments [-i missing.pdf -o out.xlsx -s 1 -e 1 -hh 0 -fh 0]. *)
Definition example_args : args :=
  Args "missing.pdf" (Some "out.xlsx") (Some 1) (Some 1)
       (Some 0%float) (Some 0%float) false.

(** A file system with the files [in.pdf] and [report.txt]; [in.pdf] opens
    as the document [pages]; [Workbook()] raises [wb_exn] if given; saving
    succeeds. *)
Definition example_world (pages : list page) (wb_exn : option exn) : world :=
  World (fun path => String.eqb path "in.pdf" || String.eqb path "report.txt")
        (fun _ => Return pages) wb_exn (fun _ _ => Return tt).

(** * Properties *)

(** ** Strings and numbers *)

Section Strings.
Implicit Types (s pre suffix : string).

Lemma length_append s1 s2 :
  String.length (s1 +:+ s2) = (String.length s1 + String.length s2)%nat.
Proof. induction s1 as [|c s1 IH]; simpl; [done|]. by rewrite IH. Qed.

Lemma substring_all s : substring 0 (String.length s) s = s.
Proof. induction s as [|c s IH]; simpl; [done|]. by rewrite IH. Qed.

Lemma substring_append_r pre suffix :
  substring (String.length pre) (String.length suffix) (pre +:+ suffix) = suffix.
Proof. induction pre as [|c pre IH]; simpl; [apply substring_all|done]. Qed.

Lemma substring_suffix s n :
  (n ≤ String.length s)%nat →
  ∃ pre, s = pre +:+ substring n (String.length s - n) s.
Proof.
  revert n. induction s as [|c s IH]; intros n Hn; simpl in *.
  - exists EmptyString. by destruct n.
  - destruct n as [|n].
    + exists EmptyString. simpl. by rewrite substring_all.
    + destruct (IH n) as [pre Hpre]; [lia|].
      exists (String c pre). by rewrite Hpre at 1.
Qed.

(** [endswith] holds exactly of the strings that end with the suffix. *)
Lemma endswith_spec s suffix :
  endswith s suffix = true ↔ ∃ pre, s = pre +:+ suffix.
Proof.
  unfold endswith. rewrite andb_true_iff, Nat.leb_le, String.eqb_eq. split.
  - intros [Hlen Hsub].
    destruct (substring_suffix s (String.length s - String.length suffix))
      as [pre Hpre]; [lia|].
    exists pre. rewrite Hpre at 1. f_equal. rewrite <- Hsub at 3.
    f_equal. lia.
  - intros [pre ->]. rewrite length_append. split; [lia|].
    replace (String.length pre + String.length suffix - String.length suffix)%nat
      with (String.length pre) by lia.
    apply substring_append_r.
Qed.

Lemma lower_append s1 s2 : lower (s1 +:+ s2) = lower s1 +:+ lower s2.
Proof. induction s1 as [|c s1 IH]; simpl; [done|]. by rewrite IH. Qed.

Lemma length_lower s : String.length (lower s) = String.length s.
Proof. induction s as [|c s IH]; simpl; [done|]. by rewrite IH. Qed.

Lemma lower_substring n m s : lower (substring n m s) = substring n m (lower s).
Proof.
  revert n m. induction s as [|c s IH]; intros [|n] [|m]; simpl; try done;
    by rewrite IH.
Qed.

(** The suffix test of the validations is case-insensitive: it holds
    exactly when the string ends with something whose lower-case form is
    the suffix. *)
Lemma endswith_lower_spec s suffix :
  endswith (lower s) suffix = true
  ↔ ∃ pre u, s = pre +:+ u ∧ lower u = suffix.
Proof.
  split.
  - intros H. unfold endswith in H.
    apply andb_true_iff in H as [Hlen Hsub].
    apply Nat.leb_le in Hlen. apply String.eqb_eq in Hsub.
    rewrite length_lower in Hlen, Hsub.
    destruct (substring_suffix s (String.length s - String.length suffix))
      as [pre Hpre]; [lia|].
    exists pre, (substring (String.length s - String.length suffix)
                   (String.length s
                    - (String.length s - String.length suffix)) s).
    split; [done|]. rewrite lower_substring.
    replace (String.length s - (String.length s - String.length suffix))%nat
      with (String.length suffix) by lia.
    done.
  - intros (pre & u & -> & <-). rewrite lower_append.
    apply endswith_spec. eauto.
Qed.

Example endswith_upper_case : endswith (lower "Report.PDF") ".pdf" = true.
Proof. reflexivity. Qed.

Example endswith_other_suffix : endswith (lower "report.txt") ".pdf" = false.
Proof. reflexivity. Qed.

Example endswith_too_short : endswith (lower "pdf") ".pdf" = false.
Proof. reflexivity. Qed.

End Strings.

Example mm_to_points_0 : mm_to_points 0 = 0%float.
Proof. reflexivity. Qed.

(** 10 mm is 28.3465 points, up to the rounding of the product. *)
Example mm_to_points_10 : mm_to_points 10 = 28.346499999999999%float.
Proof. reflexivity. Qed.

Example range_from_zero : range (0 - 1) 2 = [-1; 0; 1].
Proof. reflexivity. Qed.

Example range_empty : range (3 - 1) 2 = [].
Proof. reflexivity. Qed.

Example index_page_from_end :
  index_page [hello_page; last_page] (-1) = Some last_page
  ∧ index_page [hello_page; last_page] (-2) = Some hello_page
  ∧ index_page [hello_page; last_page] (-3) = None
  ∧ index_page [hello_page; last_page] 2 = None.
Proof. by split_and!. Qed.

(** ** What the spreadsheet helpers leave *)

Section Sheets.
Implicit Types (s : sheet) (r c k : nat) (v : cell_value).

Lemma title_put_cell r c v s : title (put_cell r c v s) = title s.
Proof. unfold put_cell. by destruct v, (cells s !! (r, c)). Qed.

(** Writing to an absent cell stores the value as it is, [None] included. *)
Lemma cells_put_cell_fresh r c v s :
  cells s !! (r, c) = None →
  cells (put_cell r c v s) = <[(r, c) := v]> (cells s).
Proof. intros H. unfold put_cell. rewrite H. by destruct v. Qed.

Lemma cells_put_cell_Some r c line s :
  cells (put_cell r c (Some line) s) = <[(r, c) := Some line]> (cells s).
Proof. done. Qed.

Lemma title_put_row_from r row k s :
  title (fold_left (fun s '(col_idx, value) => put_cell r col_idx value s)
                   (enumerate k row) s) = title s.
Proof.
  revert k s. induction row as [|v row IH]; intros k s; simpl; [done|].
  by rewrite IH, title_put_cell.
Qed.

(** A row written from column [k] on, into a worksheet whose row [r] is
    empty from column [k] on. *)
Lemma lookup_put_row_from r row k s r' c' :
  (∀ c, k ≤ c → cells s !! (r, c) = None)%nat →
  cells (fold_left (fun s '(col_idx, value) => put_cell r col_idx value s)
                   (enumerate k row) s) !! (r', c')
  = if decide (r' = r ∧ k ≤ c')%nat then row !! (c' - k)%nat
    else cells s !! (r', c').
Proof.
  revert k s. induction row as [|v row IH]; intros k s Hfresh; simpl.
  - case_decide as H; [|done]. destruct H as [-> ?]. by rewrite Hfresh.
  - rewrite IH.
    + rewrite cells_put_cell_fresh by (apply Hfresh; lia).
      destruct (decide (r' = r ∧ S k ≤ c')%nat) as [[-> Hc]|Hn].
      * rewrite decide_True by (split; [done|lia]).
        destruct (c' - k)%nat as [|n] eqn:E; [lia|]. simpl. f_equal. lia.
      * destruct (decide (r' = r ∧ k ≤ c')%nat) as [[-> Hc]|Hn'].
        -- assert (c' = k) as -> by (destruct (decide (c' = k)); [done|];
             exfalso; apply Hn; split; [done|lia]).
           rewrite Nat.sub_diag. simpl. by rewrite lookup_insert_eq.
        -- rewrite lookup_insert_ne; [done|].
           intros [= ? ?]. subst. apply Hn'. split; [done|lia].
    + intros c Hc. rewrite cells_put_cell_fresh by (apply Hfresh; lia).
      rewrite lookup_insert_ne by (intros [= ?]; lia). apply Hfresh. lia.
Qed.

Lemma title_put_table_from t k s :
  title (fold_left (fun s '(row_idx, row) => put_row row_idx row s)
                   (enumerate k t) s) = title s.
Proof.
  revert k s. induction t as [|row t IH]; intros k s; simpl; [done|].
  rewrite IH. apply title_put_row_from.
Qed.

(** The rows of a table written from row [k] on, into a worksheet that is
    empty from row [k] on. *)
Lemma lookup_put_table_from t k s r' c' :
  (∀ r c, k ≤ r → cells s !! (r, c) = None)%nat →
  cells (fold_left (fun s '(row_idx, row) => put_row row_idx row s)
                   (enumerate k t) s) !! (r', c')
  = if decide (k ≤ r')%nat
    then row ← t !! (r' - k)%nat;
         if decide (1 ≤ c')%nat then row !! (c' - 1)%nat else None
    else cells s !! (r', c').
Proof.
  revert k s. induction t as [|row t IH]; intros k s Hfresh; simpl.
  - case_decide; [|done]. by rewrite Hfresh.
  - assert (Hrow : ∀ r c, cells (put_row k row s) !! (r, c)
             = if decide (r = k ∧ 1 ≤ c)%nat then row !! (c - 1)%nat
               else cells s !! (r, c)).
    { intros r c. unfold put_row. apply lookup_put_row_from.
      intros c0 _. apply Hfresh. lia. }
    rewrite IH.
    + rewrite Hrow. destruct (decide (S k ≤ r')%nat) as [Hr|Hr].
      * rewrite decide_True by lia.
        destruct (r' - k)%nat as [|n] eqn:E; [lia|]. simpl.
        replace (r' - S k)%nat with n by lia. done.
      * destruct (decide (k ≤ r')%nat) as [Hr'|Hr'].
        -- assert (r' = k) as -> by lia. rewrite Nat.sub_diag. simpl.
           destruct (decide (1 ≤ c')%nat) as [Hc|Hc].
           ++ by rewrite decide_True by done.
           ++ rewrite decide_False by tauto. apply Hfresh. lia.
        -- rewrite decide_False by lia. done.
    + intros r c Hr. rewrite Hrow. rewrite decide_False by lia.
      apply Hfresh. lia.
Qed.

(** [put_table] on a new worksheet: cell (r+1, c+1) holds
    [t[r][c]], and no other cell exists. *)
Lemma put_table_new name t r c :
  cells (put_table t (Sheet name ∅)) !! (r, c)
  = match r, c with
    | S r', S c' => row ← t !! r'; row !! c'
    | _, _ => None
    end.
Proof.
  unfold put_table. rewrite lookup_put_table_from by done.
  destruct r as [|r']; simpl; [done|].
  rewrite Nat.sub_0_r. destruct c as [|c']; simpl.
  - by destruct (_ !! r').
  - by rewrite Nat.sub_0_r.
Qed.

Lemma title_put_table t s :
  title (put_table t s) = title s.
Proof. apply title_put_table_from. Qed.

Lemma title_put_text_from text_data k s :
  title (fold_left (fun s '(i, line) => put_cell i 1 (Some line) s)
                   (enumerate k text_data) s) = title s.
Proof.
  revert k s. induction text_data as [|l text_data IH]; intros k s; simpl;
    [done|]. by rewrite IH.
Qed.

Lemma lookup_put_text_from text_data k s r' c' :
  (∀ r, k ≤ r → cells s !! (r, 1%nat) = None)%nat →
  cells (fold_left (fun s '(i, line) => put_cell i 1 (Some line) s)
                   (enumerate k text_data) s) !! (r', c')
  = if decide (c' = 1 ∧ k ≤ r')%nat then Some <$> text_data !! (r' - k)%nat
    else cells s !! (r', c').
Proof.
  revert k s. induction text_data as [|l text_data IH]; intros k s Hfresh;
    simpl.
  - case_decide as H; [|done]. destruct H as [-> ?]. by rewrite Hfresh.
  - rewrite IH.
    + cbn [cells].
      destruct (decide (c' = 1 ∧ S k ≤ r')%nat) as [[-> Hr]|Hn].
      * rewrite decide_True by (split; [done|lia]).
        destruct (r' - k)%nat as [|n] eqn:E; [lia|]. simpl.
        replace (r' - S k)%nat with n by lia. done.
      * destruct (decide (c' = 1 ∧ k ≤ r')%nat) as [[-> Hr]|Hn'].
        -- assert (r' = k) as -> by (destruct (decide (r' = k)); [done|];
             exfalso; apply Hn; split; [done|lia]).
           rewrite Nat.sub_diag. simpl. by rewrite lookup_insert_eq.
        -- rewrite lookup_insert_ne; [done|].
           intros [= ? ?]. subst. apply Hn'. split; [done|lia].
    + intros r Hr. cbn [cells].
      rewrite lookup_insert_ne by (intros [= ?]; lia). apply Hfresh. lia.
Qed.

(** [put_text] on an empty worksheet: entry [j] is at row
    [j+1], column 1, and no other cell exists. *)
Lemma put_text_new name text_data r c :
  cells (put_text text_data (Sheet name ∅)) !! (r, c)
  = match r, c with
    | S j, 1%nat => Some <$> text_data !! j
    | _, _ => None
    end.
Proof.
  unfold put_text. rewrite lookup_put_text_from by done.
  destruct r as [|j]; simpl.
  - case_decide; [lia|done].
  - case_decide as H.
    + destruct H as [-> _]. by rewrite Nat.sub_0_r.
    + destruct c as [|[|c]]; try done. exfalso. apply H. split; [done|lia].
Qed.

End Sheets.

(** ** The writers *)

Lemma for_each_cons {A S} (body : A → S → M S) x l s :
  for_each body (x :: l) s = body x s ≫= for_each body l.
Proof. done. Qed.

Lemma bind_Return {A B} (t : list event) (a : A) (k : A → M B) :
  ((t, Return a) : M A) ≫= k = (t ++ (k a).1, (k a).2).
Proof. unfold mbind, M_bind, bind. by destruct (k a). Qed.

Lemma bind_nil_Return {A B} (a : A) (k : A → M B) :
  (([], Return a) : M A) ≫= k = k a.
Proof. rewrite bind_Return. by destruct (k a). Qed.

Lemma bind_Raise {A B} (t : list event) (e : exn) (k : A → M B) :
  ((t, Raise e) : M A) ≫= k = (t, Raise e).
Proof. done. Qed.

Lemma bind_of_Return {A B} (a : A) (k : A → M B) :
  of_outcome (Return a) ≫= k = k a.
Proof. apply bind_nil_Return. Qed.

Lemma bind_ret {A B} (a : A) (k : A → M B) : ret a ≫= k = k a.
Proof. apply bind_nil_Return. Qed.

Section Writing.
Implicit Types (s : sheet) (r c k : nat) (v : cell_value).

(** A string passes [check_string] as its first 32767 characters, or is
    refused. *)
Lemma check_string_cases (value : string) :
  check_string value
  = match string_error value with
    | Some e => Raise e
    | None => Return (stored value)
    end.
Proof.
  unfold string_error, check_string. by destruct (has_illegal (stored value)).
Qed.

Lemma cell_cases r c v s :
  cell r c v s
  = match v ≫= string_error with
    | Some e => Raise e
    | None => Return (put_cell r c (stored_cell v) s)
    end.
Proof.
  destruct v as [x|]; [|done]. unfold cell. rewrite check_string_cases.
  simpl. by destruct (string_error x).
Qed.

Lemma write_row_from r row k s :
  for_each (fun '(col_idx, value) s => of_outcome (cell r col_idx value s))
           (enumerate k row) s
  = match row_error row with
    | Some e => ([], Raise e)
    | None =>
        ([], Return (fold_left
                       (fun s '(col_idx, value) => put_cell r col_idx value s)
                       (enumerate k (stored_row row)) s))
    end.
Proof.
  revert k s. induction row as [|v row IH]; intros k s; [done|].
  unfold stored_row. cbn [enumerate fmap list_fmap fold_left].
  rewrite for_each_cons, cell_cases.
  unfold row_error. cbn [first_error]. fold (row_error row).
  destruct (v ≫= string_error) as [e|]; [done|].
  rewrite bind_of_Return, IH.
  by destruct (row_error row).
Qed.

Lemma write_row_cases r row s :
  write_row r row s
  = match row_error row with
    | Some e => ([], Raise e)
    | None => ([], Return (put_row r (stored_row row) s))
    end.
Proof. apply write_row_from. Qed.

Lemma write_table_from t k s :
  for_each (fun '(row_idx, row) s => write_row row_idx row s) (enumerate k t) s
  = match table_error t with
    | Some e => ([], Raise e)
    | None =>
        ([], Return (fold_left (fun s '(row_idx, row) => put_row row_idx row s)
                               (enumerate k (stored_table t)) s))
    end.
Proof.
  revert k s. induction t as [|row t IH]; intros k s; [done|].
  unfold stored_table. cbn [enumerate fmap list_fmap fold_left].
  rewrite for_each_cons, write_row_cases.
  unfold table_error. cbn [first_error]. fold (table_error t).
  destruct (row_error row) as [e|]; [done|].
  rewrite bind_nil_Return, IH.
  by destruct (table_error t).
Qed.

(** [write_table_to_sheet] raises the error of the first cell that the
    spreadsheet refuses, or leaves the table as it is stored. *)
Lemma write_table_to_sheet_cases (t : table) s :
  write_table_to_sheet t s
  = match table_error t with
    | Some e => ([], Raise e)
    | None => ([], Return (put_table (stored_table t) s))
    end.
Proof. apply write_table_from. Qed.

Lemma write_text_from (text_data : list string) k s :
  for_each (fun '(i, line) s => of_outcome (cell i 1 (Some line) s))
           (enumerate k text_data) s
  = match text_error text_data with
    | Some e => ([], Raise e)
    | None =>
        ([], Return (fold_left (fun s '(i, line) => put_cell i 1 (Some line) s)
                               (enumerate k (stored <$> text_data)) s))
    end.
Proof.
  revert k s. induction text_data as [|line text_data IH]; intros k s; [done|].
  cbn [enumerate fmap list_fmap fold_left]. rewrite for_each_cons, cell_cases.
  unfold text_error. cbn [first_error]. fold (text_error text_data).
  change (Some line ≫= string_error) with (string_error line).
  destruct (string_error line) as [e|]; [done|].
  rewrite bind_of_Return, IH.
  by destruct (text_error text_data).
Qed.

(** [write_text_to_sheet] raises the error of the first entry that the
    spreadsheet refuses, or leaves the entries as they are stored. *)
Lemma write_text_to_sheet_cases (text_data : list string) s :
  write_text_to_sheet text_data s
  = match text_error text_data with
    | Some e => ([], Raise e)
    | None => ([], Return (put_text (stored <$> text_data) s))
    end.
Proof. apply write_text_from. Qed.

Lemma update_sheet_last (f : sheet → M sheet) (wb : workbook) s :
  update_sheet (length wb) f (wb ++ [s])
  = match f s with
    | (t, Return s') => (t, Return (wb ++ [s']))
    | (t, Raise e) => (t, Raise e)
    end.
Proof.
  unfold update_sheet.
  rewrite lookup_app_r, Nat.sub_diag by lia. cbn [lookup list_lookup].
  unfold mbind, M_bind, bind. destruct (f s) as [t [s'|e]]; [|done].
  simpl. rewrite app_nil_r. do 2 f_equal.
  rewrite insert_app_r_alt, Nat.sub_diag by lia. done.
Qed.

Lemma update_sheet_first (f : sheet → M sheet) (wb : workbook) s :
  update_sheet active f (s :: wb)
  = match f s with
    | (t, Return s') => (t, Return (s' :: wb))
    | (t, Raise e) => (t, Raise e)
    end.
Proof.
  unfold update_sheet, active. cbn [lookup list_lookup].
  unfold mbind, M_bind, bind. destruct (f s) as [t [s'|e]]; [|done].
  simpl. by rewrite app_nil_r.
Qed.

(** Writing the text blocks records no event. *)
Lemma update_sheet_text_events (idx : nat) (text_data : list string)
    (wb : workbook) :
  (update_sheet idx (write_text_to_sheet text_data) wb).1 = [].
Proof.
  unfold update_sheet. destruct (wb !! idx) as [s|]; [|done].
  rewrite write_text_to_sheet_cases.
  by destruct (text_error text_data).
Qed.

Lemma add_table_step (i : Z) k (t : list (list cell_value)) (wb : workbook) :
  (let '(wb, table_sheet) := create_sheet (table_title i k) wb in
   update_sheet table_sheet (write_table_to_sheet t) wb)
  = match table_error t with
    | Some e => ([], Raise e)
    | None =>
        ([], Return (let '(wb, table_sheet) := create_sheet (table_title i k) wb in
                     on_sheet table_sheet (put_table (stored_table t)) wb))
    end.
Proof.
  unfold create_sheet. rewrite update_sheet_last, write_table_to_sheet_cases.
  destruct (table_error t) as [e|]; [done|].
  unfold on_sheet. rewrite alter_app_r_alt by lia.
  by rewrite Nat.sub_diag.
Qed.

Lemma add_table_sheets_from (i : Z) (tables : list table) k (wb : workbook) :
  for_each
    (fun '(table_idx, t) wb =>
       let '(wb, table_sheet) := create_sheet (table_title i table_idx) wb in
       update_sheet table_sheet (write_table_to_sheet t) wb)
    (enumerate k tables) wb
  = match tables_error tables with
    | Some e => ([], Raise e)
    | None =>
        ([], Return
               (fold_left
                  (fun wb '(table_idx, t) =>
                     let '(wb, table_sheet) :=
                       create_sheet (table_title i table_idx) wb in
                     on_sheet table_sheet (put_table t) wb)
                  (enumerate k (stored_table <$> tables)) wb))
    end.
Proof.
  revert k wb. induction tables as [|t tables IH]; intros k wb; [done|].
  cbn [enumerate fmap list_fmap fold_left]. rewrite for_each_cons.
  rewrite add_table_step.
  unfold tables_error. cbn [first_error]. fold (tables_error tables).
  destruct (table_error t) as [e|]; [done|].
  rewrite bind_nil_Return, IH.
  by destruct (tables_error tables).
Qed.

(** Lines 148-150 raise the error of the first cell of the tables that the
    spreadsheet refuses, or leave one new worksheet per table. *)
Lemma add_table_sheets_cases (i : Z) (tables : list table) (wb : workbook) :
  add_table_sheets i tables wb
  = match tables_error tables with
    | Some e => ([], Raise e)
    | None => ([], Return (put_table_sheets i (stored_table <$> tables) wb))
    end.
Proof. apply add_table_sheets_from. Qed.

(** The one class of error a refused string gives. *)
Lemma string_error_class (value : string) e :
  string_error value = Some e →
  exn_cls e = OtherException "IllegalCharacterError".
Proof.
  unfold string_error, check_string.
  destruct (has_illegal (stored value)); [|done]. by intros [= <-].
Qed.

Lemma first_error_class {A} (f : A → option exn) (l : list A) e :
  (∀ x e, f x = Some e → exn_cls e = OtherException "IllegalCharacterError") →
  first_error f l = Some e →
  exn_cls e = OtherException "IllegalCharacterError".
Proof.
  intros Hf. induction l as [|x l IH]; [done|]. simpl.
  destruct (f x) as [e'|] eqn:Hx; [|done]. intros [= <-]. by eapply Hf.
Qed.

Lemma text_error_class (text_data : list string) e :
  text_error text_data = Some e →
  exn_cls e = OtherException "IllegalCharacterError".
Proof. apply first_error_class, string_error_class. Qed.

Lemma tables_error_class (tables : list table) e :
  tables_error tables = Some e →
  exn_cls e = OtherException "IllegalCharacterError".
Proof.
  apply first_error_class. intros t e'. apply first_error_class.
  intros row e''. apply first_error_class.
  intros [x|] e3; [apply string_error_class|done].
Qed.

(** A string of at most 32767 characters is stored as it is. *)
Lemma stored_short (value : string) :
  (String.length value ≤ max_cell_length)%nat → stored value = value.
Proof.
  unfold stored. generalize max_cell_length. induction value as [|c x IH];
    intros [|n] Hn; simpl in *; try done; try lia.
  rewrite IH by lia. done.
Qed.

End Writing.

(** ** The page loop *)

Section Loop.
Context (pages : list page) (hh fh : float).

(** New worksheets go to the end of the workbook, one per table, each
    written on a new worksheet. *)
Lemma put_table_sheets_from i (tables : list table) k (wb : workbook) :
  fold_left
    (fun wb '(table_idx, t) =>
       let '(wb, table_sheet) := create_sheet (table_title i table_idx) wb in
       on_sheet table_sheet (put_table t) wb)
    (enumerate k tables) wb
  = wb ++ map (fun '(table_idx, t) =>
                 put_table t (Sheet (table_title i table_idx) ∅))
              (enumerate k tables).
Proof.
  revert k wb. induction tables as [|t tables IH]; intros k wb; simpl.
  - by rewrite app_nil_r.
  - rewrite IH. unfold on_sheet.
    rewrite alter_app_r_alt by lia. rewrite Nat.sub_diag. simpl.
    by rewrite <- app_assoc.
Qed.

Lemma put_table_sheets_app i (tables : list table) (wb : workbook) :
  put_table_sheets i tables wb
  = wb ++ map (fun '(table_idx, t) =>
                 put_table t (Sheet (table_title i table_idx) ∅))
              (enumerate 1 tables).
Proof. apply put_table_sheets_from. Qed.


(** Lines 141-150, by cases on what the collaborator and the spreadsheet
    answer. *)
Lemma extract_page_cases i (c : cropped_page) all_text wb :
  extract_page i c (all_text, wb)
  = ([], match extract_text c with
         | Raise e => Raise e
         | Return page_text =>
             match extract_tables c with
             | Raise e => Raise e
             | Return tables =>
                 match tables_error tables with
                 | Some e => Raise e
                 | None =>
                     Return (append_text i page_text all_text,
                             wb ++ saved_table_sheets i tables)
                 end
             end
         end).
Proof.
  unfold extract_page.
  destruct (extract_text c) as [page_text|e]; [|done]. rewrite bind_of_Return.
  destruct (extract_tables c) as [tables|e]; [|done]. rewrite bind_of_Return.
  rewrite add_table_sheets_cases.
  destruct (tables_error tables) as [e|]; [done|].
  rewrite bind_nil_Return. unfold ret, saved_table_sheets.
  by rewrite (put_table_sheets_app i _ wb), put_table_sheets_app.
Qed.

(** One iteration: the page is looked up, [within_bbox] is called on it with
    the cropping box, and the cropped view goes to lines 141-150. *)
Lemma process_page_crop i p st :
  index_page pages i = Some p →
  process_page pages hh fh i st
  = ([EvWithinBBox i (cropping_box hh fh p)],
     match within_bbox p (cropping_box hh fh p) with
     | Return c => (extract_page i c st).2
     | Raise e => Raise e
     end).
Proof.
  intros Hp. unfold process_page, get_page. rewrite Hp, bind_ret.
  destruct st as [all_text wb].
  destruct (within_bbox p _) as [c|e]; [|done].
  cbn [of_outcome]. unfold emit.
  rewrite bind_Return, bind_of_Return, extract_page_cases. done.
Qed.

(** One iteration, by cases on what the collaborator answers. *)
Lemma process_page_cases i all_text wb :
  process_page pages hh fh i (all_text, wb)
  = match index_page pages i with
    | None =>
        ([], Raise (Exn IndexError
                      ("Page " +:+ pretty (i + 1)
                       +:+ " is out of range. The PDF has "
                       +:+ pretty (length pages) +:+ " pages.")))
    | Some p =>
        ([EvWithinBBox i (cropping_box hh fh p)],
         match within_bbox p (cropping_box hh fh p) with
         | Raise e => Raise e
         | Return c =>
             match extract_text c with
             | Raise e => Raise e
             | Return page_text =>
                 match extract_tables c with
                 | Raise e => Raise e
                 | Return tables =>
                     match tables_error tables with
                     | Some e => Raise e
                     | None =>
                         Return (append_text i page_text all_text,
                                 wb ++ saved_table_sheets i tables)
                     end
                 end
             end
         end)
    end.
Proof.
  destruct (index_page pages i) as [p|] eqn:Hp.
  - rewrite (process_page_crop i p _ Hp).
    destruct (within_bbox p _) as [c|e]; [|done].
    by rewrite extract_page_cases.
  - unfold process_page, get_page. by rewrite Hp.
Qed.

Lemma process_page_content i c all_text wb :
  page_content pages hh fh i = Some c →
  ∃ p, index_page pages i = Some p ∧
    process_page pages hh fh i (all_text, wb)
    = ([EvWithinBBox i (cropping_box hh fh p)],
       Return (append_text i c.1 all_text, wb ++ saved_table_sheets i c.2)).
Proof.
  unfold page_content. rewrite process_page_cases.
  destruct (index_page pages i) as [p|]; [|done]. simpl.
  destruct (within_bbox p _) as [v|e]; [|done].
  destruct (extract_text v) as [page_text|e]; [|done].
  destruct (extract_tables v) as [tables|e]; [|done].
  destruct (tables_error tables) as [e|]; [done|].
  intros [= <-]. by exists p.
Qed.

Lemma process_page_Return_inv i st tr st' :
  process_page pages hh fh i st = (tr, Return st') →
  is_Some (page_content pages hh fh i).
Proof.
  destruct st as [all_text wb]. unfold page_content.
  rewrite process_page_cases.
  destruct (index_page pages i) as [p|]; [|done]. simpl.
  destruct (within_bbox p _) as [v|e]; [|done].
  destruct (extract_text v) as [page_text|e]; [|done].
  destruct (extract_tables v) as [tables|e]; [|done].
  destruct (tables_error tables) as [e|]; [done|]. eauto.
Qed.

(** Every event of the loop is a crop call, made with the crop region of
    the page the index selects. *)
Lemma for_each_events indices st :
  Forall (fun ev => ∃ i p, index_page pages i = Some p
                    ∧ ev = EvWithinBBox i (cropping_box hh fh p))
         (for_each (process_page pages hh fh) indices st).1.
Proof.
  revert st. induction indices as [|i indices IH]; intros [all_text wb];
    [constructor|].
  rewrite for_each_cons, process_page_cases.
  destruct (index_page pages i) as [p|] eqn:Hp; [|constructor]. simpl.
  assert (Hev : ∃ i0 p0, index_page pages i0 = Some p0
             ∧ EvWithinBBox i (cropping_box hh fh p)
               = EvWithinBBox i0 (cropping_box hh fh p0)) by eauto.
  destruct (within_bbox p _) as [v|e]; [|by repeat constructor].
  destruct (extract_text v) as [page_text|e]; [|by repeat constructor].
  destruct (extract_tables v) as [tables|e]; [|by repeat constructor].
  destruct (tables_error tables) as [e|]; [by repeat constructor|].
  simpl. specialize (IH (append_text i page_text all_text,
                         wb ++ saved_table_sheets i tables)).
  destruct (for_each _ indices _) as [t r]. simpl in *.
  by constructor.
Qed.

(** The loop over pages that all give their content. *)
Lemma for_each_content indices contents all_text wb :
  Forall2 (fun i c => page_content pages hh fh i = Some c) indices contents →
  for_each (process_page pages hh fh) indices (all_text, wb)
  = (crop_events pages hh fh indices,
     Return
       (all_text ++ concat (zip_with (fun i c => append_text i c.1 [])
                                     indices contents),
        wb ++ concat (zip_with (fun i c => saved_table_sheets i c.2)
                               indices contents))).
Proof.
  intros H. revert all_text wb.
  induction H as [|i c indices contents Hc _ IH]; intros all_text wb.
  - simpl. by rewrite !app_nil_r.
  - rewrite for_each_cons.
    destruct (process_page_content i c all_text wb Hc) as (p & Hp & ->).
    simpl. rewrite IH. unfold crop_events. simpl. rewrite Hp. simpl.
    do 3 f_equal.
    + rewrite app_assoc. f_equal.
      destruct c as [[[|a t]|] tables]; simpl; by rewrite ?app_nil_r.
    + by rewrite app_assoc.
Qed.

Lemma for_each_Return_inv indices st tr st' :
  for_each (process_page pages hh fh) indices st = (tr, Return st') →
  ∃ contents,
    Forall2 (fun i c => page_content pages hh fh i = Some c) indices contents.
Proof.
  revert st tr. induction indices as [|i indices IH]; intros st tr.
  - exists []. constructor.
  - rewrite for_each_cons.
    destruct (process_page pages hh fh i st) as [t [st1|e]] eqn:Hi; [|done].
    simpl. destruct (for_each _ indices st1) as [t' r] eqn:Hrest.
    intros [= _ ->].
    destruct (IH _ _ Hrest) as [contents Hall].
    destruct (process_page_Return_inv _ _ _ _ Hi) as [c Hc].
    exists (c :: contents). by constructor.
Qed.

End Loop.

(** The loop returns only when every page of the range gave its content, and
    then with the text blocks and the table worksheets of these pages, in
    page order. *)
Lemma page_loop_Return_inv pages hh fh start_page end_page all_text0 wb0 t
    all_text wb :
  page_loop pages hh fh start_page end_page (all_text0, wb0)
  = (t, Return (all_text, wb)) →
  ∃ s e contents,
    start_page = Some s ∧ end_page = Some e
    ∧ Forall2 (fun i c => page_content pages hh fh i = Some c)
              (range (s - 1) e) contents
    ∧ t = crop_events pages hh fh (range (s - 1) e)
    ∧ all_text = all_text0
                 ++ concat (zip_with (fun i c => append_text i c.1 [])
                                     (range (s - 1) e) contents)
    ∧ wb = wb0 ++ concat (zip_with (fun i c => saved_table_sheets i c.2)
                                   (range (s - 1) e) contents).
Proof.
  unfold page_loop, call_range.
  destruct start_page as [s|]; [|done]. destruct end_page as [e|]; [|done].
  rewrite bind_ret. intros H.
  destruct (for_each_Return_inv _ _ _ _ _ _ _ H) as [contents Hall].
  rewrite (for_each_content _ _ _ _ _ _ _ Hall) in H.
  injection H as <- <- <-. by exists s, e, contents.
Qed.


(** ** The paths through [pdf_to_excel] *)

Section Paths.
Context (w : world).
Implicit Types (input_file output_file : string) (start_page end_page : option Z).

Lemma handlers_classify e :
  handlers e = k ← classify e; Some (emit (EvPrint (kind_label k +:+ exn_str e))).
Proof.
  unfold handlers, classify.
  by repeat (destruct (isinstance e _); [done|]).
Qed.

Lemma handlers_not_Exception e : is_Exception e = false → handlers e = None.
Proof. destruct e as [[] msg]; done. Qed.

Lemma handlers_OSError msg :
  handlers (Exn OSError msg) = Some (emit (EvPrint ("I/O error: " +:+ msg))).
Proof. done. Qed.

Lemma handlers_RuntimeError msg :
  handlers (Exn RuntimeError msg)
  = Some (emit (EvPrint ("Runtime error: " +:+ msg))).
Proof. done. Qed.

(** The input file does not exist. *)
Lemma pdf_to_excel_not_found input_file out start_page end_page hh fh :
  path_exists w input_file = false →
  pdf_to_excel w input_file out start_page end_page hh fh
  = ([EvPrint ("File error: The input file '" +:+ input_file
               +:+ "' does not exist.")], Return tt).
Proof.
  intros H. unfold pdf_to_excel, pdf_to_excel_body. by rewrite H.
Qed.

(** The input file exists and its name does not end in [.pdf]. *)
Lemma pdf_to_excel_not_pdf input_file out start_page end_page hh fh :
  path_exists w input_file = true →
  endswith (lower input_file) ".pdf" = false →
  pdf_to_excel w input_file out start_page end_page hh fh
  = ([EvPrint "Value error: The input file must be a PDF."], Return tt).
Proof.
  intros H1 H2. unfold pdf_to_excel, pdf_to_excel_body. by rewrite H1, H2.
Qed.

Section ValidInput.
Context (input_file : string).
Hypothesis Hexists : path_exists w input_file = true.
Hypothesis Hpdf : endswith (lower input_file) ".pdf" = true.

(** No output file was given. *)
Lemma pdf_to_excel_output_None start_page end_page hh fh :
  pdf_to_excel w input_file None start_page end_page hh fh
  = ([], Raise (Exn AttributeError
                  "'NoneType' object has no attribute 'lower'")).
Proof.
  unfold pdf_to_excel, pdf_to_excel_body. by rewrite Hexists, Hpdf.
Qed.

(** The output file name does not end in [.xlsx]. *)
Lemma pdf_to_excel_not_xlsx output_file start_page end_page hh fh :
  endswith (lower output_file) ".xlsx" = false →
  pdf_to_excel w input_file (Some output_file) start_page end_page hh fh
  = ([EvPrint "Value error: The output file must have an .xlsx extension."],
     Return tt).
Proof.
  intros H. unfold pdf_to_excel, pdf_to_excel_body.
  by rewrite Hexists, Hpdf, H.
Qed.

Section ValidOutput.
Context (output_file : string).
Hypothesis Hxlsx : endswith (lower output_file) ".xlsx" = true.

(** A height was not given. *)
Lemma pdf_to_excel_height_None start_page end_page hh fh :
  hh = None ∨ fh = None →
  pdf_to_excel w input_file (Some output_file) start_page end_page hh fh
  = ([], Raise (Exn TypeError
       "unsupported operand type(s) for *: 'NoneType' and 'float'")).
Proof.
  intros H. unfold pdf_to_excel, pdf_to_excel_body.
  rewrite Hexists, Hpdf, Hxlsx. simpl.
  destruct hh as [h|]; [|done]. destruct fh as [f|]; [|done].
  by destruct H.
Qed.

(** The document cannot be opened. *)
Lemma pdf_to_excel_open_fails start_page end_page h f e :
  pdfplumber_open w input_file = Raise e →
  pdf_to_excel w input_file (Some output_file) start_page end_page
               (Some h) (Some f)
  = if is_Exception e
    then ([EvPrint ("I/O error: Failed to open the PDF file: "
                    +:+ exn_str e)], Return tt)
    else ([], Raise e).
Proof.
  intros H. unfold pdf_to_excel, pdf_to_excel_body.
  rewrite Hexists, Hpdf, Hxlsx. simpl. rewrite H. simpl.
  unfold reraise. destruct (is_Exception e) eqn:He; simpl; [done|].
  by rewrite handlers_not_Exception.
Qed.

(** The document is open and the workbook cannot be created. *)
Lemma pdf_to_excel_Workbook_raises start_page end_page h f pages e :
  pdfplumber_open w input_file = Return pages →
  Workbook_raises w = Some e →
  pdf_to_excel w input_file (Some output_file) start_page end_page
               (Some h) (Some f)
  = match classify e with
    | Some k =>
        ([EvOpen input_file; EvPrint (kind_label k +:+ exn_str e)],
         Return tt)
    | None => ([EvOpen input_file], Raise e)
    end.
Proof.
  intros Ho Hw. unfold pdf_to_excel, pdf_to_excel_body.
  rewrite Hexists, Hpdf, Hxlsx. simpl. rewrite Ho. simpl.
  unfold Workbook. rewrite Hw. simpl.
  rewrite handlers_classify. by destruct (classify e).
Qed.

(** The document is open and the workbook exists: the page loop runs,
    the document is closed, and the rest depends on how the loop ended and
    on whether the spreadsheet takes the text blocks. *)
Lemma pdf_to_excel_run start_page end_page h f pages :
  pdfplumber_open w input_file = Return pages →
  Workbook_raises w = None →
  pdf_to_excel w input_file (Some output_file) start_page end_page
               (Some h) (Some f)
  = match page_loop pages (mm_to_points h) (mm_to_points f)
                    start_page end_page ([], [Sheet "Text_Body" ∅]) with
    | (t, Return (all_text, wb)) =>
        match text_error all_text with
        | Some err => (EvOpen input_file :: t ++ [EvClose], Raise err)
        | None =>
            let wb := on_sheet active (put_text (stored <$> all_text)) wb in
            let t := EvOpen input_file :: t ++ [EvClose; EvSave output_file wb] in
            match workbook_save w wb output_file with
            | Return _ =>
                (t ++ [EvPrint ("PDF data successfully converted to "
                                +:+ output_file)], Return tt)
            | Raise e =>
                if is_Exception e
                then (t ++ [EvPrint ("I/O error: Failed to save the Excel file: "
                                     +:+ exn_str e)], Return tt)
                else (t, Raise e)
            end
        end
    | (t, Raise e) =>
        if is_Exception e
        then (EvOpen input_file :: t
              ++ [EvClose;
                  EvPrint ("Runtime error: Error processing PDF pages: "
                           +:+ exn_str e)], Return tt)
        else (EvOpen input_file :: t ++ [EvClose], Raise e)
    end.
Proof.
  intros Ho Hw. unfold pdf_to_excel, pdf_to_excel_body.
  rewrite Hexists, Hpdf, Hxlsx. simpl. rewrite Ho. simpl.
  unfold Workbook. rewrite Hw. simpl.
  change (on_sheet active (set_title "Text_Body") new_workbook)
    with [Sheet "Text_Body" ∅].
  destruct (page_loop _ _ _ _ _ _) as [t [[all_text wb]|e]] eqn:Hloop; simpl.
  - destruct (page_loop_Return_inv _ _ _ _ _ _ _ _ _ _ Hloop)
      as (s & e & contents & _ & _ & _ & _ & _ & ->).
    cbn [app]. rewrite update_sheet_first, write_text_to_sheet_cases.
    destruct (text_error all_text) as [err|] eqn:Herr; simpl.
    + rewrite handlers_classify.
      unfold classify, isinstance. rewrite (text_error_class _ _ Herr).
      simpl. by rewrite app_nil_r.
    + destruct (workbook_save w _ output_file) as [[]|e']; simpl.
      * by rewrite <- !app_assoc.
      * unfold reraise. destruct (is_Exception e') eqn:He; simpl.
        -- by rewrite <- !app_assoc.
        -- rewrite handlers_not_Exception by done.
           by rewrite <- !app_assoc.
  - unfold reraise. destruct (is_Exception e) eqn:He; simpl.
    + by rewrite <- !app_assoc.
    + by rewrite handlers_not_Exception.
Qed.

End ValidOutput.
End ValidInput.

End Paths.

(** ** What the trace of a run tells *)

Section Trace.
Context (w : world).

Lemma page_loop_events pages hh fh start_page end_page st :
  Forall (fun ev => ∃ i p, index_page pages i = Some p
                    ∧ ev = EvWithinBBox i (cropping_box hh fh p))
         (page_loop pages hh fh start_page end_page st).1.
Proof.
  unfold page_loop, call_range.
  destruct start_page as [s|]; [|constructor].
  destruct end_page as [e|]; [|constructor].
  pose proof (for_each_events pages hh fh (range (s - 1) e) st) as H.
  change (ret (range (s - 1) e) ≫= _)
    with (bind (ret (range (s - 1) e))
               (fun indices => for_each (process_page pages hh fh) indices st)).
  unfold bind, ret.
  by destruct (for_each _ _ _) as [t r].
Qed.

Lemma printed_app t1 t2 : printed (t1 ++ t2) = printed t1 ++ printed t2.
Proof. apply omap_app. Qed.

Lemma printed_crops (P : event → Prop) t :
  (∀ ev, P ev → ∃ i box, ev = EvWithinBBox i box) →
  Forall P t → printed t = [].
Proof.
  intros HP. induction 1 as [|ev t Hev _ IH]; [done|].
  destruct (HP _ Hev) as (i & box & ->). done.
Qed.

Lemma printed_page_loop pages hh fh start_page end_page st :
  printed (page_loop pages hh fh start_page end_page st).1 = [].
Proof.
  eapply printed_crops; [|apply page_loop_events].
  intros ev (i & p & _ & ->). eauto.
Qed.

(** An event other than a printed line or the opening of the document
    occurs only in a run that reached the page loop. *)
Lemma pdf_to_excel_reached_loop input_file out start_page end_page hh fh ev :
  In ev (pdf_to_excel w input_file out start_page end_page hh fh).1 →
  (∀ line, ev ≠ EvPrint line) → (∀ path, ev ≠ EvOpen path) →
  ∃ output_file h f pages,
    out = Some output_file ∧ hh = Some h ∧ fh = Some f
    ∧ path_exists w input_file = true
    ∧ endswith (lower input_file) ".pdf" = true
    ∧ endswith (lower output_file) ".xlsx" = true
    ∧ pdfplumber_open w input_file = Return pages
    ∧ Workbook_raises w = None.
Proof.
  intros Hin Hprint Hopen.
  assert (Hone : ∀ line, ¬ In ev [EvPrint line]).
  { intros line [<-|[]]. by destruct (Hprint line). }
  destruct (path_exists w input_file) eqn:Hexists;
    [|rewrite pdf_to_excel_not_found in Hin by done; by apply Hone in Hin].
  destruct (endswith (lower input_file) ".pdf") eqn:Hpdf;
    [|rewrite pdf_to_excel_not_pdf in Hin by done; by apply Hone in Hin].
  destruct out as [output_file|];
    [|by rewrite pdf_to_excel_output_None in Hin by done].
  destruct (endswith (lower output_file) ".xlsx") eqn:Hxlsx;
    [|rewrite pdf_to_excel_not_xlsx in Hin by done; by apply Hone in Hin].
  destruct hh as [h|];
    [|rewrite pdf_to_excel_height_None in Hin by auto; done].
  destruct fh as [f|];
    [|rewrite pdf_to_excel_height_None in Hin by auto; done].
  destruct (pdfplumber_open w input_file) as [pages|e] eqn:Ho.
  - destruct (Workbook_raises w) as [e|] eqn:Hw.
    + rewrite (pdf_to_excel_Workbook_raises w input_file Hexists Hpdf
                 output_file Hxlsx _ _ _ _ pages e) in Hin by done.
      destruct (classify e); simpl in Hin.
      * destruct Hin as [<-|[<-|[]]];
          [by destruct (Hopen input_file)|by edestruct Hprint].
      * destruct Hin as [<-|[]]. by destruct (Hopen input_file).
    + by exists output_file, h, f, pages.
  - rewrite (pdf_to_excel_open_fails w input_file Hexists Hpdf
               output_file Hxlsx _ _ _ _ e) in Hin by done.
    destruct (is_Exception e); [by apply Hone in Hin|done].
Qed.

End Trace.

(** ** Failures in the page loop *)

Section LoopFailure.
Context (pages : list page) (hh fh : float).

Lemma for_each_app {A S} (body : A → S → M S) l1 l2 s :
  for_each body (l1 ++ l2) s = for_each body l1 s ≫= for_each body l2.
Proof.
  revert s. induction l1 as [|x l1 IH]; intros s.
  - simpl. unfold mbind, M_bind, bind, ret.
    by destruct (for_each body l2 s).
  - rewrite <- app_comm_cons, !for_each_cons.
    unfold mbind, M_bind, bind. destruct (body x s) as [t [s'|e]]; [|done].
    rewrite IH. unfold mbind, M_bind, bind.
    destruct (for_each body l1 s') as [t1 [s1|e]]; [|done].
    destruct (for_each body l2 s1) as [t2 r]. by rewrite app_assoc.
Qed.

Lemma crop_events_app l1 l2 :
  crop_events pages hh fh (l1 ++ l2)
  = crop_events pages hh fh l1 ++ crop_events pages hh fh l2.
Proof. apply omap_app. Qed.

(** The loop stops at the first page that raises, with its exception. *)
Lemma for_each_page_error done i rest contents p ex st :
  Forall2 (fun i c => page_content pages hh fh i = Some c) done contents →
  index_page pages i = Some p →
  page_error hh fh p = Some ex →
  for_each (process_page pages hh fh) (done ++ i :: rest) st
  = (crop_events pages hh fh (done ++ [i]), Raise ex).
Proof.
  intros Hdone Hp Hex. destruct st as [all_text wb].
  rewrite for_each_app, (for_each_content _ _ _ _ _ _ _ Hdone).
  unfold mbind, M_bind, bind.
  rewrite for_each_cons, process_page_cases, Hp.
  rewrite crop_events_app. unfold crop_events at 2. simpl. rewrite Hp. simpl.
  unfold page_error in Hex.
  destruct (within_bbox p _) as [c|e]; [|by injection Hex as ->].
  destruct (extract_text c) as [page_text|e]; [|by injection Hex as ->].
  destruct (extract_tables c) as [tables|e]; [|by injection Hex as ->].
  by rewrite Hex.
Qed.

(** The loop stops at the first index that selects no page. *)
Lemma for_each_out_of_range done i rest contents st :
  Forall2 (fun i c => page_content pages hh fh i = Some c) done contents →
  index_page pages i = None →
  for_each (process_page pages hh fh) (done ++ i :: rest) st
  = (crop_events pages hh fh done,
     Raise (Exn IndexError
              ("Page " +:+ pretty (i + 1) +:+ " is out of range. The PDF has "
               +:+ pretty (length pages) +:+ " pages."))).
Proof.
  intros Hdone Hp. destruct st as [all_text wb].
  rewrite for_each_app, (for_each_content _ _ _ _ _ _ _ Hdone).
  unfold mbind, M_bind, bind.
  rewrite for_each_cons, process_page_cases, Hp. simpl.
  by rewrite app_nil_r.
Qed.

End LoopFailure.

Lemma page_loop_Some (pages : list page) (hh fh : float) (s e : Z) st :
  page_loop pages hh fh (Some s) (Some e) st
  = for_each (process_page pages hh fh) (range (s - 1) e) st.
Proof.
  unfold page_loop, call_range, mbind, M_bind, bind, ret.
  by destruct (for_each _ _ _).
Qed.


(** * The claims *)

(** ** Validation *)

(** C3. The three validations come first and no file is opened when one
    fails: the run consists of one printed line.  A missing input file is
    reported as NotFound whatever its suffix, so the existence check comes
    before the suffix check; an existing input file without a
    case-insensitive [.pdf] suffix is reported as InvalidInput; and, for a
    valid input file, an output file without a case-insensitive [.xlsx]
    suffix is reported as InvalidInput. *)
Theorem C3_validation_errors (w : world) (input_file output_file : string)
    (start_page end_page : option Z) (hh fh : option float) :
  let run := pdf_to_excel w input_file (Some output_file) start_page end_page hh fh in
  (path_exists w input_file = false →
   run = ([EvPrint (kind_label NotFound +:+ "The input file '" +:+ input_file
                    +:+ "' does not exist.")], Return tt))
  ∧ (path_exists w input_file = true →
     endswith (lower input_file) ".pdf" = false →
     run = ([EvPrint (kind_label InvalidInput
                      +:+ "The input file must be a PDF.")], Return tt))
  ∧ (path_exists w input_file = true →
     endswith (lower input_file) ".pdf" = true →
     endswith (lower output_file) ".xlsx" = false →
     run = ([EvPrint (kind_label InvalidInput
                      +:+ "The output file must have an .xlsx extension.")],
            Return tt)).
Proof.
  intros run. subst run. split; [|split].
  - intros H. by apply pdf_to_excel_not_found.
  - intros H1 H2. by apply pdf_to_excel_not_pdf.
  - intros H1 H2 H3. by apply pdf_to_excel_not_xlsx.
Qed.

Lemma C3_validation_errors_witness :
  pdf_to_excel (example_world [hello_page] None) "missing.txt" (Some "out.xlsx")
               (Some 1) (Some 1) (Some 0%float) (Some 0%float)
  = ([EvPrint "File error: The input file 'missing.txt' does not exist."],
     Return tt)
  ∧ pdf_to_excel (example_world [hello_page] None) "report.txt" (Some "out.xlsx")
                 (Some 1) (Some 1) (Some 0%float) (Some 0%float)
    = ([EvPrint "Value error: The input file must be a PDF."], Return tt)
  ∧ pdf_to_excel (example_world [hello_page] None) "in.pdf" (Some "out.csv")
                 (Some 1) (Some 1) (Some 0%float) (Some 0%float)
    = ([EvPrint "Value error: The output file must have an .xlsx extension."],
       Return tt).
Proof.
  split; [|split].
  - apply (proj1 (C3_validation_errors (example_world [hello_page] None)
                    "missing.txt" "out.xlsx" (Some 1) (Some 1)
                    (Some 0%float) (Some 0%float))).
    reflexivity.
  - apply (proj1 (proj2 (C3_validation_errors (example_world [hello_page] None)
                    "report.txt" "out.xlsx" (Some 1) (Some 1)
                    (Some 0%float) (Some 0%float)))); reflexivity.
  - apply (proj2 (proj2 (C3_validation_errors (example_world [hello_page] None)
                    "in.pdf" "out.csv" (Some 1) (Some 1)
                    (Some 0%float) (Some 0%float)))); reflexivity.
Defined.

(** ** The crop region *)

(** C4. The two heights are converted to points once, by [mm_to_points],
    which multiplies by 2.83465, and the loop works with the results.  Every
    crop call of a run is made on the page the loop index selects, with the
    region (0, header_height_mm * 2.83465, page.width,
    page.height - footer_height_mm * 2.83465).  And the iteration on page
    [p] hands that region to [within_bbox] of [p]: after the crop call, it
    ends with the error [within_bbox] raises on the region, or else with
    what lines 141-150 make of the view that [within_bbox] returns for the
    region. *)
Theorem C4_crop_region (w : world) (input_file : string) (out : option string)
    (start_page end_page : option Z) (hh fh : option float) :
  (∀ i box,
     In (EvWithinBBox i box)
        (pdf_to_excel w input_file out start_page end_page hh fh).1 →
     ∃ pages header_height_mm footer_height_mm p,
       pdfplumber_open w input_file = Return pages
       ∧ hh = Some header_height_mm ∧ fh = Some footer_height_mm
       ∧ index_page pages i = Some p
       ∧ box = BBox 0 (header_height_mm * 2.83465)%float (width p)
                    (height p - footer_height_mm * 2.83465)%float)
  ∧ (∀ pages header_height_mm footer_height_mm i p st,
       index_page pages i = Some p →
       let box := BBox 0 (header_height_mm * 2.83465)%float (width p)
                       (height p - footer_height_mm * 2.83465)%float in
       process_page pages (mm_to_points header_height_mm)
                    (mm_to_points footer_height_mm) i st
       = ([EvWithinBBox i box],
          match within_bbox p box with
          | Return cropped_page => (extract_page i cropped_page st).2
          | Raise e => Raise e
          end)
       ∧ ∀ cropped_page, (extract_page i cropped_page st).1 = []).
Proof.
  split.
  - intros i box Hin.
    destruct (pdf_to_excel_reached_loop w _ _ _ _ _ _ _ Hin)
      as (output_file & h & f & pages & -> & -> & -> & Hex & Hpdf & Hxlsx
          & Ho & Hw);
      [done..|].
    exists pages, h, f.
    rewrite (pdf_to_excel_run w input_file Hex Hpdf output_file Hxlsx
               start_page end_page h f pages Ho Hw) in Hin.
    pose proof (page_loop_events pages (mm_to_points h) (mm_to_points f)
                  start_page end_page ([], [Sheet "Text_Body" ∅])) as Hev.
    destruct (page_loop _ _ _ _ _ _) as [t r]. simpl in Hev.
    assert (Ht : In (EvWithinBBox i box) t).
    { assert (Hmid : ∀ rest,
                In (EvWithinBBox i box) (EvOpen input_file :: t ++ rest) →
                (∀ ev, In ev rest → ∀ j b, ev ≠ EvWithinBBox j b) →
                In (EvWithinBBox i box) t).
      { intros rest [Heq|Hmem] Hrest; [done|].
        apply in_app_or in Hmem as [Hmem|Hmem]; [done|].
        by destruct (Hrest _ Hmem i box). }
      destruct r as [[all_text wb]|e].
      - destruct (text_error all_text) as [err|].
        + apply Hmid in Hin; [done|].
          intros ev Hev' j b; simpl in Hev'; intuition congruence.
        + simpl in Hin.
          destruct (workbook_save w _ output_file) as [[]|e];
            [|destruct (is_Exception e)]; simpl in Hin;
            rewrite <- ?app_assoc in Hin; apply Hmid in Hin; try done;
            intros ev Hev' j b; simpl in Hev'; intuition congruence.
      - destruct (is_Exception e); apply Hmid in Hin; try done;
          intros ev Hev' j b; simpl in Hev'; intuition congruence. }
    rewrite Forall_forall in Hev. apply list_elem_of_In in Ht.
    destruct (Hev _ Ht) as (i' & p & Hp & [= -> ->]).
    exists p. by split_and!.
  - intros pages h f i p st Hp box. split.
    + apply (process_page_crop pages (mm_to_points h) (mm_to_points f) i p st Hp).
    + intros c. destruct st as [all_text wb]. by rewrite extract_page_cases.
Qed.

Lemma C4_crop_region_witness :
  (∃ pages header_height_mm footer_height_mm p,
      pdfplumber_open (example_world [hello_page] None) "in.pdf" = Return pages
      ∧ Some 10%float = Some header_height_mm
      ∧ Some 20%float = Some footer_height_mm
      ∧ index_page pages 0 = Some p
      ∧ BBox 0 28.346499999999999%float 595 785.30700000000002%float
        = BBox 0 (header_height_mm * 2.83465)%float (width p)
               (height p - footer_height_mm * 2.83465)%float)
  ∧ process_page [hello_page] (mm_to_points 10) (mm_to_points 20) 0 ([], [])
    = ([EvWithinBBox 0 (BBox 0 (10 * 2.83465)%float (width hello_page)
                             (height hello_page - 20 * 2.83465)%float)],
       match within_bbox hello_page
               (BBox 0 (10 * 2.83465)%float (width hello_page)
                     (height hello_page - 20 * 2.83465)%float) with
       | Return cropped_page => (extract_page 0 cropped_page ([], [])).2
       | Raise e => Raise e
       end).
Proof.
  pose proof (C4_crop_region (example_world [hello_page] None) "in.pdf"
                (Some "out.xlsx") (Some 1) (Some 1) (Some 10%float)
                (Some 20%float)) as [Hrun Hcall].
  split.
  - apply (Hrun 0 (BBox 0 28.346499999999999%float 595
                        785.30700000000002%float)).
    vm_compute. right. left. reflexivity.
  - apply (Hcall [hello_page] 10%float 20%float 0 hello_page ([], [])).
    reflexivity.
Defined.

(** ** The workbook that is saved *)

Section Saved.
Context (w : world) (input_file output_file : string) (pages : list page).
Context (start_page end_page : Z) (header_height_mm footer_height_mm : float).
Hypothesis Hexists : path_exists w input_file = true.
Hypothesis Hpdf : endswith (lower input_file) ".pdf" = true.
Hypothesis Hxlsx : endswith (lower output_file) ".xlsx" = true.
Hypothesis Hopen : pdfplumber_open w input_file = Return pages.
Hypothesis Hworkbook : Workbook_raises w = None.

Let hh := mm_to_points header_height_mm.
Let fh := mm_to_points footer_height_mm.
Let indices := range (start_page - 1) end_page.

Lemma page_loop_content contents all_text wb :
  Forall2 (fun i c => page_content pages hh fh i = Some c) indices contents →
  page_loop pages hh fh (Some start_page) (Some end_page) (all_text, wb)
  = (crop_events pages hh fh indices,
     Return
       (all_text ++ concat (zip_with (fun i c => append_text i c.1 [])
                                     indices contents),
        wb ++ concat (zip_with (fun i c => saved_table_sheets i c.2)
                               indices contents))).
Proof.
  intros H. unfold page_loop, call_range. rewrite bind_ret. fold indices.
  by rewrite (for_each_content pages hh fh indices contents all_text wb H).
Qed.

(** The run when every page of the range gives its content: the document
    is opened, each page is cropped, the document is closed, and the text
    blocks are written.  When the spreadsheet refuses one, its error leaves
    the routine; otherwise one workbook is handed to [save], the text
    worksheet followed by the table worksheets, and the run ends with what
    [save] answers. *)
Lemma pdf_to_excel_all_pages contents :
  Forall2 (fun i c => page_content pages hh fh i = Some c) indices contents →
  pdf_to_excel w input_file (Some output_file) (Some start_page)
               (Some end_page) (Some header_height_mm) (Some footer_height_mm)
  = let all_text := concat (zip_with (fun i c => append_text i c.1 [])
                                     indices contents) in
    match text_error all_text with
    | Some err =>
        (EvOpen input_file :: crop_events pages hh fh indices ++ [EvClose],
         Raise err)
    | None =>
        let wb := saved_text_sheet all_text
                  :: concat (zip_with (fun i c => saved_table_sheets i c.2)
                                      indices contents) in
        let t := EvOpen input_file
                 :: crop_events pages hh fh indices
                 ++ [EvClose; EvSave output_file wb] in
        match workbook_save w wb output_file with
        | Return _ =>
            (t ++ [EvPrint ("PDF data successfully converted to "
                            +:+ output_file)], Return tt)
        | Raise e =>
            if is_Exception e
            then (t ++ [EvPrint ("I/O error: Failed to save the Excel file: "
                                 +:+ exn_str e)], Return tt)
            else (t, Raise e)
        end
    end.
Proof.
  intros H.
  rewrite (pdf_to_excel_run w input_file Hexists Hpdf output_file Hxlsx
             (Some start_page) (Some end_page) header_height_mm
             footer_height_mm pages Hopen Hworkbook).
  fold hh fh. by rewrite (page_loop_content contents [] _ H).
Qed.

(** When, moreover, the spreadsheet takes every text block, the run saves
    one workbook, after it closed the document, and then only prints. *)
Lemma pdf_to_excel_saves contents :
  Forall2 (fun i c => page_content pages hh fh i = Some c) indices contents →
  text_error (concat (zip_with (fun i c => append_text i c.1 [])
                               indices contents)) = None →
  ∃ rest,
    (pdf_to_excel w input_file (Some output_file) (Some start_page)
                  (Some end_page) (Some header_height_mm)
                  (Some footer_height_mm)).1
    = EvOpen input_file :: crop_events pages hh fh indices
      ++ EvClose
      :: EvSave output_file
           (saved_text_sheet
              (concat (zip_with (fun i c => append_text i c.1 [])
                                indices contents))
            :: concat (zip_with (fun i c => saved_table_sheets i c.2)
                                indices contents))
      :: rest
    ∧ Forall (fun ev => ∃ line, ev = EvPrint line) rest.
Proof.
  intros H Htext. rewrite (pdf_to_excel_all_pages contents H).
  cbv zeta. rewrite Htext.
  destruct (workbook_save w _ output_file) as [[]|e];
    [|destruct (is_Exception e)]; simpl; rewrite <- ?app_assoc; simpl.
  - eexists. split; [done|]. repeat constructor. eauto.
  - eexists. split; [done|]. repeat constructor. eauto.
  - exists []. split; [done|]. constructor.
Qed.

End Saved.

(** No crop call is a call of [save]. *)
Lemma crop_events_no_save (pages : list page) (hh fh : float)
    (indices : list Z) path wb :
  ¬ In (EvSave path wb) (crop_events pages hh fh indices).
Proof.
  intros Hin. unfold crop_events in Hin. apply list_elem_of_In in Hin.
  apply list_elem_of_omap in Hin as (i & _ & Hi).
  by destruct (index_page pages i).
Qed.

(** The table worksheets of the pages, against the tables they come from. *)
Lemma table_sheets_hold (indices : list Z)
    (contents : list (option string * list table)) :
  Forall2 (fun sh '(i, k, t) =>
             title sh = table_title i k ∧ holds_table sh (stored_table t))
    (concat (zip_with (fun i c => saved_table_sheets i c.2) indices contents))
    (concat (zip_with (fun i c => (fun '(k, t) => (i, k, t)) <$> enumerate 1 c.2)
                      indices contents)).
Proof.
  revert contents. induction indices as [|i indices IH]; intros [|c contents];
    simpl; try constructor.
  apply Forall2_app; [|apply IH].
  unfold saved_table_sheets. rewrite put_table_sheets_app. simpl.
  generalize 1%nat. induction c.2 as [|t tables IHt]; intros k; simpl;
    constructor; [|apply IHt].
  split; [apply title_put_table|].
  intros r c'. apply put_table_new.
Qed.

(** The text entries of the pages: one block per page with text. *)
Lemma text_blocks_omap (indices : list Z)
    (contents : list (option string * list table)) :
  concat (zip_with (fun i c => append_text i c.1 []) indices contents)
  = omap (fun '(i, c) =>
            page_text ← c.1;
            if decide (page_text = EmptyString) then None
            else Some (text_block i page_text))
         (zip indices contents).
Proof.
  revert contents. induction indices as [|i indices IH]; intros [|c contents];
    simpl; try done.
  rewrite IH. by destruct c as [[[|a t]|] tables].
Qed.

(** A table whose strings have at most 32767 characters is stored as it
    is. *)
Lemma stored_table_short (t : table) :
  Forall (Forall (fun value : cell_value =>
                    ∀ x, value = Some x →
                         (String.length x ≤ max_cell_length)%nat)) t →
  stored_table t = t.
Proof.
  unfold stored_table, stored_row. intros Ht.
  induction Ht as [|row t Hrow _ IH]; [done|].
  cbn [fmap list_fmap]. f_equal; [|exact IH].
  induction Hrow as [|value row Hvalue _ IHrow]; [done|].
  cbn [fmap list_fmap]. f_equal; [|exact IHrow].
  destruct value as [x|]; [|done]. simpl. f_equal. by apply stored_short, Hvalue.
Qed.

Lemma stored_text_short (text_data : list string) :
  Forall (fun line => (String.length line ≤ max_cell_length)%nat) text_data →
  stored <$> text_data = text_data.
Proof.
  induction 1 as [|line text_data Hline _ IH]; [done|].
  cbn [fmap list_fmap]. by rewrite IH, stored_short.
Qed.

(** ** Table sheets *)

(** C5 (as the code has it). When every page of the range gives its
    content, which includes that the spreadsheet takes every cell of its
    tables, and the spreadsheet takes every text block, the workbook handed
    to [save] starts with the worksheet "Text_Body"; after it come the table
    worksheets, pages in ascending order and, within a page, tables in
    detection order: the worksheet of table number [k] (from 1) of page
    [i + 1] is titled "Table_Page_{i+1}_{k}" and holds the rows of the
    table, cell (r, c) of the worksheet being cell c of row r of the table,
    both counted from 1, with every string cut to its first 32767
    characters; so it holds the table verbatim when no string of the table
    is longer.  And when the spreadsheet refuses a cell of a table of page
    [i + 1], the pages before it having gone through, the run ends after
    the crop call of that page: the document is closed, nothing is saved,
    and the line printed is the UnexpectedFailure report of the refusal. *)
Theorem C5_table_sheets (w : world) (input_file output_file : string)
    (start_page end_page : Z) (header_height_mm footer_height_mm : float)
    (pages : list page) :
  path_exists w input_file = true →
  endswith (lower input_file) ".pdf" = true →
  endswith (lower output_file) ".xlsx" = true →
  pdfplumber_open w input_file = Return pages →
  Workbook_raises w = None →
  let hh := mm_to_points header_height_mm in
  let fh := mm_to_points footer_height_mm in
  let indices := range (start_page - 1) end_page in
  let run := pdf_to_excel w input_file (Some output_file) (Some start_page)
               (Some end_page) (Some header_height_mm)
               (Some footer_height_mm) in
  (∀ contents : list (option string * list table),
     Forall2 (fun i c => page_content pages hh fh i = Some c)
             indices contents →
     text_error (concat (zip_with (fun i c => append_text i c.1 [])
                                  indices contents)) = None →
     ∃ text_sheet table_sheets before after,
       run.1 = before ++ EvSave output_file (text_sheet :: table_sheets)
                         :: after
       ∧ (∀ path wb, ¬ In (EvSave path wb) (before ++ after))
       ∧ title text_sheet = "Text_Body"
       ∧ Forall2
           (fun sh '(i, k, t) =>
              title sh = "Table_Page_" +:+ pretty (i + 1) +:+ "_" +:+ pretty k
              ∧ holds_table sh (stored_table t)
              ∧ (Forall (Forall (fun value : cell_value =>
                                   ∀ x, value = Some x →
                                        (String.length x ≤ max_cell_length)%nat)) t →
                 holds_table sh t))
           table_sheets
           (concat (zip_with
                      (fun (i : Z) (c : option string * list table) =>
                         (fun '(k, t) => (i, k, t)) <$> enumerate 1 c.2)
                      indices contents)))
  ∧ (∀ (done rest : list Z) (i : Z)
       (contents : list (option string * list table)) (p : page)
       (c : cropped_page) (page_text : option string) (tables : list table)
       (err : exn),
       indices = done ++ i :: rest →
       Forall2 (fun i c => page_content pages hh fh i = Some c)
               done contents →
       index_page pages i = Some p →
       within_bbox p (cropping_box hh fh p) = Return c →
       extract_text c = Return page_text →
       extract_tables c = Return tables →
       tables_error tables = Some err →
       run = (EvOpen input_file
              :: crop_events pages hh fh (done ++ [i])
              ++ [EvClose;
                  EvPrint (kind_label UnexpectedFailure
                           +:+ "Error processing PDF pages: "
                           +:+ exn_str err)],
              Return tt)).
Proof.
  intros Hex Hpdf Hxlsx Ho Hw hh fh indices run. split.
  - intros contents Hall Htext.
    destruct (pdf_to_excel_saves w input_file output_file pages start_page
                end_page header_height_mm footer_height_mm Hex Hpdf Hxlsx Ho
                Hw contents Hall Htext) as (rest & Hrun & Hrest).
    subst run. rewrite Hrun.
    eexists _, _, (EvOpen input_file :: crop_events pages _ _ _ ++ [EvClose]),
      rest.
    split_and!.
    + simpl. by rewrite <- app_assoc.
    + intros path wb Hin. simpl in Hin.
      rewrite <- app_assoc in Hin. simpl in Hin.
      destruct Hin as [Hin|Hin]; [done|].
      apply in_app_or in Hin as [Hin|Hin].
      * by apply crop_events_no_save in Hin.
      * destruct Hin as [Hin|Hin]; [done|].
        rewrite Forall_forall in Hrest. apply list_elem_of_In in Hin.
        by destruct (Hrest _ Hin) as [line Hline].
    + apply title_put_text_from.
    + eapply Forall2_impl; [apply table_sheets_hold|].
      intros sh [[i k] t] [Htitle Hholds]. split_and!; [done..|].
      intros Hshort. by rewrite <- (stored_table_short t Hshort).
  - intros done rest i contents p c page_text tables err Hrange Hdone Hp Hc
      Ht Hts Herr.
    subst run.
    rewrite (pdf_to_excel_run w input_file Hex Hpdf output_file Hxlsx
               (Some start_page) (Some end_page) header_height_mm
               footer_height_mm pages Ho Hw).
    fold hh fh. unfold page_loop, call_range. rewrite bind_ret.
    fold indices. rewrite Hrange.
    rewrite (for_each_page_error pages hh fh done i rest contents p err _
               Hdone Hp).
    + assert (Hcls := tables_error_class _ _ Herr).
      destruct err as [cls msg]. simpl in Hcls. by subst cls.
    + unfold page_error. by rewrite Hc, Ht, Hts.
Qed.

Lemma C5_table_sheets_witness :
  (∃ text_sheet table_sheets before after,
     (pdf_to_excel (example_world [hello_page; table_page] None) "in.pdf"
                   (Some "out.xlsx") (Some 1) (Some 2)
                   (Some 10%float) (Some 20%float)).1
     = before ++ EvSave "out.xlsx" (text_sheet :: table_sheets) :: after
     ∧ (∀ path wb, ¬ In (EvSave path wb) (before ++ after))
     ∧ title text_sheet = "Text_Body"
     ∧ Forall2
         (fun sh '(i, k, t) =>
            title sh = "Table_Page_" +:+ pretty (i + 1) +:+ "_" +:+ pretty k
            ∧ holds_table sh (stored_table t)
            ∧ (Forall (Forall (fun value : cell_value =>
                                 ∀ x, value = Some x →
                                      (String.length x ≤ max_cell_length)%nat))
                      t →
               holds_table sh t))
         table_sheets
         [(1, 1%nat, [[Some "a"; Some "b"]; [Some "c"; Some "d"]])])
  ∧ pdf_to_excel (example_world [hello_page; control_table_page] None) "in.pdf"
                 (Some "out.xlsx") (Some 1) (Some 2)
                 (Some 0%float) (Some 0%float)
    = ([EvOpen "in.pdf";
        EvWithinBBox 0 (BBox 0 0 595 842);
        EvWithinBBox 1 (BBox 0 0 595 842);
        EvClose;
        EvPrint ("Runtime error: Error processing PDF pages: "
                 +:+ String "001" "a" +:+ " cannot be used in worksheets.")],
       Return tt).
Proof.
  split.
  - apply (proj1 (C5_table_sheets
                    (example_world [hello_page; table_page] None)
                    "in.pdf" "out.xlsx" 1 2 10%float 20%float
                    [hello_page; table_page]
                    eq_refl eq_refl eq_refl eq_refl eq_refl)
             [(Some "hello", []);
              (None, [[[Some "a"; Some "b"]; [Some "c"; Some "d"]]])]);
      [repeat constructor|reflexivity].
  - apply (proj2 (C5_table_sheets
                    (example_world [hello_page; control_table_page] None)
                    "in.pdf" "out.xlsx" 1 2 0%float 0%float
                    [hello_page; control_table_page]
                    eq_refl eq_refl eq_refl eq_refl eq_refl)
             [0] [] 1 [(Some "hello", [])] control_table_page
             (CroppedPage (Return None) (Return [[[Some (String "001" "a")]]]))
             None [[[Some (String "001" "a")]]]
             (Exn (OtherException "IllegalCharacterError")
                  (String "001" "a" +:+ " cannot be used in worksheets.")));
      try reflexivity.
    repeat constructor.
Defined.

(** The string of the example is stored without its last letter. *)
Lemma long_string_stored :
  string_error long_string = None
  ∧ Z.of_nat (String.length long_string) = 32768
  ∧ Z.of_nat (String.length (stored long_string)) = 32767.
Proof. split_and!; vm_compute; reflexivity. Qed.

(** C5, as stated, fails.  First: the one table of the one page of a
    document has one cell, which holds a control character.  The worksheet
    "Table_Page_1_1" is created, the spreadsheet refuses the cell, and the
    run ends with a report of the UnexpectedFailure kind: no worksheet holds
    the table, and no workbook is saved.  Second: the cell holds 32768
    letters instead.  The workbook is saved, and cell (1, 1) of the table
    worksheet holds the first 32767 letters, not the string of the table. *)
Lemma C5_counterexample :
  (page_content [control_table_page] 0 0 0 = None
   ∧ (∃ c, within_bbox control_table_page
                       (cropping_box 0 0 control_table_page) = Return c
           ∧ extract_tables c = Return [[[Some (String "001" "a")]]])
   ∧ pdf_to_excel (example_world [control_table_page] None) "in.pdf"
                  (Some "out.xlsx") (Some 1) (Some 1)
                  (Some 0%float) (Some 0%float)
     = ([EvOpen "in.pdf";
         EvWithinBBox 0 (BBox 0 0 595 842);
         EvClose;
         EvPrint ("Runtime error: Error processing PDF pages: "
                  +:+ String "001" "a" +:+ " cannot be used in worksheets.")],
        Return tt)
   ∧ ¬ ∃ path wb,
         In (EvSave path wb)
            (pdf_to_excel (example_world [control_table_page] None) "in.pdf"
                          (Some "out.xlsx") (Some 1) (Some 1)
                          (Some 0%float) (Some 0%float)).1)
  ∧ (∃ text_sheet sh rest,
       (pdf_to_excel (example_world [long_table_page] None) "in.pdf"
                     (Some "out.xlsx") (Some 1) (Some 1)
                     (Some 0%float) (Some 0%float)).1
       = [EvOpen "in.pdf"; EvWithinBBox 0 (BBox 0 0 595 842); EvClose;
          EvSave "out.xlsx" [text_sheet; sh]] ++ rest
       ∧ title sh = "Table_Page_1_1"
       ∧ cells sh !! (1%nat, 1%nat) = Some (Some (stored long_string))
       ∧ stored long_string ≠ long_string).
Proof.
  split; [split_and!|].
  - reflexivity.
  - eexists. split; reflexivity.
  - reflexivity.
  - intros (path & wb & Hin). vm_compute in Hin. intuition congruence.
  - destruct long_string_stored as (Herr & Hlong & Hstored).
    assert (Hc : page_content [long_table_page] (mm_to_points 0)
                   (mm_to_points 0) 0
                 = Some (None, [[[Some long_string]]])).
    { unfold page_content.
      change (index_page [long_table_page] 0) with (Some long_table_page).
      cbn [mbind option_bind within_bbox long_table_page a4 extract_text
           extract_tables].
      unfold tables_error, table_error, row_error.
      cbn [first_error mbind option_bind]. by rewrite Herr. }
    destruct (pdf_to_excel_saves (example_world [long_table_page] None)
                "in.pdf" "out.xlsx" [long_table_page] 1 1 0%float 0%float
                eq_refl eq_refl eq_refl eq_refl eq_refl
                [(None, [[[Some long_string]]])]) as (rest & Hrun & _).
    + constructor; [exact Hc|constructor].
    + reflexivity.
    + rewrite Hrun. eexists _, _, rest. split_and!.
      * reflexivity.
      * apply title_put_table.
      * rewrite put_table_new. reflexivity.
      * intros Heq. rewrite Heq in Hstored. lia.
Qed.

(** ** The text sheet *)

(** C6 (as the code has it). Every page of the range giving its content,
    the text blocks of the run are the entries "Page {i+1}:\n{text}", one
    for each page of the range whose extracted text is not empty (neither
    [None] nor the empty string), in the order of the pages.  When the
    spreadsheet takes them all, the first worksheet of the workbook handed
    to [save] is "Text_Body" and holds, in column 1 from row 1 on, the
    blocks in that order, each cut to its first 32767 characters, and
    nothing else; so it holds the blocks verbatim when none is longer.  When
    the spreadsheet refuses a block, its error, which is of none of the
    five kinds, leaves the routine after the document was closed, and
    nothing is saved or printed. *)
Theorem C6_text_body (w : world) (input_file output_file : string)
    (start_page end_page : Z) (header_height_mm footer_height_mm : float)
    (pages : list page) (contents : list (option string * list table)) :
  path_exists w input_file = true →
  endswith (lower input_file) ".pdf" = true →
  endswith (lower output_file) ".xlsx" = true →
  pdfplumber_open w input_file = Return pages →
  Workbook_raises w = None →
  Forall2 (fun i c => page_content pages (mm_to_points header_height_mm)
                        (mm_to_points footer_height_mm) i = Some c)
          (range (start_page - 1) end_page) contents →
  let run := pdf_to_excel w input_file (Some output_file) (Some start_page)
               (Some end_page) (Some header_height_mm)
               (Some footer_height_mm) in
  let blocks :=
    omap (fun '(i, c) =>
            page_text ← c.1;
            if decide (page_text = EmptyString) then None
            else Some ("Page " +:+ pretty (i + 1) +:+ ":" +:+ nl
                       +:+ page_text))
         (zip (range (start_page - 1) end_page) contents) in
  match text_error blocks with
  | None =>
      ∃ text_sheet table_sheets before after,
        run.1 = before ++ EvSave output_file (text_sheet :: table_sheets)
                          :: after
        ∧ (∀ path wb, ¬ In (EvSave path wb) (before ++ after))
        ∧ title text_sheet = "Text_Body"
        ∧ holds_text text_sheet (stored <$> blocks)
        ∧ (Forall (fun block => (String.length block ≤ max_cell_length)%nat)
                  blocks →
           holds_text text_sheet blocks)
  | Some err =>
      run = (EvOpen input_file
             :: crop_events pages (mm_to_points header_height_mm)
                  (mm_to_points footer_height_mm)
                  (range (start_page - 1) end_page)
             ++ [EvClose],
             Raise err)
      ∧ exn_cls err = OtherException "IllegalCharacterError"
      ∧ classify err = None
  end.
Proof.
  intros Hex Hpdf Hxlsx Ho Hw Hall run blocks.
  assert (Hblocks :
    concat (zip_with (fun i c => append_text i c.1 [])
                     (range (start_page - 1) end_page) contents) = blocks)
    by apply text_blocks_omap.
  destruct (text_error blocks) as [err|] eqn:Herr.
  - subst run.
    rewrite (pdf_to_excel_all_pages w input_file output_file pages start_page
               end_page header_height_mm footer_height_mm Hex Hpdf Hxlsx Ho
               Hw contents Hall).
    cbv zeta. rewrite Hblocks, Herr. split; [done|].
    assert (Hcls := text_error_class _ _ Herr).
    split; [done|]. destruct err as [cls msg]. simpl in Hcls. by subst cls.
  - destruct (pdf_to_excel_saves w input_file output_file pages start_page
                end_page header_height_mm footer_height_mm Hex Hpdf Hxlsx Ho
                Hw contents Hall) as (rest & Hrun & Hrest);
      [by rewrite Hblocks|].
    subst run. rewrite Hrun, Hblocks.
    eexists _, _, (EvOpen input_file :: crop_events pages _ _ _ ++ [EvClose]),
      rest.
    split_and!.
    + simpl. by rewrite <- app_assoc.
    + intros path wb Hin. simpl in Hin.
      rewrite <- app_assoc in Hin. simpl in Hin.
      destruct Hin as [Hin|Hin]; [done|].
      apply in_app_or in Hin as [Hin|Hin].
      * by apply crop_events_no_save in Hin.
      * destruct Hin as [Hin|Hin]; [done|].
        rewrite Forall_forall in Hrest. apply list_elem_of_In in Hin.
        by destruct (Hrest _ Hin) as [line Hline].
    + apply title_put_text_from.
    + intros r c. apply put_text_new.
    + intros Hshort r c. unfold saved_text_sheet.
      rewrite (stored_text_short blocks Hshort). apply put_text_new.
Qed.

Lemma C6_text_body_witness :
  (∃ text_sheet table_sheets before after,
     (pdf_to_excel (example_world [hello_page; table_page; last_page] None)
                   "in.pdf" (Some "out.xlsx") (Some 1) (Some 3)
                   (Some 10%float) (Some 20%float)).1
     = before ++ EvSave "out.xlsx" (text_sheet :: table_sheets) :: after
     ∧ (∀ path wb, ¬ In (EvSave path wb) (before ++ after))
     ∧ title text_sheet = "Text_Body"
     ∧ holds_text text_sheet
         (stored <$> ["Page 1:" +:+ nl +:+ "hello"; "Page 3:" +:+ nl +:+ "last"])
     ∧ (Forall (fun block => (String.length block ≤ max_cell_length)%nat)
               ["Page 1:" +:+ nl +:+ "hello"; "Page 3:" +:+ nl +:+ "last"] →
        holds_text text_sheet
          ["Page 1:" +:+ nl +:+ "hello"; "Page 3:" +:+ nl +:+ "last"]))
  ∧ (∃ err,
       pdf_to_excel (example_world [hello_page; control_text_page] None)
                    "in.pdf" (Some "out.xlsx") (Some 1) (Some 2)
                    (Some 0%float) (Some 0%float)
       = ([EvOpen "in.pdf";
           EvWithinBBox 0 (BBox 0 0 595 842);
           EvWithinBBox 1 (BBox 0 0 595 842);
           EvClose],
          Raise err)
       ∧ exn_cls err = OtherException "IllegalCharacterError"
       ∧ classify err = None).
Proof.
  split.
  - exact (C6_text_body
             (example_world [hello_page; table_page; last_page] None)
             "in.pdf" "out.xlsx" 1 3 10%float 20%float
             [hello_page; table_page; last_page]
             [(Some "hello", []);
              (None, [[[Some "a"; Some "b"]; [Some "c"; Some "d"]]]);
              (Some "last", [])]
             eq_refl eq_refl eq_refl eq_refl eq_refl
             ltac:(repeat constructor)).
  - eexists.
    exact (C6_text_body
             (example_world [hello_page; control_text_page] None)
             "in.pdf" "out.xlsx" 1 2 0%float 0%float
             [hello_page; control_text_page]
             [(Some "hello", []);
              (Some (String "a" (String "001" "b")), [])]
             eq_refl eq_refl eq_refl eq_refl eq_refl
             ltac:(repeat constructor)).
Defined.

(** C6, as stated, fails: the text of the one page of a document has a
    control character.  Its block is appended to the list, the document is
    closed, and the spreadsheet refuses the block when the list is written:
    the error leaves the routine, no entry is in any worksheet of a saved
    workbook, for none is saved, and nothing is printed. *)
Lemma C6_counterexample :
  page_content [control_text_page] 0 0 0
  = Some (Some (String "a" (String "001" "b")), [])
  ∧ pdf_to_excel (example_world [control_text_page] None) "in.pdf"
                 (Some "out.xlsx") (Some 1) (Some 1)
                 (Some 0%float) (Some 0%float)
    = ([EvOpen "in.pdf"; EvWithinBBox 0 (BBox 0 0 595 842); EvClose],
       Raise (Exn (OtherException "IllegalCharacterError")
                  ("Page 1:" +:+ nl +:+ String "a" (String "001" "b")
                   +:+ " cannot be used in worksheets.")))
  ∧ ¬ ∃ path wb,
        In (EvSave path wb)
           (pdf_to_excel (example_world [control_text_page] None) "in.pdf"
                         (Some "out.xlsx") (Some 1) (Some 1)
                         (Some 0%float) (Some 0%float)).1.
Proof.
  split_and!.
  - reflexivity.
  - reflexivity.
  - intros (path & wb & Hin). vm_compute in Hin. intuition congruence.
Qed.

(** ** Errors are caught and printed *)

(** The body of [pdf_to_excel] prints nothing before it raises. *)
Lemma body_Raise_printed (w : world) (input_file : string) (out : option string)
    (start_page end_page : option Z) (hh fh : option float) t e :
  pdf_to_excel_body w input_file out start_page end_page hh fh = (t, Raise e) →
  printed t = [].
Proof.
  unfold pdf_to_excel_body.
  destruct (path_exists w input_file); simpl; [|by intros [= <- _]].
  destruct (endswith (lower input_file) ".pdf"); simpl; [|by intros [= <- _]].
  destruct out as [output_file|]; [|by intros [= <- _]].
  destruct (endswith (lower output_file) ".xlsx"); simpl; [|by intros [= <- _]].
  destruct hh as [h|]; [|by intros [= <- _]].
  destruct fh as [f|]; [|by intros [= <- _]]. simpl.
  destruct (pdfplumber_open w input_file) as [pages|e0]; simpl.
  - unfold Workbook. destruct (Workbook_raises w) as [e0|]; simpl;
      [by intros [= <- _]|].
    pose proof (printed_page_loop pages (mm_to_points h) (mm_to_points f)
                  start_page end_page
                  ([], on_sheet active (set_title "Text_Body") new_workbook))
      as Hloop.
    destruct (page_loop _ _ _ _ _ _) as [t' [[all_text wb]|e0]]; simpl in *.
    + pose proof (update_sheet_text_events active all_text wb) as Hwrite.
      destruct (update_sheet active _ wb) as [t2 [wb'|e0]]; simpl in Hwrite;
        subst t2; simpl.
      * destruct (workbook_save w _ output_file) as [[]|e0]; simpl;
          [by intros [= _]|].
        unfold reraise. destruct (is_Exception e0); simpl; intros [= <- _];
          unfold printed in *; simpl; rewrite !omap_app, Hloop; done.
      * intros [= <- _]. unfold printed in *. simpl.
        rewrite !omap_app, Hloop. done.
    + unfold reraise. destruct (is_Exception e0); simpl; intros [= <- _];
        unfold printed in *; simpl; rewrite !omap_app, Hloop; done.
  - unfold reraise. destruct (is_Exception e0); simpl; by intros [= <- _].
Qed.

(** C7. An error of one of the five kinds raised in the body of
    [pdf_to_excel] is caught there: the routine returns normally, and the one
    line it prints is the label of the kind followed by the message of the
    error.  Whenever the routine returns, with or without having printed an
    error, [main] returns exit status 0. *)
Theorem C7_errors_caught (w : world) (a : args) :
  let run := pdf_to_excel w (arg_input_file a) (arg_output_file a)
               (arg_start_page a) (arg_end_page a)
               (arg_header_height_mm a) (arg_footer_height_mm a) in
  (∀ t e k,
     pdf_to_excel_body w (arg_input_file a) (arg_output_file a)
       (arg_start_page a) (arg_end_page a)
       (arg_header_height_mm a) (arg_footer_height_mm a) = (t, Raise e) →
     classify e = Some k →
     run = (t ++ [EvPrint (kind_label k +:+ exn_str e)], Return tt)
     ∧ printed run.1 = [kind_label k +:+ exn_str e])
  ∧ (∀ t, run = (t, Return tt) → (main w a).2 = Return 0).
Proof.
  intros run. subst run. split.
  - intros t e k Hbody Hk.
    assert (Hrun : pdf_to_excel w (arg_input_file a) (arg_output_file a)
               (arg_start_page a) (arg_end_page a)
               (arg_header_height_mm a) (arg_footer_height_mm a)
             = (t ++ [EvPrint (kind_label k +:+ exn_str e)], Return tt)).
    { unfold pdf_to_excel. rewrite Hbody. simpl.
      rewrite handlers_classify, Hk. done. }
    split; [done|]. rewrite Hrun. simpl.
    by rewrite printed_app, (body_Raise_printed _ _ _ _ _ _ _ _ _ Hbody).
  - intros t Hrun. unfold main. rewrite Hrun.
    by destruct (arg_verbose a).
Qed.

Lemma C7_errors_caught_witness :
  pdf_to_excel (example_world [hello_page] None) "missing.pdf" (Some "out.xlsx")
               (Some 1) (Some 1) (Some 0%float) (Some 0%float)
  = ([EvPrint "File error: The input file 'missing.pdf' does not exist."],
     Return tt)
  ∧ (main (example_world [hello_page] None) example_args).2 = Return 0.
Proof.
  pose proof (C7_errors_caught (example_world [hello_page] None) example_args)
    as [Hcaught Hexit].
  destruct (Hcaught []
              (Exn FileNotFoundError
                 "The input file 'missing.pdf' does not exist.")
              NotFound eq_refl eq_refl) as [Hrun _].
  split; [exact Hrun|]. exact (Hexit _ Hrun).
Defined.

(** ** Failures in the page loop, reported *)

(** C8 (as the code has it). An error raised while page [i + 1] is
    processed (by the crop, by one of the two extractions, or by the
    spreadsheet when the tables of the page are written), the pages before
    it having gone through, ends the run after the crop call of that page:
    the document is closed, nothing is saved, and the one line printed is
    the label of the UnexpectedFailure kind, the fixed text
    "Error processing PDF pages: " and the message of the error.  The line
    does not tell the page. *)
Theorem C8_loop_error_wrapped (w : world) (input_file output_file : string)
    (start_page end_page : Z) (header_height_mm footer_height_mm : float)
    (pages : list page) (done rest : list Z) (i : Z)
    (contents : list (option string * list table)) (p : page) (ex : exn) :
  path_exists w input_file = true →
  endswith (lower input_file) ".pdf" = true →
  endswith (lower output_file) ".xlsx" = true →
  pdfplumber_open w input_file = Return pages →
  Workbook_raises w = None →
  range (start_page - 1) end_page = done ++ i :: rest →
  Forall2 (fun i c => page_content pages (mm_to_points header_height_mm)
                        (mm_to_points footer_height_mm) i = Some c)
          done contents →
  index_page pages i = Some p →
  page_error (mm_to_points header_height_mm) (mm_to_points footer_height_mm) p
  = Some ex →
  is_Exception ex = true →
  pdf_to_excel w input_file (Some output_file) (Some start_page) (Some end_page)
               (Some header_height_mm) (Some footer_height_mm)
  = (EvOpen input_file
     :: crop_events pages (mm_to_points header_height_mm)
          (mm_to_points footer_height_mm) (done ++ [i])
     ++ [EvClose;
         EvPrint (kind_label UnexpectedFailure
                  +:+ "Error processing PDF pages: " +:+ exn_str ex)],
     Return tt).
Proof.
  intros Hex Hpdf Hxlsx Ho Hw Hrange Hdone Hp Herr Hexn.
  rewrite (pdf_to_excel_run w input_file Hex Hpdf output_file Hxlsx
             (Some start_page) (Some end_page) header_height_mm
             footer_height_mm pages Ho Hw).
  rewrite page_loop_Some, Hrange.
  rewrite (for_each_page_error _ _ _ _ _ _ _ _ _ _ Hdone Hp Herr).
  by rewrite Hexn.
Qed.

Lemma C8_loop_error_wrapped_witness :
  pdf_to_excel (example_world [hello_page; broken_page] None) "in.pdf"
               (Some "out.xlsx") (Some 1) (Some 2) (Some 0%float) (Some 0%float)
  = ([EvOpen "in.pdf";
      EvWithinBBox 0 (BBox 0 0 595 842);
      EvWithinBBox 1 (BBox 0 0 595 842);
      EvClose;
      EvPrint "Runtime error: Error processing PDF pages: boom"],
     Return tt).
Proof.
  apply (C8_loop_error_wrapped (example_world [hello_page; broken_page] None)
           "in.pdf" "out.xlsx" 1 2 0%float 0%float [hello_page; broken_page]
           [0] [] 1 [(Some "hello", [])] broken_page
           (Exn (OtherException "PDFSyntaxError") "boom"));
    try reflexivity.
  repeat constructor.
Defined.

(** C8, as stated, fails: text extraction fails with the same error on
    page 1 and on page 2 of a document, and the two runs print the same line,
    so nothing computed from the printed line tells which page was being
    processed. *)
Lemma C8_counterexample :
  ¬ ∃ page_of : string → Z,
      ∀ n, In n [1; 2] → ∀ line,
        printed (pdf_to_excel (example_world [broken_page; broken_page] None)
                   "in.pdf" (Some "out.xlsx") (Some n) (Some n)
                   (Some 0%float) (Some 0%float)).1 = [line] →
        page_of line = n.
Proof.
  intros [page_of H].
  pose proof (H 1 (or_introl eq_refl)
                "Runtime error: Error processing PDF pages: boom" eq_refl) as H1.
  pose proof (H 2 (or_intror (or_introl eq_refl))
                "Runtime error: Error processing PDF pages: boom" eq_refl) as H2.
  congruence.
Qed.

(** ** The page-range check *)

(** X1. An index of the range that selects no page, the pages before it
    having gone through, ends the run: the document is closed, nothing is saved,
    and the line printed names the page and the page count.  The error is
    wrapped like any other error of the loop, so it is printed under the
    label of the UnexpectedFailure kind, not of the OutOfRange kind. *)
Lemma out_of_range_report (w : world) (input_file output_file : string)
    (start_page end_page : Z) (header_height_mm footer_height_mm : float)
    (pages : list page) (done rest : list Z) (i : Z)
    (contents : list (option string * list table)) :
  path_exists w input_file = true →
  endswith (lower input_file) ".pdf" = true →
  endswith (lower output_file) ".xlsx" = true →
  pdfplumber_open w input_file = Return pages →
  Workbook_raises w = None →
  range (start_page - 1) end_page = done ++ i :: rest →
  Forall2 (fun i c => page_content pages (mm_to_points header_height_mm)
                        (mm_to_points footer_height_mm) i = Some c)
          done contents →
  index_page pages i = None →
  pdf_to_excel w input_file (Some output_file) (Some start_page) (Some end_page)
               (Some header_height_mm) (Some footer_height_mm)
  = (EvOpen input_file
     :: crop_events pages (mm_to_points header_height_mm)
          (mm_to_points footer_height_mm) done
     ++ [EvClose;
         EvPrint (kind_label UnexpectedFailure
                  +:+ "Error processing PDF pages: "
                  +:+ "Page " +:+ pretty (i + 1)
                  +:+ " is out of range. The PDF has "
                  +:+ pretty (length pages) +:+ " pages.")],
     Return tt).
Proof.
  intros Hex Hpdf Hxlsx Ho Hw Hrange Hdone Hp.
  rewrite (pdf_to_excel_run w input_file Hex Hpdf output_file Hxlsx
             (Some start_page) (Some end_page) header_height_mm
             footer_height_mm pages Ho Hw).
  rewrite page_loop_Some, Hrange.
  by rewrite (for_each_out_of_range _ _ _ _ _ _ _ _ Hdone Hp).
Qed.

Lemma out_of_range_report_witness :
  pdf_to_excel (example_world [hello_page; last_page] None) "in.pdf"
               (Some "out.xlsx") (Some 2) (Some 4) (Some 0%float) (Some 0%float)
  = ([EvOpen "in.pdf";
      EvWithinBBox 1 (BBox 0 0 595 842);
      EvClose;
      EvPrint "Runtime error: Error processing PDF pages: Page 3 is out of range. The PDF has 2 pages."],
     Return tt).
Proof.
  apply (out_of_range_report (example_world [hello_page; last_page] None)
           "in.pdf" "out.xlsx" 2 4 0%float 0%float [hello_page; last_page]
           [1] [3] 2 [(Some "last", [])]);
    try reflexivity.
  repeat constructor.
Defined.

(** C1 (the code departs from it). Pages 1 to 2 of a one-page document:
    page 1 is cropped, page 2 is out of range; the document is closed and
    nothing is saved, and the line printed names page 2 and the page count 1.
    But the line is printed by the handler of [RuntimeError], the
    UnexpectedFailure kind: the [IndexError] is raised inside the [try] whose
    [except Exception] wraps it, so the handler of [IndexError], the
    OutOfRange kind, is not the one that runs. *)
Theorem C1_out_of_range_reported_as_runtime_error :
  pdf_to_excel (example_world [hello_page] None) "in.pdf" (Some "out.xlsx")
               (Some 1) (Some 2) (Some 0%float) (Some 0%float)
  = ([EvOpen "in.pdf";
      EvWithinBBox 0 (BBox 0 0 595 842);
      EvClose;
      EvPrint "Runtime error: Error processing PDF pages: Page 2 is out of range. The PDF has 1 pages."],
     Return tt)
  ∧ handlers (Exn IndexError "Page 2 is out of range. The PDF has 1 pages.")
    = Some (emit (EvPrint "Index error: Page 2 is out of range. The PDF has 1 pages.")).
Proof. split; reflexivity. Qed.

(** ** The document handle *)

(** X2. Once the document is open and the workbook created, the trace of
    the run is the opening of the document, then crop calls and nothing
    else, then the closing of the document, then nothing but calls of [save]
    and printed lines: the document is closed exactly once, after every crop
    call and before anything is saved or printed, however the loop and the
    rest of the run end. *)
Lemma closed_after_loop (w : world) (input_file output_file : string)
    (start_page end_page : option Z) (header_height_mm footer_height_mm : float)
    (pages : list page) :
  path_exists w input_file = true →
  endswith (lower input_file) ".pdf" = true →
  endswith (lower output_file) ".xlsx" = true →
  pdfplumber_open w input_file = Return pages →
  Workbook_raises w = None →
  ∃ crops rest,
    (pdf_to_excel w input_file (Some output_file) start_page end_page
                  (Some header_height_mm) (Some footer_height_mm)).1
    = EvOpen input_file :: crops ++ EvClose :: rest
    ∧ (∀ ev, In ev crops → ∃ i box, ev = EvWithinBBox i box)
    ∧ (∀ ev, In ev rest →
             (∃ path wb, ev = EvSave path wb) ∨ (∃ line, ev = EvPrint line)).
Proof.
  intros Hex Hpdf Hxlsx Ho Hw.
  rewrite (pdf_to_excel_run w input_file Hex Hpdf output_file Hxlsx
             start_page end_page header_height_mm footer_height_mm pages Ho Hw).
  pose proof (page_loop_events pages (mm_to_points header_height_mm)
                (mm_to_points footer_height_mm) start_page end_page
                ([], [Sheet "Text_Body" ∅])) as Hev.
  destruct (page_loop _ _ _ _ _ _) as [t r]. simpl in Hev.
  assert (Hcrops : ∀ ev, In ev t → ∃ i box, ev = EvWithinBBox i box).
  { intros ev Hin. rewrite Forall_forall in Hev. apply list_elem_of_In in Hin.
    destruct (Hev _ Hin) as (i & p & _ & ->). eauto. }
  destruct r as [[all_text wb]|e].
  - destruct (text_error all_text) as [err|].
    + exists t, []. split_and!; [done|done|]. by intros ev [].
    + simpl. destruct (workbook_save w _ output_file) as [[]|e];
        [|destruct (is_Exception e)]; simpl; rewrite <- ?app_assoc; simpl;
        eexists t, _; (split_and!; [reflexivity|done|]);
        intros ev Hin; simpl in Hin;
        repeat (destruct Hin as [<-|Hin]; [eauto|]); done.
  - destruct (is_Exception e); simpl; eexists t, _;
      (split_and!; [reflexivity|done|]);
      intros ev Hin; simpl in Hin;
      repeat (destruct Hin as [<-|Hin]; [eauto|]); done.
Qed.

Lemma closed_after_loop_witness :
  ∃ crops rest,
    (pdf_to_excel (example_world [hello_page; broken_page] None) "in.pdf"
                  (Some "out.xlsx") (Some 1) (Some 2)
                  (Some 0%float) (Some 0%float)).1
    = EvOpen "in.pdf" :: crops ++ EvClose :: rest
    ∧ (∀ ev, In ev crops → ∃ i box, ev = EvWithinBBox i box)
    ∧ (∀ ev, In ev rest →
             (∃ path wb, ev = EvSave path wb) ∨ (∃ line, ev = EvPrint line)).
Proof.
  apply (closed_after_loop (example_world [hello_page; broken_page] None)
           "in.pdf" "out.xlsx" (Some 1) (Some 2) 0%float 0%float
           [hello_page; broken_page]);
    reflexivity.
Defined.

(** C2 (the code departs from it). The document is opened, then
    [Workbook()] raises: the run ends with the document still open.  The
    statements between [pdfplumber.open] and the [try] whose [finally] closes
    the document are not covered by that [finally]. *)
Theorem C2_document_left_open :
  pdf_to_excel
    (example_world [hello_page] (Some (Exn (OtherException "MemoryError") "")))
    "in.pdf" (Some "out.xlsx") (Some 1) (Some 1) (Some 0%float) (Some 0%float)
  = ([EvOpen "in.pdf"], Raise (Exn (OtherException "MemoryError") "")).
Proof. reflexivity. Qed.

(** ** Arguments left out *)

(** C9 (as the code has it). With an existing [.pdf] input file: a missing
    output file fails at the suffix check with an [AttributeError], and, the
    output file being a valid [.xlsx] name, a missing header or footer height
    fails in [mm_to_points] with a [TypeError]; neither is one of the five
    kinds, so both leave the routine, before anything is opened.  A missing
    start or end page, the other arguments being valid, the document open and
    the workbook created, fails inside the [try] of the page loop: the
    [TypeError] is wrapped, caught and printed as an UnexpectedFailure, the
    document is closed, and the routine returns normally. *)
Theorem C9_null_arguments (w : world) (input_file : string) (out : option string)
    (start_page end_page : option Z) (hh fh : option float) :
  path_exists w input_file = true →
  endswith (lower input_file) ".pdf" = true →
  let run := pdf_to_excel w input_file out start_page end_page hh fh in
  (out = None →
   ∃ e, run = ([], Raise e) ∧ exn_cls e = AttributeError ∧ classify e = None)
  ∧ (∀ output_file,
       out = Some output_file →
       endswith (lower output_file) ".xlsx" = true →
       hh = None ∨ fh = None →
       ∃ e, run = ([], Raise e) ∧ exn_cls e = TypeError ∧ classify e = None)
  ∧ (∀ output_file h f pages,
       out = Some output_file →
       endswith (lower output_file) ".xlsx" = true →
       hh = Some h → fh = Some f →
       pdfplumber_open w input_file = Return pages →
       Workbook_raises w = None →
       start_page = None ∨ end_page = None →
       ∃ msg,
         run = ([EvOpen input_file; EvClose;
                 EvPrint (kind_label UnexpectedFailure
                          +:+ "Error processing PDF pages: " +:+ msg)],
                Return tt)).
Proof.
  intros Hex Hpdf run. subst run. split_and!.
  - intros ->. eexists. split; [by apply pdf_to_excel_output_None|done].
  - intros output_file -> Hxlsx Hnone. eexists.
    split; [by apply pdf_to_excel_height_None|done].
  - intros output_file h f pages -> Hxlsx -> -> Ho Hw Hnone.
    rewrite (pdf_to_excel_run w input_file Hex Hpdf output_file Hxlsx
               start_page end_page h f pages Ho Hw).
    destruct start_page as [s|]; [destruct end_page as [e|]|].
    + by destruct Hnone.
    + by eexists.
    + by eexists.
Qed.

Lemma C9_null_arguments_witness :
  (∃ e, pdf_to_excel (example_world [hello_page] None) "in.pdf" None
          (Some 1) (Some 1) (Some 0%float) (Some 0%float) = ([], Raise e)
        ∧ exn_cls e = AttributeError ∧ classify e = None)
  ∧ (∃ e, pdf_to_excel (example_world [hello_page] None) "in.pdf"
            (Some "out.xlsx") (Some 1) (Some 1) None (Some 0%float)
          = ([], Raise e)
          ∧ exn_cls e = TypeError ∧ classify e = None)
  ∧ (∃ msg, pdf_to_excel (example_world [hello_page] None) "in.pdf"
              (Some "out.xlsx") (Some 1) None (Some 0%float) (Some 0%float)
            = ([EvOpen "in.pdf"; EvClose;
                EvPrint (kind_label UnexpectedFailure
                         +:+ "Error processing PDF pages: " +:+ msg)],
               Return tt)).
Proof.
  split_and!.
  - apply (proj1 (C9_null_arguments (example_world [hello_page] None) "in.pdf"
                    None (Some 1) (Some 1) (Some 0%float) (Some 0%float)
                    eq_refl eq_refl)).
    reflexivity.
  - apply (proj1 (proj2 (C9_null_arguments (example_world [hello_page] None)
                    "in.pdf" (Some "out.xlsx") (Some 1) (Some 1) None
                    (Some 0%float) eq_refl eq_refl)) "out.xlsx");
      [reflexivity|reflexivity|left; reflexivity].
  - apply (proj2 (proj2 (C9_null_arguments (example_world [hello_page] None)
                    "in.pdf" (Some "out.xlsx") (Some 1) None (Some 0%float)
                    (Some 0%float) eq_refl eq_refl))
             "out.xlsx" 0%float 0%float [hello_page]);
      try reflexivity.
    right; reflexivity.
Defined.

(** C9, as stated, fails: with no start page (the other arguments valid)
    no exception leaves the routine; it prints an error and returns. *)
Lemma C9_counterexample :
  pdf_to_excel (example_world [hello_page] None) "in.pdf" (Some "out.xlsx")
               None (Some 1) (Some 0%float) (Some 0%float)
  = ([EvOpen "in.pdf"; EvClose;
      EvPrint "Runtime error: Error processing PDF pages: unsupported operand type(s) for -: 'NoneType' and 'int'"],
     Return tt)
  ∧ ¬ ∃ e, (pdf_to_excel (example_world [hello_page] None) "in.pdf"
              (Some "out.xlsx") None (Some 1) (Some 0%float) (Some 0%float)).2
           = Raise e.
Proof. split; [reflexivity|]. intros [e He]. discriminate He. Qed.

(** ** A start page below 1 *)

(** C10. With a start page [s <= 0] such that [s - 1] is still within reach
    of negative indexing ([-(page count) <= s - 1], so there is at least one
    page) and [s <= end_page], the first index of the loop is [s - 1 < 0]:
    the page lookup raises no error and gives the page at position
    [page count + (s - 1)], a page counted from the end; the run crops that
    page first; and when its text is not empty, the text block the iteration
    adds, unless the spreadsheet refuses a cell of a table of the page, is
    labelled with the number [s], which is no page number. *)
Theorem C10_negative_index (w : world) (input_file output_file : string)
    (start_page end_page : Z) (header_height_mm footer_height_mm : float)
    (pages : list page) :
  path_exists w input_file = true →
  endswith (lower input_file) ".pdf" = true →
  endswith (lower output_file) ".xlsx" = true →
  pdfplumber_open w input_file = Return pages →
  Workbook_raises w = None →
  start_page ≤ 0 →
  - Z.of_nat (length pages) ≤ start_page - 1 →
  start_page ≤ end_page →
  let hh := mm_to_points header_height_mm in
  let fh := mm_to_points footer_height_mm in
  ∃ p,
    pages !! Z.to_nat (Z.of_nat (length pages) + (start_page - 1)) = Some p
    ∧ get_page pages (start_page - 1) = ([], Return p)
    ∧ (∃ t, (pdf_to_excel w input_file (Some output_file) (Some start_page)
               (Some end_page) (Some header_height_mm)
               (Some footer_height_mm)).1
            = EvOpen input_file
              :: EvWithinBBox (start_page - 1) (cropping_box hh fh p) :: t)
    ∧ (∀ c page_text tables all_text wb,
         within_bbox p (cropping_box hh fh p) = Return c →
         extract_text c = Return (Some page_text) →
         page_text ≠ EmptyString →
         extract_tables c = Return tables →
         process_page pages hh fh (start_page - 1) (all_text, wb)
         = ([EvWithinBBox (start_page - 1) (cropping_box hh fh p)],
            match (add_table_sheets (start_page - 1) tables wb).2 with
            | Return wb' =>
                Return (all_text ++ ["Page " +:+ pretty start_page +:+ ":" +:+ nl
                                     +:+ page_text],
                        wb')
            | Raise e => Raise e
            end)).
Proof.
  intros Hex Hpdf Hxlsx Ho Hw Hs Hreach Hend hh fh.
  assert (Hidx : index_page pages (start_page - 1)
                 = pages !! Z.to_nat (Z.of_nat (length pages) + (start_page - 1))).
  { unfold index_page.
    destruct (Z.leb_spec 0 (start_page - 1)); [lia|].
    destruct (Z.leb_spec (- Z.of_nat (length pages)) (start_page - 1)); [done|lia]. }
  destruct (pages !! Z.to_nat (Z.of_nat (length pages) + (start_page - 1)))
    as [p|] eqn:Hp; [|apply lookup_ge_None in Hp; lia].
  exists p. split_and!.
  - done.
  - unfold get_page. by rewrite Hidx.
  - rewrite (pdf_to_excel_run w input_file Hex Hpdf output_file Hxlsx
               (Some start_page) (Some end_page) header_height_mm
               footer_height_mm pages Ho Hw).
    rewrite page_loop_Some. unfold range.
    rewrite seqZ_cons by lia. rewrite for_each_cons, process_page_cases, Hidx.
    fold hh fh. unfold mbind, M_bind, bind.
    destruct (within_bbox p _) as [c|e]; [destruct (extract_text c) as [txt|e];
      [destruct (extract_tables c) as [tables|e];
         [destruct (tables_error tables) as [e|]|]|]|].
    + destruct (is_Exception e); simpl; eauto.
    + destruct (for_each _ _ _) as [t [[all_text wb]|e]]; simpl.
      * destruct (text_error all_text) as [err|]; simpl; [eauto|].
        destruct (workbook_save w _ output_file) as [[]|e];
          [|destruct (is_Exception e)]; simpl; eauto.
      * destruct (is_Exception e); simpl; eauto.
    + destruct (is_Exception e); simpl; eauto.
    + destruct (is_Exception e); simpl; eauto.
    + destruct (is_Exception e); simpl; eauto.
  - intros c page_text tables all_text wb Hc Ht Hne Hts.
    rewrite process_page_cases, Hidx, Hc, Ht, Hts, add_table_sheets_cases.
    destruct (tables_error tables) as [e|]; [done|]. simpl.
    replace (start_page - 1 + 1) with start_page by lia.
    destruct page_text as [|a page_text]; [done|].
    unfold append_text, text_block, saved_table_sheets.
    rewrite (put_table_sheets_app _ _ wb), put_table_sheets_app.
    by replace (start_page - 1 + 1) with start_page by lia.
Qed.

Lemma C10_negative_index_witness :
  ∃ p,
    [hello_page; last_page] !! 1%nat = Some p
    ∧ get_page [hello_page; last_page] (-1) = ([], Return p)
    ∧ (∃ t, (pdf_to_excel (example_world [hello_page; last_page] None) "in.pdf"
               (Some "out.xlsx") (Some 0) (Some 1) (Some 0%float)
               (Some 0%float)).1
            = EvOpen "in.pdf"
              :: EvWithinBBox (-1) (cropping_box 0 0 p) :: t)
    ∧ (∀ c page_text tables all_text wb,
         within_bbox p (cropping_box 0 0 p) = Return c →
         extract_text c = Return (Some page_text) →
         page_text ≠ EmptyString →
         extract_tables c = Return tables →
         process_page [hello_page; last_page] 0 0 (-1) (all_text, wb)
         = ([EvWithinBBox (-1) (cropping_box 0 0 p)],
            match (add_table_sheets (-1) tables wb).2 with
            | Return wb' =>
                Return (all_text ++ ["Page " +:+ "0" +:+ ":" +:+ nl +:+ page_text],
                        wb')
            | Raise e => Raise e
            end)).
Proof.
  exact (C10_negative_index (example_world [hello_page; last_page] None)
           "in.pdf" "out.xlsx" 0 1 0%float 0%float [hello_page; last_page]
           eq_refl eq_refl eq_refl eq_refl eq_refl
           ltac:(lia) ltac:(simpl; lia) ltac:(lia)).
Defined.


(** * Further properties of the code *)

(** ** The two sheet writers on any worksheet *)

Section Writers.
Implicit Types (s : sheet) (r c k : nat) (v : cell_value).

Lemma lookup_put_cell r c v s r' c' :
  cells (put_cell r c v s) !! (r', c')
  = if decide ((r', c') = (r, c))
    then Some (match v with
               | Some x => Some x
               | None => default None (cells s !! (r, c))
               end)
    else cells s !! (r', c').
Proof.
  unfold put_cell. destruct v as [x|].
  - cbn [cells]. case_decide as H.
    + rewrite H. apply lookup_insert_eq.
    + by rewrite lookup_insert_ne.
  - destruct (cells s !! (r, c)) as [old|] eqn:Hold.
    + case_decide as H; [|done]. by rewrite H, Hold.
    + cbn [cells]. case_decide as H.
      * rewrite H. apply lookup_insert_eq.
      * by rewrite lookup_insert_ne.
Qed.

(** A row written from column [k] on, into any worksheet. *)
Lemma lookup_put_row_any r row k s r' c' :
  cells (fold_left (fun s '(col_idx, value) => put_cell r col_idx value s)
                   (enumerate k row) s) !! (r', c')
  = if decide (r' = r ∧ k ≤ c')%nat
    then match row !! (c' - k)%nat with
         | Some (Some x) => Some (Some x)
         | Some None => Some (default None (cells s !! (r', c')))
         | None => cells s !! (r', c')
         end
    else cells s !! (r', c').
Proof.
  revert k s. induction row as [|v row IH]; intros k s; simpl.
  - by case_decide.
  - rewrite IH. rewrite !lookup_put_cell.
    destruct (decide (r' = r ∧ S k ≤ c')%nat) as [[-> Hc]|Hn].
    + destruct (decide (r = r ∧ k ≤ c')%nat) as [_|Hn]; [|lia].
      destruct (decide ((r, c') = (r, k))) as [[= ?]|_]; [lia|].
      destruct (c' - k)%nat as [|n] eqn:E; [lia|]. simpl.
      by replace (c' - S k)%nat with n by lia.
    + destruct (decide (r' = r ∧ k ≤ c')%nat) as [[-> Hc]|Hn'].
      * assert (c' = k) as -> by (destruct (decide (c' = k)); [done|];
          exfalso; apply Hn; split; [done|lia]).
        destruct (decide ((r, k) = (r, k))) as [_|]; [|done].
        rewrite Nat.sub_diag. simpl. by destruct v.
      * destruct (decide ((r', c') = (r, k))) as [[= ? ?]|_]; [|done].
        subst. exfalso. apply Hn'. split; [done|lia].
Qed.

(** The rows of a table written from row [k] on, into any worksheet. *)
Lemma lookup_put_table_any t k s r' c' :
  cells (fold_left (fun s '(row_idx, row) => put_row row_idx row s)
                   (enumerate k t) s) !! (r', c')
  = if decide (k ≤ r' ∧ 1 ≤ c')%nat
    then match row ← t !! (r' - k)%nat; row !! (c' - 1)%nat with
         | Some (Some x) => Some (Some x)
         | Some None => Some (default None (cells s !! (r', c')))
         | None => cells s !! (r', c')
         end
    else cells s !! (r', c').
Proof.
  revert k s. induction t as [|row t IH]; intros k s; simpl.
  - by case_decide.
  - rewrite IH. unfold put_row. rewrite !lookup_put_row_any.
    destruct (decide (S k ≤ r' ∧ 1 ≤ c')%nat) as [[Hr Hc]|Hn].
    + destruct (decide (k ≤ r' ∧ 1 ≤ c')%nat) as [_|]; [|lia].
      destruct (decide (r' = k ∧ 1 ≤ c')%nat) as [[? _]|_]; [lia|].
      destruct (r' - k)%nat as [|n] eqn:E; [lia|]. simpl.
      by replace (r' - S k)%nat with n by lia.
    + destruct (decide (k ≤ r' ∧ 1 ≤ c')%nat) as [[Hr Hc]|Hn'].
      * assert (r' = k) as -> by lia.
        destruct (decide (k = k ∧ 1 ≤ c')%nat) as [_|]; [|lia].
        rewrite Nat.sub_diag. simpl.
        by destruct (row !! (c' - 1)%nat) as [[x|]|].
      * destruct (decide (r' = k ∧ 1 ≤ c')%nat) as [[-> ?]|_]; [|done].
        exfalso. apply Hn'. lia.
Qed.

(** A list written from row [k] on, into any worksheet. *)
Lemma lookup_put_text_any text_data k s r' c' :
  cells (fold_left (fun s '(i, line) => put_cell i 1 (Some line) s)
                   (enumerate k text_data) s) !! (r', c')
  = if decide (c' = 1 ∧ k ≤ r')%nat
    then match text_data !! (r' - k)%nat with
         | Some line => Some (Some line)
         | None => cells s !! (r', c')
         end
    else cells s !! (r', c').
Proof.
  revert k s. induction text_data as [|l text_data IH]; intros k s;
    cbn [enumerate fold_left].
  - by case_decide.
  - rewrite IH. rewrite !lookup_put_cell.
    destruct (decide (c' = 1 ∧ S k ≤ r')%nat) as [[-> Hr]|Hn].
    + destruct (decide (1 = 1 ∧ k ≤ r')%nat) as [_|]; [|lia].
      destruct (decide ((r', 1%nat) = (k, 1%nat))) as [[= ?]|_]; [lia|].
      destruct (r' - k)%nat as [|n] eqn:E; [lia|]. simpl.
      by replace (r' - S k)%nat with n by lia.
    + destruct (decide (c' = 1 ∧ k ≤ r')%nat) as [[-> Hr]|Hn'].
      * assert (r' = k) as -> by (destruct (decide (r' = k)); [done|];
          exfalso; apply Hn; split; [done|lia]).
        destruct (decide ((k, 1%nat) = (k, 1%nat))) as [_|]; [|done].
        by rewrite Nat.sub_diag.
      * destruct (decide ((r', c') = (k, 1%nat))) as [[= ? ?]|_]; [|done].
        subst. exfalso. apply Hn'. split; [done|lia].
Qed.

End Writers.

(** The cell of a table as it is stored. *)
Lemma table_cell_stored (t : table) (r c : nat) :
  table_cell (stored_table t) r c = stored_cell <$> table_cell t r c.
Proof.
  unfold table_cell, stored_table, stored_row.
  destruct r as [|r']; [done|]. destruct c as [|c']; [done|].
  rewrite list_lookup_fmap. destruct (t !! r') as [row|]; [|done]. simpl.
  by rewrite list_lookup_fmap.
Qed.

(** X4. [write_text_to_sheet] on any worksheet.  When the spreadsheet
    refuses an entry of the list, the call raises the error of the first
    entry refused.  Otherwise it returns, and then entry [j] of the list,
    cut to its first 32767 characters, is at row [j + 1], column 1,
    replacing what was there; every other cell and the title of the
    worksheet are as before. *)
Theorem write_text_to_sheet_overwrites (text_data : list string) (s : sheet) :
  match text_error text_data with
  | Some e => write_text_to_sheet text_data s = ([], Raise e)
  | None =>
      ∃ s', write_text_to_sheet text_data s = ([], Return s')
        ∧ title s' = title s
        ∧ ∀ r c, cells s' !! (r, c)
                 = match r, c with
                   | S j, 1%nat =>
                       match text_data !! j with
                       | Some line => Some (Some (stored line))
                       | None => cells s !! (r, c)
                       end
                   | _, _ => cells s !! (r, c)
                   end
  end.
Proof.
  rewrite write_text_to_sheet_cases.
  destruct (text_error text_data) as [e|]; [done|].
  eexists. split_and!; [done|apply title_put_text_from|].
  intros r c. unfold put_text. rewrite lookup_put_text_any.
  destruct r as [|j].
  - rewrite decide_False by lia. by destruct c as [|[|c]].
  - destruct (decide (c = 1%nat)) as [->|Hc].
    + rewrite decide_True by lia. simpl.
      rewrite Nat.sub_0_r, list_lookup_fmap.
      by destruct (text_data !! j).
    + rewrite decide_False by tauto. by destruct c as [|[|c]].
Qed.

(** X5. [write_table_to_sheet] on any worksheet.  When the spreadsheet
    refuses a cell of the table, the call raises the error of the first cell
    refused, rows in order and cells in order within a row.  Otherwise it
    returns, and then: a table cell that holds a string is copied, cut to
    its first 32767 characters, to the worksheet cell of the same row and
    column (counted from 1); a table cell that holds [None] leaves the value
    of the worksheet cell as it was; a worksheet cell that no table cell
    corresponds to (beyond the last row, beyond the end of its row, which
    may be shorter than other rows, or in row or column 0) is as before; and
    so is the title. *)
Theorem write_table_to_sheet_cells (t : table) (s : sheet) :
  match table_error t with
  | Some e => write_table_to_sheet t s = ([], Raise e)
  | None =>
      ∃ s', write_table_to_sheet t s = ([], Return s')
        ∧ title s' = title s
        ∧ ∀ r c,
            (∀ x, table_cell t r c = Some (Some x) →
                  cells s' !! (r, c) = Some (Some (stored x)))
            ∧ (table_cell t r c = Some None →
               cells s' !! (r, c) = Some (default None (cells s !! (r, c))))
            ∧ (table_cell t r c = None →
               cells s' !! (r, c) = cells s !! (r, c))
  end.
Proof.
  rewrite write_table_to_sheet_cases.
  destruct (table_error t) as [e|]; [done|].
  eexists. split_and!; [done|apply title_put_table|].
  intros r c.
  assert (H : cells (put_table (stored_table t) s) !! (r, c)
              = match table_cell t r c with
                | Some (Some x) => Some (Some (stored x))
                | Some None => Some (default None (cells s !! (r, c)))
                | None => cells s !! (r, c)
                end).
  { pose proof (table_cell_stored t r c) as Hcell.
    unfold put_table. rewrite lookup_put_table_any.
    unfold table_cell in Hcell |- *.
    destruct r as [|r']; [by rewrite decide_False by lia|].
    destruct c as [|c']; [by rewrite decide_False by lia|].
    rewrite decide_True by lia. simpl. rewrite !Nat.sub_0_r.
    rewrite Hcell.
    by destruct (row ← t !! r'; row !! c') as [[x|]|]. }
  rewrite H. split_and!.
  - by intros x ->.
  - by intros ->.
  - by intros ->.
Qed.

Lemma write_table_to_sheet_cells_witness :
  ∃ s',
    write_table_to_sheet [[Some "a"]; [Some "c"; None]]
      (Sheet "S" (<[(1%nat, 2%nat) := Some "old"]>
                    (<[(2%nat, 2%nat) := Some "kept"]> ∅)))
    = ([], Return s')
    ∧ title s' = "S"
    ∧ cells s' !! (2%nat, 1%nat) = Some (Some (stored "c"))
    ∧ cells s' !! (2%nat, 2%nat) = Some (Some "kept")
    ∧ cells s' !! (1%nat, 2%nat) = Some (Some "old").
Proof.
  destruct (write_table_to_sheet_cells [[Some "a"]; [Some "c"; None]]
              (Sheet "S" (<[(1%nat, 2%nat) := Some "old"]>
                            (<[(2%nat, 2%nat) := Some "kept"]> ∅))))
    as (s' & Hrun & Htitle & Hcells).
  exists s'. split_and!.
  - exact Hrun.
  - exact Htitle.
  - exact (proj1 (Hcells 2%nat 1%nat) "c" eq_refl).
  - exact (proj1 (proj2 (Hcells 2%nat 2%nat)) eq_refl).
  - exact (proj2 (proj2 (Hcells 1%nat 2%nat)) eq_refl).
Defined.

(** ** How a run ends *)

Lemma crop_indices_app t1 t2 :
  crop_indices (t1 ++ t2) = crop_indices t1 ++ crop_indices t2.
Proof. apply omap_app. Qed.

Lemma crop_indices_prints t :
  Forall (fun ev => ∃ line, ev = EvPrint line) t → crop_indices t = [].
Proof.
  induction 1 as [|ev t [line ->] _ IH]; [done|]. exact IH.
Qed.

(** The crop calls of pages that all give their content: one per index. *)
Lemma crop_indices_content (pages : list page) (hh fh : float)
    (indices : list Z) (contents : list (option string * list table)) :
  Forall2 (fun i c => page_content pages hh fh i = Some c) indices contents →
  crop_indices (crop_events pages hh fh indices) = indices.
Proof.
  induction 1 as [|i c indices contents Hc _ IH]; [done|].
  unfold crop_events, crop_indices in *. unfold page_content in Hc.
  cbn [omap list_omap].
  destruct (index_page pages i) as [p|]; [|done]. simpl. by f_equal.
Qed.

(** X6. On a valid request, when [pdfplumber.open] raises an [Exception]
    the routine prints one line, the label of the IoError kind followed by
    "Failed to open the PDF file: " and the message of the exception, and
    returns; nothing is opened, closed or saved. *)
Theorem open_failure_reported (w : world) (input_file output_file : string)
    (start_page end_page : option Z) (header_height_mm footer_height_mm : float)
    (e : exn) :
  path_exists w input_file = true →
  endswith (lower input_file) ".pdf" = true →
  endswith (lower output_file) ".xlsx" = true →
  pdfplumber_open w input_file = Raise e →
  is_Exception e = true →
  pdf_to_excel w input_file (Some output_file) start_page end_page
               (Some header_height_mm) (Some footer_height_mm)
  = ([EvPrint (kind_label IoError +:+ "Failed to open the PDF file: "
               +:+ exn_str e)], Return tt).
Proof.
  intros Hex Hpdf Hxlsx Ho He.
  rewrite (pdf_to_excel_open_fails w input_file Hex Hpdf output_file Hxlsx
             start_page end_page header_height_mm footer_height_mm e Ho).
  by rewrite He.
Qed.

Lemma open_failure_reported_witness :
  pdf_to_excel
    (World (fun _ => true)
           (fun _ => Raise (Exn (OtherException "PDFSyntaxError") "No /Root object"))
           None (fun _ _ => Return tt))
    "in.pdf" (Some "out.xlsx") (Some 1) (Some 1) (Some 0%float) (Some 0%float)
  = ([EvPrint "I/O error: Failed to open the PDF file: No /Root object"],
     Return tt).
Proof.
  apply (open_failure_reported
           (World (fun _ => true)
              (fun _ => Raise (Exn (OtherException "PDFSyntaxError")
                                 "No /Root object"))
              None (fun _ _ => Return tt))
           "in.pdf" "out.xlsx" (Some 1) (Some 1) 0%float 0%float
           (Exn (OtherException "PDFSyntaxError") "No /Root object"));
    reflexivity.
Defined.

(** The crop calls print nothing. *)
Lemma printed_crop_events (pages : list page) (hh fh : float)
    (indices : list Z) :
  printed (crop_events pages hh fh indices) = [].
Proof.
  unfold printed, crop_events.
  induction indices as [|i l IH]; [done|].
  simpl. by destruct (index_page pages i).
Qed.

(** X7. On a valid request whose pages all give their content, when
    [workbook.save] raises an [Exception]: if the spreadsheet takes every
    text block, the routine has cropped every page of the range, in order,
    closed the document and called [save] with the complete workbook; it
    prints one line, the label of the IoError kind followed by
    "Failed to save the Excel file: " and the message of the exception,
    prints no success message, and returns.  If the spreadsheet refuses a
    text block, [save] is not reached: the error of the block leaves the
    routine after the document was closed. *)
Theorem save_failure_reported (w : world) (input_file output_file : string)
    (start_page end_page : Z) (header_height_mm footer_height_mm : float)
    (pages : list page) (contents : list (option string * list table))
    (e : exn) :
  path_exists w input_file = true →
  endswith (lower input_file) ".pdf" = true →
  endswith (lower output_file) ".xlsx" = true →
  pdfplumber_open w input_file = Return pages →
  Workbook_raises w = None →
  Forall2 (fun i c => page_content pages (mm_to_points header_height_mm)
                        (mm_to_points footer_height_mm) i = Some c)
          (range (start_page - 1) end_page) contents →
  (∀ wb, workbook_save w wb output_file = Raise e) →
  is_Exception e = true →
  let run := pdf_to_excel w input_file (Some output_file) (Some start_page)
               (Some end_page) (Some header_height_mm)
               (Some footer_height_mm) in
  let t := crop_events pages (mm_to_points header_height_mm)
             (mm_to_points footer_height_mm)
             (range (start_page - 1) end_page) in
  let all_text := concat (zip_with (fun i c => append_text i c.1 [])
                                   (range (start_page - 1) end_page)
                                   contents) in
  crop_indices t = range (start_page - 1) end_page
  ∧ printed t = []
  ∧ match text_error all_text with
    | None =>
        run = (EvOpen input_file :: t
               ++ [EvClose;
                   EvSave output_file
                     (saved_text_sheet all_text
                      :: concat (zip_with (fun i c => saved_table_sheets i c.2)
                                          (range (start_page - 1) end_page)
                                          contents));
                   EvPrint (kind_label IoError
                            +:+ "Failed to save the Excel file: "
                            +:+ exn_str e)],
               Return tt)
    | Some err => run = (EvOpen input_file :: t ++ [EvClose], Raise err)
    end.
Proof.
  intros Hex Hpdf Hxlsx Ho Hw Hall Hsave He run t all_text. subst run.
  rewrite (pdf_to_excel_all_pages w input_file output_file pages start_page
             end_page header_height_mm footer_height_mm Hex Hpdf Hxlsx Ho Hw
             contents Hall).
  cbv zeta. fold all_text. fold t.
  split_and!.
  - by eapply crop_indices_content.
  - apply printed_crop_events.
  - destruct (text_error all_text) as [err|]; [done|].
    rewrite Hsave, He. simpl. by rewrite <- app_assoc.
Qed.

Lemma save_failure_reported_witness :
  pdf_to_excel
    (World (fun _ => true) (fun _ => Return [hello_page]) None
           (fun _ _ => Raise (Exn OSError "Permission denied")))
    "in.pdf" (Some "out.xlsx") (Some 1) (Some 1) (Some 0%float) (Some 0%float)
  = ([EvOpen "in.pdf";
      EvWithinBBox 0 (BBox 0 0 595 842);
      EvClose;
      EvSave "out.xlsx" [saved_text_sheet ["Page 1:" +:+ nl +:+ "hello"]];
      EvPrint "I/O error: Failed to save the Excel file: Permission denied"],
     Return tt).
Proof.
  exact (proj2 (proj2
    (save_failure_reported
       (World (fun _ => true) (fun _ => Return [hello_page]) None
              (fun _ _ => Raise (Exn OSError "Permission denied")))
       "in.pdf" "out.xlsx" 1 1 0%float 0%float [hello_page]
       [(Some "hello", [])] (Exn OSError "Permission denied")
       eq_refl eq_refl eq_refl eq_refl eq_refl
       ltac:(repeat constructor) ltac:(reflexivity) eq_refl))).
Defined.

(** X8. On a valid request whose pages all give their content, when the
    spreadsheet takes every text block and [workbook.save] returns, the run
    is exactly: the document is opened, the pages of the range are cropped,
    each once, in ascending order, the document is closed, the workbook (the
    text worksheet with the text blocks, then the table worksheets of the
    pages in order) is saved under the output file name, and the one line
    printed is "PDF data successfully converted to {output_file}"; the
    routine returns. *)
Theorem conversion_succeeds (w : world) (input_file output_file : string)
    (start_page end_page : Z) (header_height_mm footer_height_mm : float)
    (pages : list page) (contents : list (option string * list table)) :
  path_exists w input_file = true →
  endswith (lower input_file) ".pdf" = true →
  endswith (lower output_file) ".xlsx" = true →
  pdfplumber_open w input_file = Return pages →
  Workbook_raises w = None →
  Forall2 (fun i c => page_content pages (mm_to_points header_height_mm)
                        (mm_to_points footer_height_mm) i = Some c)
          (range (start_page - 1) end_page) contents →
  text_error (concat (zip_with (fun i c => append_text i c.1 [])
                               (range (start_page - 1) end_page) contents))
  = None →
  (∀ wb, workbook_save w wb output_file = Return tt) →
  let t := crop_events pages (mm_to_points header_height_mm)
             (mm_to_points footer_height_mm)
             (range (start_page - 1) end_page) in
  pdf_to_excel w input_file (Some output_file) (Some start_page)
               (Some end_page) (Some header_height_mm) (Some footer_height_mm)
  = (EvOpen input_file :: t
     ++ [EvClose;
         EvSave output_file
           (saved_text_sheet
              (concat (zip_with (fun i c => append_text i c.1 [])
                                (range (start_page - 1) end_page) contents))
            :: concat (zip_with (fun i c => saved_table_sheets i c.2)
                                (range (start_page - 1) end_page) contents));
         EvPrint ("PDF data successfully converted to " +:+ output_file)],
     Return tt)
  ∧ crop_indices t = range (start_page - 1) end_page
  ∧ t = omap (fun i =>
                p ← index_page pages i;
                Some (EvWithinBBox i
                        (BBox 0 (header_height_mm * 2.83465)%float (width p)
                              (height p - footer_height_mm * 2.83465)%float)))
             (range (start_page - 1) end_page).
Proof.
  intros Hex Hpdf Hxlsx Ho Hw Hall Htext Hsave t.
  rewrite (pdf_to_excel_all_pages w input_file output_file pages start_page
             end_page header_height_mm footer_height_mm Hex Hpdf Hxlsx Ho Hw
             contents Hall).
  cbv zeta. rewrite Htext, Hsave. fold t.
  split_and!.
  - simpl. by rewrite <- app_assoc.
  - by eapply crop_indices_content.
  - done.
Qed.

Lemma conversion_succeeds_witness :
  pdf_to_excel (example_world [hello_page; table_page; last_page] None)
    "in.pdf" (Some "out.xlsx") (Some 2) (Some 3) (Some 0%float) (Some 0%float)
  = ([EvOpen "in.pdf";
      EvWithinBBox 1 (BBox 0 0 595 842);
      EvWithinBBox 2 (BBox 0 0 595 842);
      EvClose;
      EvSave "out.xlsx"
        [saved_text_sheet ["Page 3:" +:+ nl +:+ "last"];
         put_table [[Some "a"; Some "b"]; [Some "c"; Some "d"]]
                   (Sheet "Table_Page_2_1" ∅)];
      EvPrint "PDF data successfully converted to out.xlsx"],
     Return tt).
Proof.
  exact (proj1
    (conversion_succeeds
       (example_world [hello_page; table_page; last_page] None)
       "in.pdf" "out.xlsx" 2 3 0%float 0%float
       [hello_page; table_page; last_page]
       [(None, [[[Some "a"; Some "b"]; [Some "c"; Some "d"]]]);
        (Some "last", [])]
       eq_refl eq_refl eq_refl eq_refl eq_refl
       ltac:(repeat constructor) eq_refl ltac:(reflexivity))).
Defined.

(** X9. When [end_page < start_page] the range is empty: on a valid request
    no page is looked up or cropped, whatever the page count and however far
    out of it the two numbers are, and the workbook handed to [save] is the
    one empty worksheet "Text_Body". *)
Theorem empty_range_saves_empty_workbook (w : world)
    (input_file output_file : string) (start_page end_page : Z)
    (header_height_mm footer_height_mm : float) (pages : list page) :
  path_exists w input_file = true →
  endswith (lower input_file) ".pdf" = true →
  endswith (lower output_file) ".xlsx" = true →
  pdfplumber_open w input_file = Return pages →
  Workbook_raises w = None →
  end_page < start_page →
  ∃ rest,
    (pdf_to_excel w input_file (Some output_file) (Some start_page)
                  (Some end_page) (Some header_height_mm)
                  (Some footer_height_mm)).1
    = EvOpen input_file :: EvClose
      :: EvSave output_file [Sheet "Text_Body" ∅] :: rest
    ∧ Forall (fun ev => ∃ line, ev = EvPrint line) rest.
Proof.
  intros Hex Hpdf Hxlsx Ho Hw Hlt.
  assert (Hrange : range (start_page - 1) end_page = []).
  { unfold range. apply seqZ_nil. lia. }
  destruct (pdf_to_excel_saves w input_file output_file pages start_page
              end_page header_height_mm footer_height_mm Hex Hpdf Hxlsx Ho Hw [])
    as (rest & Hrun & Hrest).
  { rewrite Hrange. constructor. }
  { by rewrite Hrange. }
  exists rest. split; [|done].
  rewrite Hrun, Hrange. done.
Qed.

Lemma empty_range_saves_empty_workbook_witness :
  ∃ rest,
    (pdf_to_excel (example_world [hello_page] None) "in.pdf" (Some "out.xlsx")
                  (Some 9) (Some 7) (Some 0%float) (Some 0%float)).1
    = EvOpen "in.pdf" :: EvClose
      :: EvSave "out.xlsx" [Sheet "Text_Body" ∅] :: rest
    ∧ Forall (fun ev => ∃ line, ev = EvPrint line) rest.
Proof.
  apply (empty_range_saves_empty_workbook (example_world [hello_page] None)
           "in.pdf" "out.xlsx" 9 7 0%float 0%float [hello_page]);
    try reflexivity.
Defined.

(** ** What a run never does *)

Lemma crop_events_are_crops (pages : list page) (hh fh : float) (indices : list Z) ev :
  In ev (crop_events pages hh fh indices) → ∃ i box, ev = EvWithinBBox i box.
Proof.
  intros Hin. apply list_elem_of_In in Hin. unfold crop_events in Hin.
  apply list_elem_of_omap in Hin as (i & _ & Hi).
  destruct (index_page pages i) as [p|]; [|done].
  injection Hi as <-. eauto.
Qed.

Lemma page_loop_are_crops (pages : list page) (hh fh : float)
    (start_page end_page : option Z) st ev :
  In ev (page_loop pages hh fh start_page end_page st).1 →
  ∃ i box, ev = EvWithinBBox i box.
Proof.
  intros Hin.
  pose proof (page_loop_events pages hh fh start_page end_page st) as Hev.
  rewrite Forall_forall in Hev. apply list_elem_of_In in Hin.
  destruct (Hev _ Hin) as (i & p & _ & ->). eauto.
Qed.

(** What a saved workbook tells about the run. *)
Lemma pdf_to_excel_saved_inv (w : world) (input_file : string)
    (out : option string) (start_page end_page : option Z)
    (hh fh : option float) (path : string) (wb : workbook) :
  In (EvSave path wb) (pdf_to_excel w input_file out start_page end_page hh fh).1 →
  ∃ s e h f pages contents,
    out = Some path ∧ start_page = Some s ∧ end_page = Some e
    ∧ hh = Some h ∧ fh = Some f
    ∧ pdfplumber_open w input_file = Return pages
    ∧ Forall2 (fun i c => page_content pages (mm_to_points h)
                            (mm_to_points f) i = Some c)
              (range (s - 1) e) contents
    ∧ text_error (concat (zip_with (fun i c => append_text i c.1 [])
                                   (range (s - 1) e) contents)) = None
    ∧ wb = saved_text_sheet
             (concat (zip_with (fun i c => append_text i c.1 [])
                               (range (s - 1) e) contents))
           :: concat (zip_with (fun i c => saved_table_sheets i c.2)
                               (range (s - 1) e) contents).
Proof.
  intros Hin.
  destruct (pdf_to_excel_reached_loop w _ _ _ _ _ _ _ Hin)
    as (output_file & h & f & pages & -> & -> & -> & Hex & Hpdf & Hxlsx & Ho & Hw);
    [done..|].
  rewrite (pdf_to_excel_run w input_file Hex Hpdf output_file Hxlsx
             start_page end_page h f pages Ho Hw) in Hin.
  pose proof (page_loop_are_crops pages (mm_to_points h) (mm_to_points f)
                start_page end_page ([], [Sheet "Text_Body" ∅])) as Hcrops.
  destruct start_page as [s|], end_page as [e|];
    try (exfalso; simpl in Hin; intuition congruence).
  rewrite page_loop_Some in Hin, Hcrops.
  destruct (for_each _ _ _) as [t [[all_text wb']|ex]] eqn:Hloop.
  - destruct (for_each_Return_inv _ _ _ _ _ _ _ Hloop) as [contents Hall].
    rewrite (for_each_content _ _ _ _ _ _ _ Hall) in Hloop.
    injection Hloop as <- <- <-.
    cbn [app] in Hin.
    destruct (text_error _) as [err|] eqn:Herr.
    { exfalso. destruct Hin as [Hin|Hin]; [done|].
      apply in_app_or in Hin as [Hin|Hin];
        [by destruct (Hcrops _ Hin) as (i & box & ?)|].
      simpl in Hin. intuition congruence. }
    cbv zeta in Hin. set (WB := on_sheet active _ _) in Hin.
    assert (Hthis : EvSave path wb = EvSave output_file WB).
    { destruct (workbook_save w WB output_file) as [[]|ex];
        [|destruct (is_Exception ex)]; simpl in Hin;
        rewrite <- ?app_assoc in Hin;
        (destruct Hin as [Hin|Hin]; [done|]);
        (apply in_app_or in Hin as [Hin|Hin];
         [by destruct (Hcrops _ Hin) as (i & box & ?)|]);
        simpl in Hin; intuition congruence. }
    injection Hthis as -> ->.
    by exists s, e, h, f, pages, contents.
  - exfalso. destruct (is_Exception ex); simpl in Hin;
      (destruct Hin as [Hin|Hin]; [done|]);
      (apply in_app_or in Hin as [Hin|Hin];
       [by destruct (Hcrops _ Hin) as (i & box & ?)|]);
      simpl in Hin; intuition congruence.
Qed.

(** X10. [workbook.save] is called only after the loop has gone through
    every page of the range: if a run saves a workbook, all the arguments
    were given, every page of the range gave its content, the file name is
    the output file, the spreadsheet took every text block, and the workbook
    is the complete one, the text worksheet with the text blocks of all
    these pages followed by the table worksheets of all these pages.  A
    workbook of some of the pages only is never saved. *)
Theorem saved_only_after_all_pages (w : world) (input_file : string)
    (out : option string) (start_page end_page : option Z)
    (hh fh : option float) (path : string) (wb : workbook) :
  In (EvSave path wb) (pdf_to_excel w input_file out start_page end_page hh fh).1 →
  ∃ s e h f pages contents,
    out = Some path ∧ start_page = Some s ∧ end_page = Some e
    ∧ hh = Some h ∧ fh = Some f
    ∧ pdfplumber_open w input_file = Return pages
    ∧ Forall2 (fun i c => page_content pages (mm_to_points h)
                            (mm_to_points f) i = Some c)
              (range (s - 1) e) contents
    ∧ text_error (concat (zip_with (fun i c => append_text i c.1 [])
                                   (range (s - 1) e) contents)) = None
    ∧ wb = saved_text_sheet
             (concat (zip_with (fun i c => append_text i c.1 [])
                               (range (s - 1) e) contents))
           :: concat (zip_with (fun i c => saved_table_sheets i c.2)
                               (range (s - 1) e) contents).
Proof. apply pdf_to_excel_saved_inv. Qed.

Lemma saved_only_after_all_pages_witness :
  ∃ s e h f pages contents,
    Some "out.xlsx" = Some "out.xlsx" ∧ Some 1 = Some s ∧ Some 1 = Some e
    ∧ Some 0%float = Some h ∧ Some 0%float = Some f
    ∧ pdfplumber_open (example_world [hello_page] None) "in.pdf" = Return pages
    ∧ Forall2 (fun i c => page_content pages (mm_to_points h)
                            (mm_to_points f) i = Some c)
              (range (s - 1) e) contents
    ∧ text_error (concat (zip_with (fun i c => append_text i c.1 [])
                                   (range (s - 1) e) contents)) = None
    ∧ [saved_text_sheet ["Page 1:" +:+ nl +:+ "hello"]]
      = saved_text_sheet
          (concat (zip_with (fun i c => append_text i c.1 [])
                            (range (s - 1) e) contents))
        :: concat (zip_with (fun i c => saved_table_sheets i c.2)
                            (range (s - 1) e) contents).
Proof.
  apply (saved_only_after_all_pages (example_world [hello_page] None) "in.pdf"
           (Some "out.xlsx") (Some 1) (Some 1) (Some 0%float) (Some 0%float)).
  vm_compute. do 3 right. left. reflexivity.
Defined.

(** The body of [pdf_to_excel] prints one line, the success message, when
    it returns. *)
Lemma body_Return_printed (w : world) (input_file : string) (out : option string)
    (start_page end_page : option Z) (hh fh : option float) t r :
  pdf_to_excel_body w input_file out start_page end_page hh fh = (t, Return r) →
  ∃ line, printed t = [line].
Proof.
  unfold pdf_to_excel_body.
  destruct (path_exists w input_file); simpl; [|done].
  destruct (endswith (lower input_file) ".pdf"); simpl; [|done].
  destruct out as [output_file|]; [|done].
  destruct (endswith (lower output_file) ".xlsx"); simpl; [|done].
  destruct hh as [h|]; [|done]. destruct fh as [f|]; [|done]. simpl.
  destruct (pdfplumber_open w input_file) as [pages|e0]; simpl.
  - unfold Workbook. destruct (Workbook_raises w) as [e0|]; simpl; [done|].
    pose proof (printed_page_loop pages (mm_to_points h) (mm_to_points f)
                  start_page end_page
                  ([], on_sheet active (set_title "Text_Body") new_workbook))
      as Hloop.
    destruct (page_loop _ _ _ _ _ _) as [t' [[all_text wb]|e0]]; simpl in *.
    + pose proof (update_sheet_text_events active all_text wb) as Hwrite.
      destruct (update_sheet active _ wb) as [t2 [wb'|e0]]; simpl in Hwrite;
        subst t2; simpl; [|done].
      destruct (workbook_save w _ output_file) as [[]|e0]; simpl.
      * intros [= <- _]. eexists.
        unfold printed in *. simpl. rewrite !omap_app, Hloop. done.
      * unfold reraise. by destruct (is_Exception e0).
    + unfold reraise. by destruct (is_Exception e0).
  - unfold reraise. by destruct (is_Exception e0).
Qed.

(** X11. A run of [pdf_to_excel] that returns has printed exactly one line
    (the success message or one error message); a run that raises has
    printed nothing, and what it raises is none of the five kinds of error
    the routine has a handler for. *)
Theorem one_line_per_return (w : world) (input_file : string)
    (out : option string) (start_page end_page : option Z)
    (hh fh : option float) :
  match pdf_to_excel w input_file out start_page end_page hh fh with
  | (t, Return _) => ∃ line, printed t = [line]
  | (t, Raise e) => printed t = [] ∧ classify e = None
  end.
Proof.
  unfold pdf_to_excel.
  destruct (pdf_to_excel_body w input_file out start_page end_page hh fh)
    as [t [[]|e]] eqn:Hbody; simpl.
  - by eapply body_Return_printed.
  - pose proof (body_Raise_printed _ _ _ _ _ _ _ _ _ Hbody) as Hnone.
    rewrite handlers_classify. destruct (classify e) as [k|] eqn:Hk; simpl.
    + eexists. by rewrite printed_app, Hnone.
    + done.
Qed.

(** ** The order of the pages *)

(** The crop calls of the loop are made for an initial part of the indices,
    in their order. *)
Lemma for_each_crop_prefix (pages : list page) (hh fh : float)
    (indices : list Z) st :
  crop_indices (for_each (process_page pages hh fh) indices st).1
  `prefix_of` indices.
Proof.
  revert st. induction indices as [|i indices IH]; intros [all_text wb].
  - simpl. done.
  - rewrite for_each_cons, process_page_cases.
    destruct (index_page pages i) as [p|]; [|apply prefix_nil].
    unfold mbind, M_bind, bind.
    destruct (within_bbox p _) as [c|e];
      [|by apply prefix_cons, prefix_nil].
    destruct (extract_text c) as [page_text|e];
      [|by apply prefix_cons, prefix_nil].
    destruct (extract_tables c) as [tables|e];
      [|by apply prefix_cons, prefix_nil].
    destruct (tables_error tables) as [e|];
      [by apply prefix_cons, prefix_nil|].
    specialize (IH (append_text i page_text all_text,
                    wb ++ saved_table_sheets i tables)).
    destruct (for_each _ indices _) as [t r]. simpl in *.
    by apply prefix_cons.
Qed.

Lemma crop_indices_nil_or t :
  crop_indices t = [] ∨ ∃ i box, In (EvWithinBBox i box) t.
Proof.
  induction t as [|ev t [IH|(i & box & IH)]]; [by left| |right; eauto 6 using in_cons].
  destruct ev; try (by left). right. eexists _, _. by left.
Qed.

(** A page that exists and does not give its content raises an error. *)
Lemma page_content_None_error (pages : list page) (hh fh : float) (i : Z)
    (p : page) :
  index_page pages i = Some p →
  page_content pages hh fh i = None →
  ∃ ex, page_error hh fh p = Some ex.
Proof.
  intros Hp. unfold page_content, page_error. rewrite Hp. simpl.
  destruct (within_bbox p _) as [c|e]; [|eauto].
  destruct (extract_text c) as [page_text|e]; [|eauto].
  destruct (extract_tables c) as [tables|e]; [|eauto].
  destruct (tables_error tables) as [e|]; [eauto|done].
Qed.

(** Either every index gives its content, or there is a first one that
    does not. *)
Lemma first_failing_page (pages : list page) (hh fh : float)
    (indices : list Z) :
  (∃ contents,
     Forall2 (fun i c => page_content pages hh fh i = Some c) indices contents)
  ∨ (∃ done i rest contents,
       indices = done ++ i :: rest
       ∧ Forall2 (fun i c => page_content pages hh fh i = Some c) done contents
       ∧ page_content pages hh fh i = None).
Proof.
  induction indices as [|i indices IH].
  - left. exists []. constructor.
  - destruct (page_content pages hh fh i) as [c|] eqn:Hc.
    + destruct IH as [[contents Hall]|(done & j & rest & contents & -> & Hall
                                       & Hj)].
      * left. exists (c :: contents). by constructor.
      * right. exists (i :: done), j, rest, (c :: contents).
        split_and!; [done| by constructor | done].
    + right. exists [], i, indices, []. split_and!; [done|constructor|done].
Qed.

(** X12. In every run the pages are cropped in the order of
    [range(start_page - 1, end_page)], each index at most once and none
    skipped: the indices of the crop calls form an initial part of that
    range, and no page is cropped when a page number is missing.  In a run
    that reaches the loop the part is: the whole range when every page of it
    gives its content; otherwise, [i] being the first index whose page does
    not, the indices before [i] followed by [i] itself when that page
    exists (it failed after its crop call), and the indices before [i] only
    when it does not exist.  One of the two is the case. *)
Theorem crops_in_page_order (w : world) (input_file : string)
    (out : option string) (start_page end_page : option Z)
    (hh fh : option float) :
  let run := pdf_to_excel w input_file out start_page end_page hh fh in
  crop_indices run.1
  `prefix_of` match start_page, end_page with
              | Some s, Some e => range (s - 1) e
              | _, _ => []
              end
  ∧ (∀ output_file h f pages s e,
       out = Some output_file → hh = Some h → fh = Some f →
       start_page = Some s → end_page = Some e →
       path_exists w input_file = true →
       endswith (lower input_file) ".pdf" = true →
       endswith (lower output_file) ".xlsx" = true →
       pdfplumber_open w input_file = Return pages →
       Workbook_raises w = None →
       let content i := page_content pages (mm_to_points h) (mm_to_points f) i in
       (∀ contents,
          Forall2 (fun i c => content i = Some c) (range (s - 1) e) contents →
          crop_indices run.1 = range (s - 1) e)
       ∧ (∀ done i rest contents,
            range (s - 1) e = done ++ i :: rest →
            Forall2 (fun i c => content i = Some c) done contents →
            content i = None →
            crop_indices run.1 = match index_page pages i with
                                 | Some _ => done ++ [i]
                                 | None => done
                                 end)
       ∧ ((∃ contents,
             Forall2 (fun i c => content i = Some c) (range (s - 1) e) contents)
          ∨ (∃ done i rest contents,
               range (s - 1) e = done ++ i :: rest
               ∧ Forall2 (fun i c => content i = Some c) done contents
               ∧ content i = None))).
Proof.
  intros run. subst run. split.
  - destruct (crop_indices_nil_or
                (pdf_to_excel w input_file out start_page end_page hh fh).1)
      as [->|(i & box & Hin)]; [apply prefix_nil|].
    destruct (pdf_to_excel_reached_loop w _ _ _ _ _ _ _ Hin)
      as (output_file & h & f & pages & -> & -> & -> & Hex & Hpdf & Hxlsx
          & Ho & Hw);
      [done..|].
    rewrite (pdf_to_excel_run w input_file Hex Hpdf output_file Hxlsx
               start_page end_page h f pages Ho Hw).
    assert (Hloop : crop_indices
              (page_loop pages (mm_to_points h) (mm_to_points f) start_page
                 end_page ([], [Sheet "Text_Body" ∅])).1
            `prefix_of` match start_page, end_page with
                        | Some s, Some e => range (s - 1) e
                        | _, _ => []
                        end).
    { destruct start_page as [s|], end_page as [e|]; try done.
      rewrite page_loop_Some. apply for_each_crop_prefix. }
    destruct (page_loop _ _ _ _ _ _) as [t [[all_text wb]|ex]]; simpl in Hloop.
    + destruct (text_error all_text) as [err|];
        [simpl; rewrite ?crop_indices_app; simpl; by rewrite ?app_nil_r|].
      cbv zeta.
      destruct (workbook_save w _ output_file) as [[]|ex];
        [|destruct (is_Exception ex)]; simpl;
        rewrite ?crop_indices_app; simpl; by rewrite ?app_nil_r.
    + destruct (is_Exception ex); simpl;
        rewrite ?crop_indices_app; simpl; by rewrite ?app_nil_r.
  - intros output_file h f pages s e -> -> -> -> -> Hex Hpdf Hxlsx Ho Hw content.
    split_and!.
    + intros contents Hall.
      rewrite (pdf_to_excel_all_pages w input_file output_file pages s e h f
                 Hex Hpdf Hxlsx Ho Hw contents Hall).
      cbv zeta.
      pose proof (crop_indices_content _ _ _ _ _ Hall) as Hcrops.
      destruct (text_error _) as [err|];
        [simpl; rewrite ?crop_indices_app; simpl; by rewrite ?app_nil_r|].
      destruct (workbook_save w _ output_file) as [[]|ex];
        [|destruct (is_Exception ex)]; simpl;
        rewrite ?crop_indices_app; simpl; by rewrite ?app_nil_r.
    + intros done i rest contents Hrange Hdone Hnone.
      rewrite (pdf_to_excel_run w input_file Hex Hpdf output_file Hxlsx
                 (Some s) (Some e) h f pages Ho Hw).
      rewrite page_loop_Some, Hrange.
      pose proof (crop_indices_content _ _ _ _ _ Hdone) as Hcrops.
      destruct (index_page pages i) as [p|] eqn:Hp.
      * destruct (page_content_None_error _ _ _ _ _ Hp Hnone) as [ex Hex'].
        rewrite (for_each_page_error _ _ _ _ _ _ _ _ _ _ Hdone Hp Hex').
        rewrite crop_events_app. unfold crop_events at 2 4.
        cbn [omap list_omap]. rewrite Hp.
        destruct (is_Exception ex); simpl;
          rewrite ?crop_indices_app; simpl; by rewrite ?app_nil_r, ?Hcrops.
      * rewrite (for_each_out_of_range _ _ _ _ _ _ _ _ Hdone Hp).
        simpl. rewrite ?crop_indices_app. simpl.
        by rewrite ?app_nil_r.
    + apply first_failing_page.
Qed.

Lemma crops_in_page_order_witness :
  crop_indices
    (pdf_to_excel (example_world [hello_page; broken_page; last_page] None)
                  "in.pdf" (Some "out.xlsx") (Some 1) (Some 3)
                  (Some 0%float) (Some 0%float)).1
  = [0; 1]
  ∧ crop_indices
      (pdf_to_excel (example_world [hello_page; last_page] None)
                    "in.pdf" (Some "out.xlsx") (Some 1) (Some 2)
                    (Some 0%float) (Some 0%float)).1
    = [0; 1]
  ∧ crop_indices
      (pdf_to_excel (example_world [hello_page] None)
                    "in.pdf" (Some "out.xlsx") (Some 1) (Some 3)
                    (Some 0%float) (Some 0%float)).1
    = [0].
Proof.
  split_and!.
  - exact (proj1 (proj2 (proj2
      (crops_in_page_order
         (example_world [hello_page; broken_page; last_page] None)
         "in.pdf" (Some "out.xlsx") (Some 1) (Some 3)
         (Some 0%float) (Some 0%float))
      "out.xlsx" 0%float 0%float [hello_page; broken_page; last_page] 1 3
      eq_refl eq_refl eq_refl eq_refl eq_refl
      eq_refl eq_refl eq_refl eq_refl eq_refl))
      [0] 1 [2] [(Some "hello", [])] eq_refl
      ltac:(repeat constructor) eq_refl).
  - exact (proj1 (proj2
      (crops_in_page_order
         (example_world [hello_page; last_page] None)
         "in.pdf" (Some "out.xlsx") (Some 1) (Some 2)
         (Some 0%float) (Some 0%float))
      "out.xlsx" 0%float 0%float [hello_page; last_page] 1 2
      eq_refl eq_refl eq_refl eq_refl eq_refl
      eq_refl eq_refl eq_refl eq_refl eq_refl)
      [(Some "hello", []); (Some "last", [])]
      ltac:(repeat constructor)).
  - exact (proj1 (proj2 (proj2
      (crops_in_page_order
         (example_world [hello_page] None)
         "in.pdf" (Some "out.xlsx") (Some 1) (Some 3)
         (Some 0%float) (Some 0%float))
      "out.xlsx" 0%float 0%float [hello_page] 1 3
      eq_refl eq_refl eq_refl eq_refl eq_refl
      eq_refl eq_refl eq_refl eq_refl eq_refl))
      [0] 1 [2] [(Some "hello", [])] eq_refl
      ltac:(repeat constructor) eq_refl).
Defined.

(** ** Errors that are not caught *)

(** X15. An exception that is not an [Exception] (a [KeyboardInterrupt])
    raised by a collaborator while page [i + 1] is processed is neither
    wrapped nor printed: it leaves [pdf_to_excel]; the document is closed
    before it does, and nothing is saved. *)
Theorem interrupt_closes_document (w : world) (input_file output_file : string)
    (start_page end_page : Z) (header_height_mm footer_height_mm : float)
    (pages : list page) (done rest : list Z) (i : Z)
    (contents : list (option string * list table)) (p : page) (ex : exn) :
  path_exists w input_file = true →
  endswith (lower input_file) ".pdf" = true →
  endswith (lower output_file) ".xlsx" = true →
  pdfplumber_open w input_file = Return pages →
  Workbook_raises w = None →
  range (start_page - 1) end_page = done ++ i :: rest →
  Forall2 (fun i c => page_content pages (mm_to_points header_height_mm)
                        (mm_to_points footer_height_mm) i = Some c)
          done contents →
  index_page pages i = Some p →
  page_error (mm_to_points header_height_mm) (mm_to_points footer_height_mm) p
  = Some ex →
  is_Exception ex = false →
  pdf_to_excel w input_file (Some output_file) (Some start_page) (Some end_page)
               (Some header_height_mm) (Some footer_height_mm)
  = (EvOpen input_file
     :: crop_events pages (mm_to_points header_height_mm)
          (mm_to_points footer_height_mm) (done ++ [i])
     ++ [EvClose],
     Raise ex).
Proof.
  intros Hex Hpdf Hxlsx Ho Hw Hrange Hdone Hp Herr Hexn.
  rewrite (pdf_to_excel_run w input_file Hex Hpdf output_file Hxlsx
             (Some start_page) (Some end_page) header_height_mm
             footer_height_mm pages Ho Hw).
  rewrite page_loop_Some, Hrange.
  rewrite (for_each_page_error _ _ _ _ _ _ _ _ _ _ Hdone Hp Herr).
  by rewrite Hexn.
Qed.

Lemma interrupt_closes_document_witness :
  pdf_to_excel
    (example_world
       [hello_page;
        a4 (Return (CroppedPage (Return (Some "x"))
                      (Raise (Exn KeyboardInterrupt ""))))] None)
    "in.pdf" (Some "out.xlsx") (Some 1) (Some 2) (Some 0%float) (Some 0%float)
  = ([EvOpen "in.pdf";
      EvWithinBBox 0 (BBox 0 0 595 842);
      EvWithinBBox 1 (BBox 0 0 595 842);
      EvClose],
     Raise (Exn KeyboardInterrupt "")).
Proof.
  apply (interrupt_closes_document
           (example_world
              [hello_page;
               a4 (Return (CroppedPage (Return (Some "x"))
                             (Raise (Exn KeyboardInterrupt ""))))] None)
           "in.pdf" "out.xlsx" 1 2 0%float 0%float
           [hello_page;
            a4 (Return (CroppedPage (Return (Some "x"))
                          (Raise (Exn KeyboardInterrupt ""))))]
           [0] [] 1 [(Some "hello", [])]
           (a4 (Return (CroppedPage (Return (Some "x"))
                          (Raise (Exn KeyboardInterrupt "")))))
           (Exn KeyboardInterrupt ""));
    try reflexivity.
  repeat constructor.
Defined.

(** ** The entry point *)

Lemma pdf_to_excel_no_log (w : world) (input_file : string)
    (out : option string) (start_page end_page : option Z)
    (hh fh : option float) line :
  ¬ In (EvLog line) (pdf_to_excel w input_file out start_page end_page hh fh).1.
Proof.
  intros Hin.
  destruct (pdf_to_excel_reached_loop w _ _ _ _ _ _ _ Hin)
    as (output_file & h & f & pages & -> & -> & -> & Hex & Hpdf & Hxlsx & Ho & Hw);
    [done..|].
  rewrite (pdf_to_excel_run w input_file Hex Hpdf output_file Hxlsx
             start_page end_page h f pages Ho Hw) in Hin.
  pose proof (page_loop_are_crops pages (mm_to_points h) (mm_to_points f)
                start_page end_page ([], [Sheet "Text_Body" ∅])) as Hcrops.
  destruct (page_loop _ _ _ _ _ _) as [t [[all_text wb]|ex]].
  - destruct (text_error all_text) as [err|].
    { destruct Hin as [Hin|Hin]; [done|].
      apply in_app_or in Hin as [Hin|Hin];
        [by destruct (Hcrops _ Hin) as (i & box & ?)|].
      simpl in Hin. intuition congruence. }
    cbv zeta in Hin.
    destruct (workbook_save w _ output_file) as [[]|ex];
      [|destruct (is_Exception ex)]; simpl in Hin;
      rewrite <- ?app_assoc in Hin;
      (destruct Hin as [Hin|Hin]; [done|]);
      (apply in_app_or in Hin as [Hin|Hin];
       [by destruct (Hcrops _ Hin) as (i & box & ?)|]);
      simpl in Hin; intuition congruence.
  - destruct (is_Exception ex); simpl in Hin;
      (destruct Hin as [Hin|Hin]; [done|]);
      (apply in_app_or in Hin as [Hin|Hin];
       [by destruct (Hcrops _ Hin) as (i & box & ?)|]);
      simpl in Hin; intuition congruence.
Qed.

(** X13. [main] returns exit status 0 exactly when [pdf_to_excel] returns,
    whatever it printed; an exception that leaves [pdf_to_excel] leaves
    [main] too.  "Hello World!" is logged in the first case only. *)
Theorem main_exit_status (w : world) (a : args) :
  (main w a).2
  = match (pdf_to_excel w (arg_input_file a) (arg_output_file a)
             (arg_start_page a) (arg_end_page a)
             (arg_header_height_mm a) (arg_footer_height_mm a)).2 with
    | Return _ => Return 0
    | Raise e => Raise e
    end
  ∧ (In (EvLog "Hello World!") (main w a).1 ↔ (main w a).2 = Return 0).
Proof.
  pose proof (pdf_to_excel_no_log w (arg_input_file a) (arg_output_file a)
                (arg_start_page a) (arg_end_page a)
                (arg_header_height_mm a) (arg_footer_height_mm a)
                "Hello World!") as Hnolog.
  unfold main.
  destruct (pdf_to_excel _ _ _ _ _ _ _) as [t [[]|e]]; simpl in Hnolog.
  - destruct (arg_verbose a); simpl; (split; [done|]);
      rewrite ?in_app_iff; simpl; intuition congruence.
  - destruct (arg_verbose a); simpl; (split; [done|]);
      rewrite ?app_nil_r; simpl; intuition congruence.
Qed.

(** X14. With an existing [.pdf] input file and no [-o] option, [main]
    does not return an exit status: the [AttributeError] of
    [output_file.lower()] leaves it, after the line of the verbose mode if
    that was asked for and nothing else. *)
Theorem main_without_output_file (w : world) (a : args) :
  path_exists w (arg_input_file a) = true →
  endswith (lower (arg_input_file a)) ".pdf" = true →
  arg_output_file a = None →
  main w a
  = ((if arg_verbose a then [EvPrint "Verbose mode is enabled."] else []),
     Raise (Exn AttributeError "'NoneType' object has no attribute 'lower'")).
Proof.
  intros Hex Hpdf Hout. unfold main. rewrite Hout.
  rewrite (pdf_to_excel_output_None w (arg_input_file a) Hex Hpdf).
  by destruct (arg_verbose a).
Qed.

Lemma main_without_output_file_witness :
  main (example_world [hello_page] None)
       (Args "in.pdf" None None None None None true)
  = ([EvPrint "Verbose mode is enabled."],
     Raise (Exn AttributeError "'NoneType' object has no attribute 'lower'")).
Proof.
  apply (main_without_output_file (example_world [hello_page] None)
           (Args "in.pdf" None None None None None true));
    reflexivity.
Defined.

(** ** Looking up a page *)

(** X16. The page lookup of the loop, for a document of [n] pages: an index
    from 0 to [n - 1] gives the page at that position; an index from [-n] to
    [-1] gives the page at position [n + i], counted from the end; any other
    index raises the [IndexError] that names page [i + 1] and the page
    count. *)
Theorem get_page_bounds (pages : list page) (i : Z) :
  let n := Z.of_nat (length pages) in
  (0 ≤ i < n →
   ∃ p, pages !! Z.to_nat i = Some p ∧ get_page pages i = ([], Return p))
  ∧ (- n ≤ i < 0 →
     ∃ p, pages !! Z.to_nat (n + i) = Some p
          ∧ get_page pages i = ([], Return p))
  ∧ (i < - n ∨ n ≤ i →
     get_page pages i
     = ([], Raise (Exn IndexError
                     ("Page " +:+ pretty (i + 1)
                      +:+ " is out of range. The PDF has "
                      +:+ pretty (length pages) +:+ " pages.")))).
Proof.
  intros n. subst n. unfold get_page, index_page. split_and!.
  - intros [H0 Hn]. destruct (Z.leb_spec 0 i); [|lia].
    destruct (pages !! Z.to_nat i) as [p|] eqn:Hp; [by exists p|].
    apply lookup_ge_None in Hp. lia.
  - intros [Hn H0]. destruct (Z.leb_spec 0 i); [lia|].
    destruct (Z.leb_spec (- Z.of_nat (length pages)) i); [|lia].
    destruct (pages !! Z.to_nat (Z.of_nat (length pages) + i)) as [p|] eqn:Hp;
      [by exists p|].
    apply lookup_ge_None in Hp. lia.
  - intros [Hlow|Hhigh].
    + destruct (Z.leb_spec 0 i); [lia|].
      by destruct (Z.leb_spec (- Z.of_nat (length pages)) i); [lia|].
    + destruct (Z.leb_spec 0 i); [|lia].
      destruct (pages !! Z.to_nat i) as [p|] eqn:Hp; [|done].
      apply lookup_lt_Some in Hp. lia.
Qed.

Lemma get_page_bounds_witness :
  (∃ p, [hello_page; last_page] !! Z.to_nat 1 = Some p
        ∧ get_page [hello_page; last_page] 1 = ([], Return p))
  ∧ (∃ p, [hello_page; last_page] !! Z.to_nat (2 + -2) = Some p
          ∧ get_page [hello_page; last_page] (-2) = ([], Return p))
  ∧ get_page [hello_page; last_page] 2
    = ([], Raise (Exn IndexError
                    ("Page " +:+ pretty (2 + 1)
                     +:+ " is out of range. The PDF has "
                     +:+ pretty 2%nat +:+ " pages."))).
Proof.
  split_and!.
  - apply (proj1 (get_page_bounds [hello_page; last_page] 1)). simpl. lia.
  - apply (proj1 (proj2 (get_page_bounds [hello_page; last_page] (-2)))).
    simpl. lia.
  - apply (proj2 (proj2 (get_page_bounds [hello_page; last_page] 2))).
    simpl. lia.
Defined.

(** ** The loop only adds *)

(** X17. A loop that goes through only adds to its two variables: the text
    blocks collected before it are the first entries of the list after it,
    the worksheets the workbook had before it (the text worksheet among them)
    are, unchanged, its first worksheets after it, and the list has grown by
    at most one entry per index. *)
Theorem loop_only_appends (pages : list page) (hh fh : float)
    (indices : list Z) (all_text all_text' : list string)
    (wb wb' : workbook) (t : list event) :
  for_each (process_page pages hh fh) indices (all_text, wb)
  = (t, Return (all_text', wb')) →
  all_text `prefix_of` all_text'
  ∧ wb `prefix_of` wb'
  ∧ (length all_text' ≤ length all_text + length indices)%nat.
Proof.
  intros Hloop.
  destruct (for_each_Return_inv _ _ _ _ _ _ _ Hloop) as [contents Hall].
  rewrite (for_each_content _ _ _ _ _ _ _ Hall) in Hloop.
  injection Hloop as _ <- <-.
  split_and!; [by eexists|by eexists|].
  rewrite length_app. apply Nat.add_le_mono_l.
  clear. revert contents.
  induction indices as [|i indices IH]; intros [|c contents]; simpl; try lia.
  rewrite length_app. specialize (IH contents).
  destruct c as [[[|ch txt]|] tables]; simpl; lia.
Qed.

Lemma loop_only_appends_witness :
  ["before"] `prefix_of` ["before"; "Page 1:" +:+ nl +:+ "hello"]
  ∧ [Sheet "Text_Body" ∅]
    `prefix_of` [Sheet "Text_Body" ∅;
                 put_table [[Some "a"; Some "b"]; [Some "c"; Some "d"]]
                   (Sheet "Table_Page_2_1" ∅)]
  ∧ (length ["before"; "Page 1:" +:+ nl +:+ "hello"]
     ≤ length ["before"] + length [0; 1])%nat.
Proof.
  apply (loop_only_appends [hello_page; table_page] 0 0 [0; 1]
           ["before"] _ [Sheet "Text_Body" ∅] _
           [EvWithinBBox 0 (BBox 0 0 595 842);
            EvWithinBBox 1 (BBox 0 0 595 842)]).
  reflexivity.
Defined.

(** ** Sheet titles *)

Section Titles.
Implicit Types (s a b : string).

Lemma numeric_append a b :
  numeric (a +:+ b) = numeric a && numeric b.
Proof.
  induction a as [|c a IH]; simpl; [done|]. rewrite IH. by rewrite andb_assoc.
Qed.

Lemma numeric_pretty_N_char (x : N) :
  numeric (String (pretty_N_char x) EmptyString) = true.
Proof. unfold pretty_N_char. by repeat case_match. Qed.

Lemma numeric_pretty_N_go (x : N) s :
  numeric s = true → numeric (pretty_N_go x s) = true.
Proof.
  revert s. induction (N.lt_wf_0 x) as [x _ IH]; intros s Hs.
  destruct (decide (0 < x)%N) as [Hx|Hx].
  - rewrite pretty_N_go_step by done. apply IH; [by apply N.div_lt|].
    change (String ?c s) with (String c EmptyString +:+ s).
    by rewrite numeric_append, numeric_pretty_N_char, Hs.
  - assert (x = 0%N) as -> by lia. by rewrite pretty_N_go_0.
Qed.

Lemma numeric_pretty_N (x : N) : numeric (pretty x) = true.
Proof.
  unfold pretty, pretty_N. case_decide; [done|].
  by apply numeric_pretty_N_go.
Qed.

Lemma numeric_pretty_nat (k : nat) : numeric (pretty k) = true.
Proof. apply numeric_pretty_N. Qed.

Lemma numeric_pretty_Z (i : Z) : numeric (pretty i) = true.
Proof.
  destruct i as [|p|p]; [done|apply numeric_pretty_N|].
  change (pretty (Z.neg p)) with ("-" +:+ pretty (N.pos p)).
  rewrite numeric_append. by rewrite numeric_pretty_N.
Qed.

Lemma numeric_cons c s :
  numeric (String c s)
  = ((nat_of_ascii c =? 45)%nat
     || (48 <=? nat_of_ascii c)%nat && (nat_of_ascii c <=? 57)%nat)
    && numeric s.
Proof. done. Qed.

(** [lower] keeps digits and minus signs. *)
Lemma lower_numeric s : numeric s = true → lower s = s.
Proof.
  induction s as [|c s IH]; [done|].
  rewrite numeric_cons. intros [Hc Hs]%andb_true_iff.
  change (lower (String c s)) with (String (lower_char c) (lower s)).
  rewrite IH by done. f_equal.
  unfold lower_char. cbv zeta. revert Hc.
  generalize (nat_of_ascii c) at 1 2 3 4 5 6 7 8 9. intros n Hc.
  assert (Hn : (n = 45 ∨ 48 ≤ n ≤ 57)%nat).
  { apply orb_true_iff in Hc as [Hc|Hc].
    - apply Nat.eqb_eq in Hc. lia.
    - apply andb_true_iff in Hc as [H1 H2].
      apply Nat.leb_le in H1. apply Nat.leb_le in H2. lia. }
  clear Hc.
  destruct (Nat.leb_spec 65 n), (Nat.leb_spec n 90), (Nat.leb_spec 192 n),
    (Nat.leb_spec n 214), (Nat.leb_spec 216 n), (Nat.leb_spec n 222);
    simpl; try lia; done.
Qed.

(** Two strings of digits and minus signs, each followed by an underscore
    and some rest: equal strings have equal parts. *)
Lemma numeric_split a a' b b' :
  numeric a = true → numeric a' = true →
  a +:+ String "_" b = a' +:+ String "_" b' → a = a' ∧ b = b'.
Proof.
  revert a'. induction a as [|c a IH]; intros [|c' a']; simpl.
  - by intros _ _ [= ->].
  - intros _ [Hc _]%andb_true_iff [= <- _]. done.
  - intros [Hc _]%andb_true_iff _ [= -> _]. done.
  - intros [_ Ha]%andb_true_iff [_ Ha']%andb_true_iff [= -> Heq].
    destruct (IH a' Ha Ha' Heq) as [-> ->]. done.
Qed.

Lemma lower_table_title (i : Z) (k : nat) :
  lower (table_title i k) = "table_page_" +:+ pretty (i + 1) +:+ "_" +:+ pretty k.
Proof.
  unfold table_title. rewrite !lower_append.
  rewrite (lower_numeric (pretty (i + 1))) by apply numeric_pretty_Z.
  rewrite (lower_numeric (pretty k)) by apply numeric_pretty_nat.
  done.
Qed.

(** Different pages or different table numbers give different titles, also
    when the case of the letters is ignored. *)
Lemma lower_table_title_inj (i i' : Z) (k k' : nat) :
  lower (table_title i k) = lower (table_title i' k') → i = i' ∧ k = k'.
Proof.
  rewrite !lower_table_title. simpl. intros [= Heq].
  apply numeric_split in Heq as [Hi Hk];
    [|apply numeric_pretty_Z|apply numeric_pretty_Z].
  apply (inj pretty) in Hi. apply (inj pretty) in Hk.
  split; [lia|done].
Qed.

Lemma lower_table_title_ne_text_body (i : Z) (k : nat) :
  lower (table_title i k) ≠ lower "Text_Body".
Proof. rewrite lower_table_title. done. Qed.

End Titles.

(** The pairs (page index, table number) of the table worksheets. *)
Lemma table_sheet_titles (indices : list Z)
    (contents : list (option string * list table)) :
  title <$> concat (zip_with (fun i c => saved_table_sheets i c.2)
                             indices contents)
  = (fun '(i, k) => table_title i k)
    <$> concat (zip_with (fun i (c : option string * list table) =>
                            (fun '(k, _) => (i, k)) <$> enumerate 1 c.2)
                         indices contents).
Proof.
  revert contents. induction indices as [|i indices IH]; intros [|c contents];
    simpl; try done.
  rewrite !fmap_app, IH. f_equal.
  unfold saved_table_sheets. rewrite put_table_sheets_app. simpl.
  generalize 1%nat. induction c.2 as [|t tables IHt]; intros k; simpl; [done|].
  by rewrite IHt, title_put_table.
Qed.

Lemma table_pairs_NoDup (indices : list Z)
    (contents : list (option string * list table)) :
  NoDup indices →
  NoDup (concat (zip_with (fun i (c : option string * list table) =>
                             (fun '(k, _) => (i, k)) <$> enumerate 1 c.2)
                          indices contents)).
Proof.
  intros Hnd. revert contents.
  induction Hnd as [|i indices Hi Hnd IH]; intros [|c contents]; simpl;
    try constructor.
  apply NoDup_app. split_and!.
  - generalize 1%nat. induction c.2 as [|t tables IHt]; intros k; simpl;
      [constructor|].
    apply NoDup_cons. split; [|apply IHt].
    intros Hin. assert (Hge : ∀ l (m n : nat),
      (i, n) ∈ (fun '(k, _) => (i, k)) <$> enumerate (A:=list (list cell_value)) m l
      → (m ≤ n)%nat).
    { clear. induction l as [|x l IHl]; intros m n; simpl.
      - by intros ?%elem_of_nil.
      - intros [[= ->]|Hin]%elem_of_cons; [lia|].
        apply IHl in Hin. lia. }
    apply Hge in Hin. lia.
  - intros [j k] Hj Hin.
    assert (j = i) as ->.
    { apply list_elem_of_fmap in Hj as ([k' t] & [= -> ->] & _). done. }
    apply Hi. clear -Hin. revert contents Hin.
    induction indices as [|i' indices IHi]; intros [|c' contents]; simpl;
      try (by intros ?%elem_of_nil).
    intros [Hin|Hin]%elem_of_app.
    + apply list_elem_of_fmap in Hin as ([k' t] & [= -> ->] & _). by left.
    + right. by eapply IHi.
  - apply IH.
Qed.

Lemma title_saved_text_sheet (text_data : list string) :
  title (saved_text_sheet text_data) = "Text_Body".
Proof. apply title_put_text_from. Qed.

(** X18. No two worksheets of a workbook that a run saves have the same
    title, also when the case of the letters is ignored: the titles
    "Table_Page_{i+1}_{k}" differ from each other and from "Text_Body".  So
    every worksheet keeps the title [create_sheet] was asked for. *)
Theorem sheet_titles_distinct (w : world) (input_file : string)
    (out : option string) (start_page end_page : option Z)
    (hh fh : option float) (path : string) (wb : workbook) :
  In (EvSave path wb) (pdf_to_excel w input_file out start_page end_page hh fh).1 →
  NoDup (lower <$> (title <$> wb)).
Proof.
  intros Hin.
  destruct (pdf_to_excel_saved_inv _ _ _ _ _ _ _ _ _ Hin)
    as (s & e & h & f & pages & contents & _ & _ & _ & _ & _ & _ & _ & _ & ->).
  rewrite !fmap_cons, title_saved_text_sheet.
  rewrite table_sheet_titles, <- list_fmap_compose.
  apply NoDup_cons. split.
  - intros Hin'. apply list_elem_of_fmap in Hin' as ([i k] & Heq & _).
    simpl in Heq. by apply (lower_table_title_ne_text_body i k).
  - apply NoDup_fmap_2_strong; [|apply table_pairs_NoDup, NoDup_seqZ].
    intros [i k] [i' k'] _ _ Heq. simpl in Heq.
    by apply lower_table_title_inj in Heq as [-> ->].
Qed.

Lemma sheet_titles_distinct_witness :
  NoDup (lower <$> (title <$>
    [saved_text_sheet ["Page 1:" +:+ nl +:+ "hello"];
     put_table [[Some "a"; Some "b"]; [Some "c"; Some "d"]]
       (Sheet "Table_Page_2_1" ∅)])).
Proof.
  apply (sheet_titles_distinct (example_world [hello_page; table_page] None)
           "in.pdf" (Some "out.xlsx") (Some 1) (Some 2)
           (Some 0%float) (Some 0%float) "out.xlsx").
  vm_compute. do 4 right. left. reflexivity.
Defined.

(** ** Heights of zero *)

(** Subtracting zero changes no float, be it a zero of either sign, an
    infinity or not a number. *)
Lemma float_sub_0 (x : float) : (x - 0)%float = x.
Proof.
  apply FloatAxioms.Prim2SF_inj. rewrite FloatAxioms.sub_spec.
  change (FloatOps.Prim2SF 0) with (SpecFloat.S754_zero false).
  unfold FloatAxioms.SF64sub, SpecFloat.SFsub.
  by destruct (FloatOps.Prim2SF x) as [[]|[]| |].
Qed.

(** X19. With a header height and a footer height of 0 mm the crop region
    of a page is the whole page, (0, 0, page.width, page.height), whatever
    the two dimensions are. *)
Theorem full_page_crop (p : page) :
  cropping_box (mm_to_points 0) (mm_to_points 0) p
  = BBox 0 0 (width p) (height p).
Proof.
  unfold cropping_box. cbv zeta.
  change (mm_to_points 0) with 0%float. by rewrite float_sub_0.
Qed.

(** ** An end page beyond the document *)

(** X20. A request that starts within the document and ends beyond it
    ([1 <= start_page <= n < end_page] for a document of [n] pages, the pages
    from [start_page] to [n] giving their content): the pages up to the last
    one are cropped, then the lookup of page [n + 1] fails; the document is
    closed, nothing is saved, and the line printed names page [n + 1] and the
    page count [n], whatever [end_page] is. *)
Theorem end_page_beyond_document (w : world) (input_file output_file : string)
    (start_page end_page : Z) (header_height_mm footer_height_mm : float)
    (pages : list page) (contents : list (option string * list table)) :
  path_exists w input_file = true →
  endswith (lower input_file) ".pdf" = true →
  endswith (lower output_file) ".xlsx" = true →
  pdfplumber_open w input_file = Return pages →
  Workbook_raises w = None →
  1 ≤ start_page ≤ Z.of_nat (length pages) →
  Z.of_nat (length pages) < end_page →
  Forall2 (fun i c => page_content pages (mm_to_points header_height_mm)
                        (mm_to_points footer_height_mm) i = Some c)
          (range (start_page - 1) (Z.of_nat (length pages))) contents →
  pdf_to_excel w input_file (Some output_file) (Some start_page) (Some end_page)
               (Some header_height_mm) (Some footer_height_mm)
  = (EvOpen input_file
     :: crop_events pages (mm_to_points header_height_mm)
          (mm_to_points footer_height_mm)
          (range (start_page - 1) (Z.of_nat (length pages)))
     ++ [EvClose;
         EvPrint ("Runtime error: Error processing PDF pages: Page "
                  +:+ pretty (Z.of_nat (length pages) + 1)
                  +:+ " is out of range. The PDF has "
                  +:+ pretty (length pages) +:+ " pages.")],
     Return tt).
Proof.
  intros Hex Hpdf Hxlsx Ho Hw Hs He Hall.
  rewrite (pdf_to_excel_run w input_file Hex Hpdf output_file Hxlsx
             (Some start_page) (Some end_page) header_height_mm
             footer_height_mm pages Ho Hw).
  rewrite page_loop_Some.
  assert (Hrange : range (start_page - 1) end_page
            = range (start_page - 1) (Z.of_nat (length pages))
              ++ Z.of_nat (length pages)
              :: range (Z.of_nat (length pages) + 1) end_page).
  { unfold range.
    replace (end_page - (start_page - 1))
      with ((Z.of_nat (length pages) - (start_page - 1))
            + (end_page - Z.of_nat (length pages))) by lia.
    rewrite seqZ_app by lia. f_equal.
    replace (start_page - 1 + (Z.of_nat (length pages) - (start_page - 1)))
      with (Z.of_nat (length pages)) by lia.
    rewrite seqZ_cons by lia. f_equal. f_equal; lia. }
  rewrite Hrange.
  assert (Hnone : index_page pages (Z.of_nat (length pages)) = None).
  { unfold index_page. destruct (Z.leb_spec 0 (Z.of_nat (length pages))); [|lia].
    apply lookup_ge_None. lia. }
  rewrite (for_each_out_of_range _ _ _ _ _ _ _ _ Hall Hnone).
  done.
Qed.

Lemma end_page_beyond_document_witness :
  pdf_to_excel (example_world [hello_page; last_page] None) "in.pdf"
               (Some "out.xlsx") (Some 2) (Some 10) (Some 0%float) (Some 0%float)
  = ([EvOpen "in.pdf";
      EvWithinBBox 1 (BBox 0 0 595 842);
      EvClose;
      EvPrint "Runtime error: Error processing PDF pages: Page 3 is out of range. The PDF has 2 pages."],
     Return tt).
Proof.
  apply (end_page_beyond_document (example_world [hello_page; last_page] None)
           "in.pdf" "out.xlsx" 2 10 0%float 0%float [hello_page; last_page]
           [(Some "last", [])]);
    try reflexivity; try (simpl; lia).
  repeat constructor.
Defined.

(** ** A workbook that cannot be created *)

(** X21. When [Workbook()] raises after the document was opened, the
    document is not closed, whether the exception is of a kind the routine
    prints or one that leaves it: the run is the opening of the document,
    followed by the printed line in the first case. *)
Theorem workbook_failure_leaves_document_open (w : world)
    (input_file output_file : string) (start_page end_page : option Z)
    (header_height_mm footer_height_mm : float) (pages : list page) (e : exn) :
  path_exists w input_file = true →
  endswith (lower input_file) ".pdf" = true →
  endswith (lower output_file) ".xlsx" = true →
  pdfplumber_open w input_file = Return pages →
  Workbook_raises w = Some e →
  ¬ In EvClose (pdf_to_excel w input_file (Some output_file) start_page
                  end_page (Some header_height_mm) (Some footer_height_mm)).1
  ∧ pdf_to_excel w input_file (Some output_file) start_page end_page
                 (Some header_height_mm) (Some footer_height_mm)
    = match classify e with
      | Some k =>
          ([EvOpen input_file; EvPrint (kind_label k +:+ exn_str e)], Return tt)
      | None => ([EvOpen input_file], Raise e)
      end.
Proof.
  intros Hex Hpdf Hxlsx Ho Hw.
  rewrite (pdf_to_excel_Workbook_raises w input_file Hex Hpdf output_file Hxlsx
             start_page end_page header_height_mm footer_height_mm pages e Ho Hw).
  split; [|done].
  destruct (classify e); simpl; intuition congruence.
Qed.

Lemma workbook_failure_leaves_document_open_witness :
  ¬ In EvClose
      (pdf_to_excel
         (example_world [hello_page] (Some (Exn ValueError "bad workbook")))
         "in.pdf" (Some "out.xlsx") (Some 1) (Some 1)
         (Some 0%float) (Some 0%float)).1
  ∧ pdf_to_excel
      (example_world [hello_page] (Some (Exn ValueError "bad workbook")))
      "in.pdf" (Some "out.xlsx") (Some 1) (Some 1) (Some 0%float) (Some 0%float)
    = match classify (Exn ValueError "bad workbook") with
      | Some k =>
          ([EvOpen "in.pdf";
            EvPrint (kind_label k +:+ exn_str (Exn ValueError "bad workbook"))],
           Return tt)
      | None => ([EvOpen "in.pdf"], Raise (Exn ValueError "bad workbook"))
      end.
Proof.
  apply (workbook_failure_leaves_document_open
           (example_world [hello_page] (Some (Exn ValueError "bad workbook")))
           "in.pdf" "out.xlsx" (Some 1) (Some 1) 0%float 0%float [hello_page]
           (Exn ValueError "bad workbook"));
    reflexivity.
Defined.

(** ** One worksheet per table *)

Lemma length_table_sheets (indices : list Z)
    (contents : list (option string * list table)) :
  length indices = length contents →
  length (concat (zip_with (fun i c => saved_table_sheets i c.2)
                           indices contents))
  = sum_list (length ∘ snd <$> contents).
Proof.
  revert contents. induction indices as [|i indices IH]; intros [|c contents];
    simpl; try done.
  intros [= Hlen]. rewrite length_app, IH by done. f_equal.
  unfold saved_table_sheets. rewrite put_table_sheets_app. simpl.
  rewrite length_fmap.
  generalize 1%nat. induction c.2 as [|t tables IHt]; intros k; simpl; [done|].
  by rewrite IHt.
Qed.

(** X22. A workbook that a run saves has one worksheet for the text and
    one worksheet for each table found on the pages of the range, and no
    other: its number of worksheets is 1 plus the number of tables of these
    pages. *)
Theorem one_sheet_per_table (w : world) (input_file : string)
    (out : option string) (start_page end_page : option Z)
    (hh fh : option float) (path : string) (wb : workbook) :
  In (EvSave path wb) (pdf_to_excel w input_file out start_page end_page hh fh).1 →
  ∃ s e h f pages contents,
    start_page = Some s ∧ end_page = Some e ∧ hh = Some h ∧ fh = Some f
    ∧ pdfplumber_open w input_file = Return pages
    ∧ Forall2 (fun i c => page_content pages (mm_to_points h)
                            (mm_to_points f) i = Some c)
              (range (s - 1) e) contents
    ∧ length wb = S (sum_list (length ∘ snd <$> contents)).
Proof.
  intros Hin.
  destruct (pdf_to_excel_saved_inv _ _ _ _ _ _ _ _ _ Hin)
    as (s & e & h & f & pages & contents & _ & -> & -> & -> & -> & Ho & Hall
        & _ & ->).
  exists s, e, h, f, pages, contents. split_and!; try done.
  simpl. f_equal. apply length_table_sheets. by eapply Forall2_length.
Qed.

Lemma one_sheet_per_table_witness :
  ∃ s e h f pages contents,
    Some 1 = Some s ∧ Some 2 = Some e ∧ Some 0%float = Some h
    ∧ Some 0%float = Some f
    ∧ pdfplumber_open (example_world [hello_page; table_page] None) "in.pdf"
      = Return pages
    ∧ Forall2 (fun i c => page_content pages (mm_to_points h)
                            (mm_to_points f) i = Some c)
              (range (s - 1) e) contents
    ∧ length
        [saved_text_sheet ["Page 1:" +:+ nl +:+ "hello"];
         put_table [[Some "a"; Some "b"]; [Some "c"; Some "d"]]
           (Sheet "Table_Page_2_1" ∅)]
      = S (sum_list (length ∘ snd <$> contents)).
Proof.
  apply (one_sheet_per_table (example_world [hello_page; table_page] None)
           "in.pdf" (Some "out.xlsx") (Some 1) (Some 2)
           (Some 0%float) (Some 0%float) "out.xlsx").
  vm_compute. do 4 right. left. reflexivity.
Defined.
